(** * gitbook-mcp: the code indexer of [gitbook-mcp.py], embedded in Rocq

    The development follows the layout of the Python file: the Python
    built-ins the indexer relies on ([str] methods, [dict], [re], [os.path],
    [hashlib.md5]), the entity dataclasses, [CodeIndexer] and the [/search]
    route of [GitBookMCPServer]; the properties come last.

    Text is modelled by [string]: a Python [str] whose code points lie in
    U+0000..U+00FF, one [ascii] per code point. *)

From Stdlib Require Import ZArith NArith List String Ascii Bool Lia.
From Stdlib Require Import DecimalString.
Import ListNotations.

Open Scope string_scope.
Open Scope Z_scope.

(* ------------------------------------------------------------------ *)
(** ** Python [str] *)

Module PyStr.

Definition LF : ascii := "010"%char.
Definition CR : ascii := "013"%char.

(** The string ['\n'] *)
Definition NL : string := String LF EmptyString.

(** [s1 + s2 + ...] *)
Definition concat (l : list string) : string := String.concat "" l.

(** [c.lower()] on U+0000..U+00FF: A-Z and the Latin-1 capitals
    U+00C0..U+00DE (except the multiplication sign U+00D7) move by 32. *)
Definition lower_char (c : ascii) : ascii :=
  let n := N_of_ascii c in
  if ((65 <=? n) && (n <=? 90))%N then ascii_of_N (n + 32)
  else if ((192 <=? n) && (n <=? 222) && negb (n =? 215))%N
       then ascii_of_N (n + 32)
  else c.

(** [s.lower()] *)
Fixpoint lower (s : string) : string :=
  match s with
  | EmptyString => EmptyString
  | String c s' => String (lower_char c) (lower s')
  end.

(** [s.startswith(p)] *)
Definition startswith (s p : string) : bool := String.prefix p s.

(** [sub in s] *)
Fixpoint contains (sub s : string) : bool :=
  match s with
  | EmptyString => String.eqb sub EmptyString
  | String _ s' => String.prefix sub s || contains sub s'
  end.

(** [s.endswith(suf)] *)
Definition endswith (s suf : string) : bool :=
  let n := String.length s in
  let k := String.length suf in
  (k <=? n)%nat && String.eqb (String.substring (n - k) k s) suf.

(** [s.replace(c, by)] for a one-character [c] *)
Fixpoint replace (c : ascii) (by_ : string) (s : string) : string :=
  match s with
  | EmptyString => EmptyString
  | String d s' =>
      if Ascii.eqb d c then by_ ++ replace c by_ s'
      else String d (replace c by_ s')
  end.

(** [s.split(sep)] for a one-character [sep]: never empty. *)
Fixpoint split (sep : ascii) (s : string) : list string :=
  match s with
  | EmptyString => [EmptyString]
  | String c s' =>
      if Ascii.eqb c sep then EmptyString :: split sep s'
      else match split sep s' with
           | [] => [String c EmptyString]
           | piece :: rest => String c piece :: rest
           end
  end.

(** [l[-1]] of a list of strings; [None] is [IndexError]. *)
Definition last_item (l : list string) : option string :=
  match rev l with
  | [] => None
  | x :: _ => Some x
  end.

(** The line boundaries of [str.splitlines] below U+0100:
    LF, VT, FF, CR, FS, GS, RS and NEL. *)
Definition is_linebreak (c : ascii) : bool :=
  let n := N_of_ascii c in
  (((10 <=? n) && (n <=? 13)) || ((28 <=? n) && (n <=? 30)) || (n =? 133))%N.

(** [s.splitlines()]: CR LF is one boundary, and a final boundary opens no
    further line. *)
Fixpoint splitlines (s : string) : list string :=
  match s with
  | EmptyString => []
  | String c s' =>
      if is_linebreak c then
        EmptyString ::
          (if Ascii.eqb c CR then
             match s' with
             | String d s'' => if Ascii.eqb d LF then splitlines s''
                               else splitlines s'
             | EmptyString => splitlines s'
             end
           else splitlines s')
      else match splitlines s' with
           | [] => [String c EmptyString]
           | line :: rest => String c line :: rest
           end
  end.

(** [sep.join(l)] *)
Definition join (sep : string) (l : list string) : string :=
  String.concat sep l.

(** [l[a:b]] with Python's treatment of negative and oversized bounds. *)
Definition clamp_index (n i : Z) : Z :=
  if i <? 0 then Z.max (i + n) 0 else Z.min i n.

Definition slice {A : Type} (l : list A) (a b : Z) : list A :=
  let n := Z.of_nat (List.length l) in
  let a' := clamp_index n a in
  let b' := clamp_index n b in
  firstn (Z.to_nat (b' - a')) (skipn (Z.to_nat a') l).

(** [s.encode()] (UTF-8) over U+0000..U+00FF, as byte values. *)
Fixpoint encode (s : string) : list Z :=
  match s with
  | EmptyString => []
  | String c s' =>
      let n := Z.of_N (N_of_ascii c) in
      if n <? 128 then n :: encode s'
      else Z.lor 192 (Z.shiftr n 6) :: Z.lor 128 (Z.land n 63) :: encode s'
  end.

(** The string behind an optional value that tested true. *)
Definition str_or_empty (o : option string) : string :=
  match o with
  | Some s => s
  | None => EmptyString
  end.

(** Truthiness of an optional string: [None] and the empty string are
    false. *)
Definition truthy (o : option string) : bool :=
  match o with
  | Some (String _ _) => true
  | _ => false
  end.

End PyStr.

(* ------------------------------------------------------------------ *)
(** ** [hashlib.md5]

    RFC 1321 over 32-bit words held in [Z], every addition wrapped
    modulo 2^32. *)

Module Md5.

Definition wrap32 (x : Z) : Z := x mod 4294967296.
Definition add32 (a b : Z) : Z := wrap32 (a + b).
Definition not32 (a : Z) : Z := Z.lxor a 4294967295.
Definition rotl32 (x s : Z) : Z :=
  Z.lor (wrap32 (Z.shiftl x s)) (Z.shiftr x (32 - s)).

(** floor(2^32 * |sin (i + 1)|), i = 0..63 *)
Definition K : list Z :=
  [ 0xd76aa478; 0xe8c7b756; 0x242070db; 0xc1bdceee;
    0xf57c0faf; 0x4787c62a; 0xa8304613; 0xfd469501;
    0x698098d8; 0x8b44f7af; 0xffff5bb1; 0x895cd7be;
    0x6b901122; 0xfd987193; 0xa679438e; 0x49b40821;
    0xf61e2562; 0xc040b340; 0x265e5a51; 0xe9b6c7aa;
    0xd62f105d; 0x02441453; 0xd8a1e681; 0xe7d3fbc8;
    0x21e1cde6; 0xc33707d6; 0xf4d50d87; 0x455a14ed;
    0xa9e3e905; 0xfcefa3f8; 0x676f02d9; 0x8d2a4c8a;
    0xfffa3942; 0x8771f681; 0x6d9d6122; 0xfde5380c;
    0xa4beea44; 0x4bdecfa9; 0xf6bb4b60; 0xbebfbc70;
    0x289b7ec6; 0xeaa127fa; 0xd4ef3085; 0x04881d05;
    0xd9d4d039; 0xe6db99e5; 0x1fa27cf8; 0xc4ac5665;
    0xf4292244; 0x432aff97; 0xab9423a7; 0xfc93a039;
    0x655b59c3; 0x8f0ccc92; 0xffeff47d; 0x85845dd1;
    0x6fa87e4f; 0xfe2ce6e0; 0xa3014314; 0x4e0811a1;
    0xf7537e82; 0xbd3af235; 0x2ad7d2bb; 0xeb86d391 ].

(** Per-round left rotations. *)
Definition S : list Z :=
  [ 7; 12; 17; 22; 7; 12; 17; 22; 7; 12; 17; 22; 7; 12; 17; 22;
    5; 9; 14; 20; 5; 9; 14; 20; 5; 9; 14; 20; 5; 9; 14; 20;
    4; 11; 16; 23; 4; 11; 16; 23; 4; 11; 16; 23; 4; 11; 16; 23;
    6; 10; 15; 21; 6; 10; 15; 21; 6; 10; 15; 21; 6; 10; 15; 21 ].

Record state := mkState { sA : Z; sB : Z; sC : Z; sD : Z }.

Definition init : state :=
  mkState 0x67452301 0xefcdab89 0x98badcfe 0x10325476.

(** One of the 64 operations on the block [M] (sixteen words). *)
Definition step (M : list Z) (st : state) (i : nat) : state :=
  let '(mkState a b c d) := st in
  let iz := Z.of_nat i in
  let '(f, g) :=
    if iz <? 16 then (Z.lor (Z.land b c) (Z.land (not32 b) d), iz)
    else if iz <? 32 then
      (Z.lor (Z.land d b) (Z.land (not32 d) c), (5 * iz + 1) mod 16)
    else if iz <? 48 then (Z.lxor b (Z.lxor c d), (3 * iz + 5) mod 16)
    else (Z.lxor c (Z.lor b (not32 d)), (7 * iz) mod 16) in
  let f' := add32 (add32 (add32 f a) (nth i K 0)) (nth (Z.to_nat g) M 0) in
  mkState d (add32 b (rotl32 f' (nth i S 0))) b c.

(** Four bytes, least significant first, as one word. *)
Definition word_of_bytes (bs : list Z) : Z :=
  fold_right (fun b acc => b + 256 * acc) 0 bs.

Fixpoint words (n : nat) (bs : list Z) : list Z :=
  match n with
  | O => []
  | Datatypes.S n' => word_of_bytes (firstn 4 bs) :: words n' (skipn 4 bs)
  end.

Definition process_block (st : state) (block : list Z) : state :=
  let M := words 16 block in
  let st' := fold_left (step M) (seq 0 64) st in
  mkState (add32 (sA st) (sA st')) (add32 (sB st) (sB st'))
          (add32 (sC st) (sC st')) (add32 (sD st) (sD st')).

Fixpoint le_bytes (n : nat) (x : Z) : list Z :=
  match n with
  | O => []
  | Datatypes.S n' => x mod 256 :: le_bytes n' (x / 256)
  end.

(** The message followed by 0x80, zeros up to 56 modulo 64, and the bit
    length in eight bytes. *)
Definition pad (msg : list Z) : list Z :=
  let len := Z.of_nat (List.length msg) in
  let zeros := Z.to_nat ((55 - len) mod 64) in
  msg ++ [128] ++ repeat 0 zeros ++ le_bytes 8 (wrap32 (8 * len) + 4294967296 * ((8 * len / 4294967296) mod 4294967296)).

Fixpoint blocks (n : nat) (bs : list Z) (st : state) : state :=
  match n with
  | O => st
  | Datatypes.S n' =>
      match bs with
      | [] => st
      | _ => blocks n' (skipn 64 bs) (process_block st (firstn 64 bs))
      end
  end.

Definition digest (msg : list Z) : list Z :=
  let p := pad msg in
  let st := blocks (List.length p) p init in
  le_bytes 4 (sA st) ++ le_bytes 4 (sB st) ++ le_bytes 4 (sC st)
    ++ le_bytes 4 (sD st).

Definition hex_digit (x : Z) : ascii :=
  if x <? 10 then ascii_of_N (Z.to_N (48 + x))
  else ascii_of_N (Z.to_N (87 + x)).

Fixpoint hex (bs : list Z) : string :=
  match bs with
  | [] => EmptyString
  | b :: bs' => String (hex_digit (b / 16)) (String (hex_digit (b mod 16)) (hex bs'))
  end.

(** [hashlib.md5(data).hexdigest()] *)
Definition hexdigest (data : list Z) : string := hex (digest data).

End Md5.

(* ------------------------------------------------------------------ *)
(** ** [re]

    [re.match] for the patterns the walker builds from plain names and
    [*]: literal characters, [.] and a starred atom.  A pattern with any
    other metacharacter has no compiled form here ([None]); for such a
    pattern the answer of the library is taken from the environment
    ([re_beyond] below). *)

Module Re.

Inductive atom : Type :=
| AnyChar                 (* [.]: any character but a line feed *)
| Lit (c : ascii).

Definition item : Type := (atom * bool)%type.   (* the atom, and whether it is starred *)

Definition metachars : string := "\^$*+?{}[]()|".

Definition is_meta (c : ascii) : bool :=
  PyStr.contains (String c EmptyString) metachars.

Definition atom_of (c : ascii) : atom :=
  if Ascii.eqb c "."%char then AnyChar else Lit c.

Fixpoint compile (p : string) : option (list item) :=
  match p with
  | EmptyString => Some []
  | String c p' =>
      if is_meta c then None
      else match p' with
           | String "*"%char p'' =>
               option_map (cons (atom_of c, true)) (compile p'')
           | _ => option_map (cons (atom_of c, false)) (compile p')
           end
  end.

Definition atom_matches (a : atom) (c : ascii) : bool :=
  match a with
  | AnyChar => negb (Ascii.eqb c PyStr.LF)
  | Lit d => Ascii.eqb c d
  end.

(** Does some prefix of [s] match [r]?  (The engine tries the longest
    repetition first; whether a match exists does not depend on that.) *)
Fixpoint match_here (r : list item) (s : string) {struct r} : bool :=
  match r with
  | [] => true
  | (a, false) :: r' =>
      match s with
      | String c s' => atom_matches a c && match_here r' s'
      | EmptyString => false
      end
  | (a, true) :: r' =>
      (fix star (s : string) : bool :=
         match_here r' s ||
         match s with
         | String c s' => atom_matches a c && star s'
         | EmptyString => false
         end) s
  end.

(** [re.match(pattern, s)] is not [None]. *)
Definition re_match (pattern s : string) : option bool :=
  option_map (fun r => match_here r s) (compile pattern).

(** [\w] for [str] patterns, below U+0100: alphanumerics and [_]. *)
Definition is_word (c : ascii) : bool :=
  let n := N_of_ascii c in
  (((48 <=? n) && (n <=? 57)) || ((65 <=? n) && (n <=? 90)) || (n =? 95)
   || ((97 <=? n) && (n <=? 122))
   || (n =? 170) || (n =? 178) || (n =? 179) || (n =? 181) || (n =? 185)
   || (n =? 186) || ((188 <=? n) && (n <=? 190))
   || ((192 <=? n) && (n <=? 214)) || ((216 <=? n) && (n <=? 246))
   || (248 <=? n))%N.

Definition word_opt (c : option ascii) : bool :=
  match c with
  | Some c => is_word c
  | None => false
  end.

Definition first_char (s : string) : option ascii :=
  match s with
  | String c _ => Some c
  | EmptyString => None
  end.

Fixpoint last_char (s : string) (before : option ascii) : option ascii :=
  match s with
  | EmptyString => before
  | String c s' => last_char s' (Some c)
  end.

(** [\b] between [prev] and the text that follows. *)
Definition boundary (prev : option ascii) (rest : string) : bool :=
  xorb (word_opt prev) (word_opt (first_char rest)).

Fixpoint drop (n : nat) (s : string) : string :=
  match n, s with
  | Datatypes.S n', String _ s' => drop n' s'
  | _, _ => s
  end.

(** The pattern [\b<word>\b] matches at the head of [text], [prev] being
    the character before it. *)
Definition word_at (word : string) (prev : option ascii) (text : string) : bool :=
  boundary prev text && String.prefix word text
  && boundary (last_char word prev) (drop (String.length word) text).

Fixpoint search_from (word : string) (prev : option ascii) (text : string) : bool :=
  word_at word prev text ||
  match text with
  | String c text' => search_from word (Some c) text'
  | EmptyString => false
  end.

(** [re.search(r'\b' + re.escape(word) + r'\b', text)] is not [None]. *)
Definition search_word (word text : string) : bool :=
  search_from word None text.

End Re.

(* ------------------------------------------------------------------ *)
(** ** [os.path] (POSIX) *)

Module OsPath.

Definition sep : ascii := "/"%char.

(** [os.path.join(a, b)] *)
Definition join (a b : string) : string :=
  if PyStr.startswith b "/" then b
  else if String.eqb a "" || PyStr.endswith a "/" then a ++ b
  else a ++ "/" ++ b.

(** [os.path.basename(p)] *)
Definition basename (p : string) : string :=
  match PyStr.last_item (PyStr.split sep p) with
  | Some b => b
  | None => p
  end.

(** [p.rfind(c)], [-1] when [c] does not occur. *)
Fixpoint rfind_from (c : ascii) (s : string) (i found : Z) : Z :=
  match s with
  | EmptyString => found
  | String d s' => rfind_from c s' (i + 1) (if Ascii.eqb d c then i else found)
  end.

Definition rfind (c : ascii) (s : string) : Z := rfind_from c s 0 (-1).

Fixpoint all_dots (s : string) : bool :=
  match s with
  | EmptyString => true
  | String c s' => Ascii.eqb c "."%char && all_dots s'
  end.

(** [os.path.splitext(p)]: the extension starts at the last dot of the
    last component, unless only dots precede it there. *)
Definition splitext (p : string) : string * string :=
  let sepIndex := rfind sep p in
  let dotIndex := rfind "."%char p in
  if sepIndex <? dotIndex then
    let lead := String.substring (Z.to_nat (sepIndex + 1))
                  (Z.to_nat (dotIndex - sepIndex - 1)) p in
    if all_dots lead then (p, "")
    else (String.substring 0 (Z.to_nat dotIndex) p,
          String.substring (Z.to_nat dotIndex)
            (String.length p - Z.to_nat dotIndex) p)
  else (p, "").

Definition components (p : string) : list string :=
  filter (fun x => negb (String.eqb x "")) (PyStr.split sep p).

Fixpoint drop_common (a b : list string) : list string * list string :=
  match a, b with
  | x :: a', y :: b' => if String.eqb x y then drop_common a' b' else (a, b)
  | _, _ => (a, b)
  end.

(** [os.path.relpath(path, start)] for two absolute, normalised paths
    (the indexer's root is an [abspath], the walker joins basenames to
    it). *)
Definition relpath (path start : string) : string :=
  let '(up, down) := drop_common (components start) (components path) in
  match (repeat ".." (List.length up) ++ down)%list with
  | [] => "."
  | rel => PyStr.join "/" rel
  end.

End OsPath.

(* ------------------------------------------------------------------ *)
(** ** [dict]

    A Python [dict] keeps its keys in insertion order, and assigning to a key
    that is present replaces the value where the key stands. *)

Module PyDict.

Definition dict (V : Type) : Type := list (string * V).

Definition empty {V : Type} : dict V := [].

(** [d[k] = v] *)
Fixpoint set {V : Type} (k : string) (v : V) (d : dict V) : dict V :=
  match d with
  | [] => [(k, v)]
  | (k', v') :: d' =>
      if String.eqb k' k then (k', v) :: d' else (k', v') :: set k v d'
  end.

(** [d.get(k)] *)
Fixpoint get {V : Type} (k : string) (d : dict V) : option V :=
  match d with
  | [] => None
  | (k', v') :: d' => if String.eqb k' k then Some v' else get k d'
  end.

(** [d.values()] and iteration over [d] (its keys) *)
Definition values {V : Type} (d : dict V) : list V := map snd d.
Definition keys {V : Type} (d : dict V) : list string := map fst d.

(** [k in d] *)
Definition mem {V : Type} (k : string) (d : dict V) : bool :=
  match get k d with
  | Some _ => true
  | None => false
  end.

End PyDict.

(* ------------------------------------------------------------------ *)
(** ** [ast]

    The syntax tree as the indexer observes it.  A [node] is an AST node
    that carries position attributes (statements, expressions, [arg],
    [alias], ...); its children, in the order of [ast.iter_child_nodes], are
    each tagged with the field they sit in.  A child that carries no line
    number ([arguments], [Load], operators, [Index] of Python 3.8, ...) is
    [Bare].  A field that is [None] or an empty list has no child. *)

Module Ast.

#[local] Unset Elimination Schemes.

Inductive node : Type :=
| Node (cls : string)             (* [type(node).__name__] *)
       (lineno : Z)               (* [node.lineno] *)
       (name : string)            (* [.name], [.id], [.attr], [.arg] or [.module],
                                     whichever the class has; empty otherwise *)
       (doc : option string)      (* [ast.get_docstring(node)] *)
       (children : list child)
with child : Type :=
| Pos (field : string) (n : node)                         (* [hasattr(child, 'lineno')] *)
| Bare (field : string) (cls : string) (children : list child).

#[local] Set Elimination Schemes.

Definition cls (n : node) : string := let 'Node c _ _ _ _ := n in c.
Definition lineno (n : node) : Z := let 'Node _ l _ _ _ := n in l.
Definition name (n : node) : string := let 'Node _ _ x _ _ := n in x.
Definition doc (n : node) : option string := let 'Node _ _ _ d _ := n in d.
Definition children (n : node) : list child := let 'Node _ _ _ _ cs := n in cs.

(** [ast.iter_child_nodes(node)] *)
Definition iter_child_nodes (n : node) : list child := children n.

Definition field_of (c : child) : string :=
  match c with
  | Pos f _ => f
  | Bare f _ _ => f
  end.

(** [isinstance(node, ast.<k>)] *)
Definition isinstance (n : node) (k : string) : bool := String.eqb (cls n) k.

(** A list-valued field of statements or expressions: [node.body],
    [node.bases], [node.names], [arguments.args]. *)
Fixpoint nodes_in (f : string) (cs : list child) : list node :=
  match cs with
  | [] => []
  | Pos g n :: cs' => if String.eqb g f then n :: nodes_in f cs' else nodes_in f cs'
  | Bare _ _ _ :: cs' => nodes_in f cs'
  end.

(** An optional field: [node.returns], [arg.annotation], [expr.value]. *)
Definition node_in (f : string) (cs : list child) : option node :=
  hd_error (nodes_in f cs).

(** The children of the [Bare] child in field [f]: [node.args] of a
    function, [expr.slice] of Python 3.8. *)
Fixpoint bare_in (f : string) (cs : list child) : option (string * list child) :=
  match cs with
  | [] => None
  | Bare g k sub :: cs' => if String.eqb g f then Some (k, sub) else bare_in f cs'
  | Pos _ _ :: cs' => bare_in f cs'
  end.

(** What [ast.parse] returns: the [Module] node, which has no line
    number of its own. *)
Record module_ast : Type := Module {
  body : list node;                 (* [module_ast.body] *)
  module_doc : option string        (* [ast.get_docstring(module_ast)] *)
}.

End Ast.

(* ------------------------------------------------------------------ *)
(** ** Exceptions, and what the indexer reads from outside *)

Inductive exn : Type :=
| SyntaxError                      (* and its subclasses *)
| OtherException (kind : string).  (* [OSError], [UnicodeDecodeError], [ValueError], ... *)

Inductive result (A : Type) : Type :=
| Ok (a : A)
| Raise (e : exn).

Arguments Ok {A} a.
Arguments Raise {A} e.

(** A directory as [os.walk] lists it: sub-directories and the other
    entries, by basename, in listing order. *)
#[local] Unset Elimination Schemes.

Inductive dir_tree : Type :=
| Dir (dirs : list (string * dir_tree)) (files : list string).

#[local] Set Elimination Schemes.

(** The exception of the interpreter when the call stack is used up; it
    is an [Exception], not a [SyntaxError]. *)
Definition RecursionError : exn := OtherException "RecursionError".

Record Env : Type := mkEnv {
  tree : dir_tree;                              (* the tree under [root_path] *)
  read_text : string -> result string;          (* [open(path, 'r', encoding='utf-8').read()] *)
  ast_parse : string -> result Ast.module_ast;  (* [ast.parse(file_content)] *)
  re_beyond : string -> string -> option bool;
      (* [re.match(pattern, s) is not None] for a pattern that [Re] does
         not cover; [None] when [re] raises [re.error] *)
  recursion_limit : nat
      (* how deep the calls of the indexer's own methods can nest below
         [_index_file] before the interpreter raises [RecursionError]:
         each nested call of such a method takes one frame of these (the
         few frames of library code under the innermost call are not
         counted apart) *)
}.

(** Sequencing of steps that may raise. *)
Definition bind {A B : Type} (r : result A) (f : A -> result B) : result B :=
  match r with
  | Ok a => f a
  | Raise e => Raise e
  end.

Notation "x <- r ;; k" := (bind r (fun x => k))
  (at level 61, r at next level, right associativity).

(** [[f(x) for x in l]], left by the first exception. *)
Fixpoint map_result {A B : Type} (f : A -> result B) (l : list A) : result (list B) :=
  match l with
  | [] => Ok []
  | x :: l' =>
      y <- f x ;;
      ys <- map_result f l' ;;
      Ok (y :: ys)
  end.

(* ------------------------------------------------------------------ *)
(** ** The entity dataclasses *)

Record CodeEntity : Type := mkCodeEntity {
  name : string;
  filepath : string;
  line_start : Z;
  line_end : Z;
  docstring : option string;
  code_snippet : option string;
  entity_type : string;
  hash : string
}.

(** [CodeEntity.__post_init__] *)
Definition __post_init__ (self : CodeEntity) : CodeEntity :=
  match code_snippet self with
  | Some (String c s) =>
      mkCodeEntity (name self) (filepath self) (line_start self) (line_end self)
        (docstring self) (code_snippet self) (entity_type self)
        (Md5.hexdigest (PyStr.encode (String c s)))
  | _ => self
  end.

(** The generated [__init__]: the fields as given, [hash] at its default,
    then [__post_init__]. *)
Definition CodeEntity_init (name filepath : string) (line_start line_end : Z)
    (docstring code_snippet : option string) (entity_type : string) : CodeEntity :=
  __post_init__
    (mkCodeEntity name filepath line_start line_end docstring code_snippet
       entity_type "").

Definition with_name (new_name : string) (e : CodeEntity) : CodeEntity :=
  mkCodeEntity new_name (filepath e) (line_start e) (line_end e) (docstring e)
    (code_snippet e) (entity_type e) (hash e).

Record FunctionEntity : Type := mkFunctionEntity {
  function_base : CodeEntity;
  parameters : list (PyDict.dict string);
  return_type : option string
}.

Record ClassEntity : Type := mkClassEntity {
  class_base : CodeEntity;
  methods : list FunctionEntity;
  properties : list (PyDict.dict string);
  base_classes : list string
}.

Record ModuleEntity : Type := mkModuleEntity {
  module_base : CodeEntity;
  functions : list FunctionEntity;
  classes : list ClassEntity;
  imports : list string
}.

Definition FunctionEntity_init (name filepath : string) (line_start line_end : Z)
    (docstring code_snippet : option string)
    (parameters : list (PyDict.dict string)) (return_type : option string)
    : FunctionEntity :=
  mkFunctionEntity
    (CodeEntity_init name filepath line_start line_end docstring code_snippet "function")
    parameters return_type.

Definition ClassEntity_init (name filepath : string) (line_start line_end : Z)
    (docstring code_snippet : option string) (base_classes : list string)
    : ClassEntity :=
  mkClassEntity
    (CodeEntity_init name filepath line_start line_end docstring code_snippet "class")
    [] [] base_classes.

Definition ModuleEntity_init (name filepath : string) (line_start line_end : Z)
    (docstring code_snippet : option string) : ModuleEntity :=
  mkModuleEntity
    (CodeEntity_init name filepath line_start line_end docstring code_snippet "module")
    [] [] [].

(** A value of the index: an instance of one of the three subclasses. *)
Inductive Entity : Type :=
| EFunction (f : FunctionEntity)
| EClass (c : ClassEntity)
| EModule (m : ModuleEntity).

Definition base (e : Entity) : CodeEntity :=
  match e with
  | EFunction f => function_base f
  | EClass c => class_base c
  | EModule m => module_base m
  end.

(* ------------------------------------------------------------------ *)
(** ** [CodeIndexer] *)

Record CodeIndexer : Type := mkCodeIndexer {
  root_path : string;
  exclude_patterns : list string;
  modules : PyDict.dict ModuleEntity;
  all_entities : PyDict.dict Entity
}.

Definition default_exclude_patterns : list string :=
  ["__pycache__"; "*.pyc"; ".*"; "venv"; "env"].

(** [CodeIndexer.__init__]; [root_path] is given as [os.path.abspath]
    returns it.  [exclude_patterns or [...]]: [None] and the empty list
    both select the defaults. *)
Definition CodeIndexer_init (root_path : string)
    (exclude_patterns : option (list string)) : CodeIndexer :=
  mkCodeIndexer root_path
    (match exclude_patterns with
     | Some (p :: ps) => p :: ps
     | _ => default_exclude_patterns
     end)
    PyDict.empty PyDict.empty.

(** [self.all_entities[k] = e] and [self.modules[k] = m] *)
Definition set_entity (k : string) (e : Entity) (self : CodeIndexer) : CodeIndexer :=
  mkCodeIndexer (root_path self) (exclude_patterns self) (modules self)
    (PyDict.set k e (all_entities self)).

Definition set_module (k : string) (m : ModuleEntity) (self : CodeIndexer) : CodeIndexer :=
  mkCodeIndexer (root_path self) (exclude_patterns self)
    (PyDict.set k m (modules self)) (all_entities self).

(** [re.match(pattern, s)] is not [None]: by [Re] for the patterns of its
    fragment, by the library for every other pattern. *)
Definition re_match (env : Env) (pattern s : string) : option bool :=
  match Re.re_match pattern s with
  | Some found => Some found
  | None => re_beyond env pattern s
  end.

(** [any(re.match(pattern.replace('*', '.*'), basename) for pattern in
    patterns)]; the generator stops at the first match. *)
Fixpoint any_pattern_matches (env : Env) (patterns : list string) (basename : string)
    : option bool :=
  match patterns with
  | [] => Some false
  | pattern :: rest =>
      match re_match env (PyStr.replace "*" ".*" pattern) basename with
      | None => None
      | Some true => Some true
      | Some false => any_pattern_matches env rest basename
      end
  end.

(** The [for file in files] loop of one directory. *)
Fixpoint collect_files (env : Env) (patterns : list string) (root : string)
    (files : list string) : option (list string) :=
  match files with
  | [] => Some []
  | file :: rest =>
      if PyStr.endswith file ".py" then
        match any_pattern_matches env patterns file,
              collect_files env patterns root rest with
        | Some skip, Some found =>
            Some (if skip then found else OsPath.join root file :: found)
        | _, _ => None
        end
      else collect_files env patterns root rest
  end.

(** The [os.walk] loop from directory [root] down: the files of [root],
    then, in listing order, each sub-directory that the pruning kept. *)
Fixpoint walk (env : Env) (patterns : list string) (root : string) (t : dir_tree)
    : option (list string) :=
  match t with
  | Dir dirs files =>
      let below :=
        (fix descend (ds : list (string * dir_tree)) : option (list string) :=
           match ds with
           | [] => Some []
           | (d, sub) :: ds' =>
               match any_pattern_matches env patterns d with
               | None => None
               | Some true => descend ds'
               | Some false =>
                   match walk env patterns (OsPath.join root d) sub, descend ds' with
                   | Some a, Some b => Some (a ++ b)%list
                   | _, _ => None
                   end
               end
           end) dirs in
      match collect_files env patterns root files, below with
      | Some here, Some deeper => Some (here ++ deeper)%list
      | _, _ => None
      end
  end.

(** [CodeIndexer._find_python_files]; [None] when [re] raises [re.error]
    on an exclude pattern. *)
Definition _find_python_files (env : Env) (self : CodeIndexer) : option (list string) :=
  walk env (exclude_patterns self) (root_path self) (tree env).

(** [CodeIndexer._find_node_end], with [frames] frames left for it.  The
    loop calls itself on every child that has a line number and returns
    that call's result only when the child stands at the last index;
    otherwise control reaches [return node.lineno]. *)
Fixpoint _find_node_end (frames : nat) (node : Ast.node) (source_lines : list string)
    : result Z :=
  match frames with
  | O => Raise RecursionError
  | S frames =>
      (fix loop (children : list Ast.child) : result Z :=
         match children with
         | [] => Ok (Ast.lineno node)
         | Ast.Bare _ _ _ :: rest => loop rest
         | Ast.Pos _ child :: rest =>
             match _find_node_end frames child source_lines with
             | Raise e => Raise e
             | Ok last_child_end =>
                 match rest with
                 | [] => Ok last_child_end
                 | _ :: _ => loop rest
                 end
             end
         end) (Ast.iter_child_nodes node)
  end.

(** [CodeIndexer._get_name_from_expr], with [frames] frames left for it.
    [expr.value] is the first child in the field [value]; a missing one is
    Python's [None], whose type name is [NoneType]. *)
Fixpoint _get_name_from_expr (frames : nat) (expr : Ast.node) : result string :=
  match frames with
  | O => Raise RecursionError
  | S frames =>
      let value_name :=                 (* [self._get_name_from_expr(expr.value)] *)
        match Ast.node_in "value" (Ast.children expr) with
        | Some value => _get_name_from_expr frames value
        | None => Ok "NoneType"
        end in
      if Ast.isinstance expr "Name" then Ok (Ast.name expr)
      else if Ast.isinstance expr "Attribute" then
        match value_name with
        | Raise e => Raise e
        | Ok value => Ok (value ++ "." ++ Ast.name expr)
        end
      else if Ast.isinstance expr "Subscript" then
        match value_name with
        | Raise e => Raise e
        | Ok base =>
            match Ast.bare_in "slice" (Ast.children expr) with
            | Some (k, sub) =>
                if String.eqb k "Index" then          (* Python 3.8 and before *)
                  match Ast.node_in "value" sub with
                  | Some v =>
                      if Ast.isinstance v "Name"
                      then Ok (base ++ "[" ++ Ast.name v ++ "]")
                      else Ok (base ++ "[...]")
                  | None => Ok (base ++ "[...]")
                  end
                else Ok (base ++ "[...]")
            | None => Ok (base ++ "[...]")            (* Python 3.9+ *)
            end
        end
      else Ok (Ast.cls expr)
  end.

(** [node.args.args] of a function definition *)
Definition function_args (node : Ast.node) : list Ast.node :=
  match Ast.bare_in "args" (Ast.children node) with
  | Some (_, sub) => Ast.nodes_in "args" sub
  | None => []
  end.

(** [CodeIndexer._process_function], with [frames] frames left for it. *)
Definition _process_function (frames : nat) (self : CodeIndexer) (node : Ast.node)
    (file_path file_content : string) : result FunctionEntity :=
  match frames with
  | O => Raise RecursionError
  | S frames =>
      let source_lines := PyStr.splitlines file_content in
      let func_start := Ast.lineno node in
      func_end <- _find_node_end frames node source_lines ;;
      let func_code :=
        PyStr.join PyStr.NL (PyStr.slice source_lines (func_start - 1) func_end) in
      parameters <-
        map_result (fun arg =>
          let param := PyDict.set "name" (Ast.name arg) PyDict.empty in
          match Ast.node_in "annotation" (Ast.children arg) with
          | Some annotation =>
              type_ <- _get_name_from_expr frames annotation ;;
              Ok (PyDict.set "type" type_ param)
          | None => Ok param
          end) (function_args node) ;;
      return_type <-
        match Ast.node_in "returns" (Ast.children node) with
        | Some returns =>
            type_ <- _get_name_from_expr frames returns ;; Ok (Some type_)
        | None => Ok None
        end ;;
      Ok (FunctionEntity_init (Ast.name node)
            (OsPath.relpath file_path (root_path self))
            func_start func_end (Ast.doc node) (Some func_code) parameters return_type)
  end.

(** [method_entity.name = qualified_name] *)
Definition rename_function (new_name : string) (f : FunctionEntity) : FunctionEntity :=
  mkFunctionEntity (with_name new_name (function_base f)) (parameters f) (return_type f).

(** [class_entity.methods.append(m)] *)
Definition append_method (m : FunctionEntity) (c : ClassEntity) : ClassEntity :=
  mkClassEntity (class_base c) (methods c ++ [m])%list (properties c) (base_classes c).

(** The [for item in node.body] loop of [_process_class]: the indexer it
    leaves, and the class entity or the exception that ends it.  The object
    appended to [class_entity.methods] is the one whose [name] is then
    rewritten and that is stored in the index, so the list sees the
    qualified name too.  An exception leaves the assignments made so
    far. *)
Fixpoint process_class_items (frames : nat) (node : Ast.node)
    (file_path file_content : string) (items : list Ast.node)
    (class_entity : ClassEntity) (self : CodeIndexer)
    : CodeIndexer * result ClassEntity :=
  match items with
  | [] => (self, Ok class_entity)
  | item :: rest =>
      if Ast.isinstance item "FunctionDef" then
        match _process_function frames self item file_path file_content with
        | Raise e => (self, Raise e)
        | Ok method_entity =>
            let qualified_name := Ast.name node ++ "." ++ Ast.name item in
            let method_entity := rename_function qualified_name method_entity in
            process_class_items frames node file_path file_content rest
              (append_method method_entity class_entity)
              (set_entity qualified_name (EFunction method_entity) self)
        end
      else process_class_items frames node file_path file_content rest class_entity self
  end.

(** [CodeIndexer._process_class], with [frames] frames left for it: the
    indexer with the methods registered, and the class entity or the
    exception. *)
Definition _process_class (frames : nat) (self : CodeIndexer) (node : Ast.node)
    (file_path file_content : string) : CodeIndexer * result ClassEntity :=
  match frames with
  | O => (self, Raise RecursionError)
  | S frames =>
      let source_lines := PyStr.splitlines file_content in
      let class_start := Ast.lineno node in
      match _find_node_end frames node source_lines with
      | Raise e => (self, Raise e)
      | Ok class_end =>
          let class_code :=
            PyStr.join PyStr.NL (PyStr.slice source_lines (class_start - 1) class_end) in
          match map_result (_get_name_from_expr frames)
                  (Ast.nodes_in "bases" (Ast.children node)) with
          | Raise e => (self, Raise e)
          | Ok base_classes =>
              let class_entity :=
                ClassEntity_init (Ast.name node)
                  (OsPath.relpath file_path (root_path self))
                  class_start class_end (Ast.doc node) (Some class_code) base_classes in
              process_class_items frames node file_path file_content
                (Ast.nodes_in "body" (Ast.children node)) class_entity self
          end
      end
  end.

(** [CodeIndexer._extract_imports] *)
Definition _extract_imports (module_ast : Ast.module_ast) : list string :=
  flat_map (fun node =>
    if Ast.isinstance node "Import" then
      map (fun alias => "import " ++ Ast.name alias)
          (Ast.nodes_in "names" (Ast.children node))
    else if Ast.isinstance node "ImportFrom" then
      let module := Ast.name node in            (* [node.module or ""] *)
      map (fun alias => "from " ++ module ++ " import " ++ Ast.name alias)
          (Ast.nodes_in "names" (Ast.children node))
    else []) (Ast.body module_ast).

Definition append_class (c : ClassEntity) (m : ModuleEntity) : ModuleEntity :=
  mkModuleEntity (module_base m) (functions m) (classes m ++ [c])%list (imports m).

Definition append_function (f : FunctionEntity) (m : ModuleEntity) : ModuleEntity :=
  mkModuleEntity (module_base m) (functions m ++ [f])%list (classes m) (imports m).

Definition with_imports (l : list string) (m : ModuleEntity) : ModuleEntity :=
  mkModuleEntity (module_base m) (functions m) (classes m) l.

(** The [for node in module_ast.body] loop of [_index_file]: the indexer
    it leaves, and the module entity or the exception that ends it. *)
Fixpoint index_file_nodes (frames : nat) (file_path file_content : string)
    (nodes : list Ast.node) (module : ModuleEntity) (self : CodeIndexer)
    : CodeIndexer * result ModuleEntity :=
  match nodes with
  | [] => (self, Ok module)
  | node :: rest =>
      if Ast.isinstance node "ClassDef" then
        match _process_class frames self node file_path file_content with
        | (self, Raise e) => (self, Raise e)
        | (self, Ok class_entity) =>
            index_file_nodes frames file_path file_content rest
              (append_class class_entity module)
              (set_entity (name (class_base class_entity)) (EClass class_entity) self)
        end
      else if Ast.isinstance node "FunctionDef" then
        match _process_function frames self node file_path file_content with
        | Raise e => (self, Raise e)
        | Ok func_entity =>
            index_file_nodes frames file_path file_content rest
              (append_function func_entity module)
              (set_entity (name (function_base func_entity)) (EFunction func_entity) self)
        end
      else index_file_nodes frames file_path file_content rest module self
  end.

(** [CodeIndexer._index_file]: the indexer it leaves, and whether it
    returns or which exception leaves it.  Reading the file comes before
    the [try]; inside it only a [SyntaxError] is caught, with a warning.
    Any other exception leaves the method with the assignments made so
    far. *)
Definition _index_file (env : Env) (self : CodeIndexer) (file_path : string)
    : CodeIndexer * result unit :=
  let rel_path := OsPath.relpath file_path (root_path self) in
  match read_text env file_path with
  | Raise e => (self, Raise e)
  | Ok file_content =>
      let '(self, outcome) :=                                   (* the [try] block *)
        match ast_parse env file_content with
        | Raise e => (self, Raise e)
        | Ok module_ast =>
            let module_name := fst (OsPath.splitext (OsPath.basename file_path)) in
            let module_docstring := Ast.module_doc module_ast in
            let module :=
              ModuleEntity_init module_name rel_path 1
                (Z.of_nat (List.length (PyStr.splitlines file_content)))
                module_docstring (Some file_content) in
            match recursion_limit env with
            | O => (self, Raise RecursionError)   (* no frame for [_extract_imports] *)
            | S _ =>
                let module := with_imports (_extract_imports module_ast) module in
                match index_file_nodes (recursion_limit env) file_path file_content
                        (Ast.body module_ast) module self with
                | (self, Raise e) => (self, Raise e)
                | (self, Ok module) =>
                    (set_entity module_name (EModule module)
                       (set_module module_name module self), Ok tt)
                end
            end
        end in
      match outcome with
      | Raise SyntaxError => (self, Ok tt)                      (* [except SyntaxError] *)
      | _ => (self, outcome)
      end
  end.

(** The body of the [for file_path in python_files] loop: any [Exception]
    is logged and the loop goes on with the indexer as the file left
    it. *)
Definition index_one (env : Env) (self : CodeIndexer) (file_path : string) : CodeIndexer :=
  fst (_index_file env self file_path).

(** [CodeIndexer.index_codebase]; [None] when [_find_python_files]
    raises. *)
Definition index_codebase (env : Env) (self : CodeIndexer) : option CodeIndexer :=
  match _find_python_files env self with
  | None => None
  | Some python_files => Some (fold_left (index_one env) python_files self)
  end.

(** [entity.entity_type] *)
Definition kind_of (entity : Entity) : string := entity_type (base entity).

(** One turn of the [for entity in self.all_entities.values()] loop of
    [search_entities]: each [continue] leaves [results] as it is or one
    longer. *)
Definition search_step (query_lower : string) (entity_type : option string)
    (results : list Entity) (entity : Entity) : list Entity :=
  let e := base entity in
  if PyStr.truthy entity_type
     && negb (String.eqb (kind_of entity) (PyStr.str_or_empty entity_type))
  then results
  else if PyStr.contains query_lower (PyStr.lower (name e))
  then (results ++ [entity])%list
  else if PyStr.truthy (docstring e)
          && PyStr.contains query_lower (PyStr.lower (PyStr.str_or_empty (docstring e)))
  then (results ++ [entity])%list
  else if PyStr.truthy (code_snippet e)
          && PyStr.contains query_lower (PyStr.lower (PyStr.str_or_empty (code_snippet e)))
  then (results ++ [entity])%list
  else results.

(** [CodeIndexer.search_entities] *)
Definition search_entities (self : CodeIndexer) (query : string)
    (entity_type : option string) : list Entity :=
  let query_lower := PyStr.lower query in
  fold_left (search_step query_lower entity_type)
    (PyDict.values (all_entities self)) [].

(** [CodeIndexer.get_entity_by_name] *)
Definition get_entity_by_name (self : CodeIndexer) (name : string) : option Entity :=
  PyDict.get name (all_entities self).

Record Relationships : Type := mkRelationships {
  rel_imports : list string;
  rel_imported_by : list string;
  rel_uses : list string;
  rel_used_by : list string
}.

Definition no_relationships : Relationships := mkRelationships [] [] [] [].

Definition add_imports (x : string) (r : Relationships) : Relationships :=
  mkRelationships (rel_imports r ++ [x])%list (rel_imported_by r) (rel_uses r) (rel_used_by r).
Definition add_imported_by (x : string) (r : Relationships) : Relationships :=
  mkRelationships (rel_imports r) (rel_imported_by r ++ [x])%list (rel_uses r) (rel_used_by r).
Definition add_uses (x : string) (r : Relationships) : Relationships :=
  mkRelationships (rel_imports r) (rel_imported_by r) (rel_uses r ++ [x])%list (rel_used_by r).
Definition add_used_by (x : string) (r : Relationships) : Relationships :=
  mkRelationships (rel_imports r) (rel_imported_by r) (rel_uses r) (rel_used_by r ++ [x])%list.

(** [name.split(".")[-1]] *)
Definition simple_name_of (full : string) : string :=
  last (PyStr.split "."%char full) "".

(** [snippet and word in snippet], then [re.search] of the word between
    two [\b]. *)
Definition mentions (snippet : option string) (word : string) : bool :=
  match snippet with
  | Some (String c s) =>
      PyStr.contains word (String c s) && Re.search_word word (String c s)
  | _ => false
  end.

(** The module part of [get_entity_relationships]. *)
Definition module_relationships (self : CodeIndexer) (entity : ModuleEntity)
    (relationships : Relationships) : Relationships :=
  let relationships :=
    fold_left (fun r other_module =>
      fold_left (fun r import_stmt =>
        if PyStr.contains (name (module_base entity)) import_stmt
        then add_imported_by (name (module_base other_module)) r else r)
        (imports other_module) r)
      (PyDict.values (modules self)) relationships in
  fold_left (fun r import_stmt =>
    fold_left (fun r other_module_name =>
      if PyStr.contains other_module_name import_stmt
      then add_imports other_module_name r else r)
      (PyDict.keys (modules self)) r)
    (imports entity) relationships.

(** One turn of the [for other_entity in self.all_entities.values()] loop. *)
Definition usage_step (entity : CodeEntity) (simple_name : string)
    (relationships : Relationships) (other_entity : Entity) : Relationships :=
  let other := base other_entity in
  if String.eqb (name other) (name entity) then relationships
  else
    let relationships :=
      if mentions (code_snippet other) simple_name
      then add_used_by (name other) relationships else relationships in
    let other_simple_name := simple_name_of (name other) in
    if mentions (code_snippet entity) other_simple_name
    then add_uses (name other) relationships else relationships.

(** [CodeIndexer.get_entity_relationships].  A dataclass instance is always
    true, so [not entity] holds for a missing name only. *)
Definition get_entity_relationships (self : CodeIndexer) (entity_name : string)
    : Relationships :=
  match PyDict.get entity_name (all_entities self) with
  | None => no_relationships
  | Some entity =>
      let relationships := no_relationships in
      let relationships :=
        match entity with
        | EModule m => module_relationships self m relationships
        | _ => relationships
        end in
      let simple_name := simple_name_of (name (base entity)) in
      fold_left (usage_step (base entity) simple_name)
        (PyDict.values (all_entities self)) relationships
  end.

(* ------------------------------------------------------------------ *)
(** ** [DocParser.search_docs] and the [/search] route *)

Record DocFile : Type := mkDocFile {
  doc_path : string;
  doc_title : string;
  doc_content : string
}.

Record DocMatch : Type := mkDocMatch {
  match_line : Z;
  match_context : string
}.

Record DocResult : Type := mkDocResult {
  result_path : string;
  result_title : string;
  result_matches : list DocMatch
}.

Record DocParser : Type := mkDocParser {
  docs_path : string;
  doc_files : PyDict.dict DocFile
}.

(** The [for i, line in enumerate(lines)] loop of [search_docs]. *)
Fixpoint doc_matches (query_lower : string) (lines rest : list string) (i : Z)
    : list DocMatch :=
  match rest with
  | [] => []
  | line :: rest' =>
      let tail := doc_matches query_lower lines rest' (i + 1) in
      if PyStr.contains query_lower (PyStr.lower line) then
        let start := Z.max 0 (i - 2) in
        let end_ := Z.min (Z.of_nat (List.length lines)) (i + 3) in
        mkDocMatch (i + 1) (PyStr.join PyStr.NL (PyStr.slice lines start end_)) :: tail
      else tail
  end.

(** [DocParser.search_docs] *)
Definition search_docs (self : DocParser) (query : string) : list DocResult :=
  let query_lower := PyStr.lower query in
  flat_map (fun file_info =>
    let content := doc_content file_info in
    if PyStr.contains query_lower (PyStr.lower content) then
      let lines := PyStr.split PyStr.LF content in
      [mkDocResult (doc_path file_info) (doc_title file_info)
         (doc_matches query_lower lines lines 0)]
    else []) (PyDict.values (doc_files self)).

Record GitBookMCPServer : Type := mkServer {
  code_indexer : CodeIndexer;
  doc_parser : option DocParser
}.

(** The answer of the [/search] route: the JSON body with its status.  The
    entities stand for their [asdict] renderings. *)
Inductive SearchResponse : Type :=
| BadRequest (error : string)                                          (* 400 *)
| SearchResults (code_results : list Entity) (doc_results : list DocResult).  (* 200 *)

(** The [search] route; [q] and [type_] are the request's [q] and [type]
    arguments, [None] when the request has none. *)
Definition search (self : GitBookMCPServer) (q type_ : option string) : SearchResponse :=
  let query := match q with Some s => s | None => "" end in   (* [args.get('q', '')] *)
  let entity_type := type_ in
  match query with
  | EmptyString => BadRequest "Query parameter 'q' is required"
  | _ =>
      let code_results := search_entities (code_indexer self) query entity_type in
      let doc_results :=
        match doc_parser self with
        | Some dp => search_docs dp query
        | None => []
        end in
      SearchResults code_results doc_results
  end.

(* ------------------------------------------------------------------ *)
(** ** An index pass as a list of assignments

    What a pass stores depends on the indexer through [root_path] only, so
    a pass can be read as the list of its assignments [d[k] = v], applied
    in order.  These definitions serve the proofs below: the functions
    above are proved equal to them. *)

(** The value of key [k] after the assignments [ws]: the latest one. *)
Fixpoint latest {V : Type} (k : string) (ws : list (string * V)) : option V :=
  match ws with
  | [] => None
  | (k', v) :: ws' =>
      match latest k ws' with
      | Some x => Some x
      | None => if String.eqb k' k then Some v else None
      end
  end.

Definition write_all {V : Type} (ws : list (string * V)) (d : PyDict.dict V)
    : PyDict.dict V :=
  fold_left (fun d kv => PyDict.set (fst kv) (snd kv) d) ws d.

Definition apply_writes (ews : list (string * Entity))
    (mws : list (string * ModuleEntity)) (self : CodeIndexer) : CodeIndexer :=
  mkCodeIndexer (root_path self) (exclude_patterns self)
    (write_all mws (modules self)) (write_all ews (all_entities self)).

(** *** What the recursive methods return when the stack suffices, and the
    frames they need *)

(** The line [_find_node_end] returns: the result for the child at the
    last index when that child has a line number, the node's own line in
    every other case. *)
Fixpoint node_end (node : Ast.node) (source_lines : list string) : Z :=
  match node with
  | Ast.Node _ lineno _ _ children =>
      let ends :=
        map (fun child =>
               match child with
               | Ast.Pos _ ch => Some (node_end ch source_lines)
               | Ast.Bare _ _ _ => None
               end) children in
      match last ends None with
      | Some last_child_end => last_child_end
      | None => lineno
      end
  end.

(** The frames [_find_node_end] needs on [node]: its own and those of the
    deepest chain of children with line numbers below it. *)
Fixpoint node_height (node : Ast.node) : nat :=
  match node with
  | Ast.Node _ _ _ _ children =>
      S (list_max
           (map (fun child =>
                   match child with
                   | Ast.Pos _ ch => node_height ch
                   | Ast.Bare _ _ _ => 0%nat
                   end) children))
  end.

(** The text [_get_name_from_expr] returns. *)
Fixpoint expr_name (expr : Ast.node) : string :=
  match expr with
  | Ast.Node cls _ name _ children =>
      let value_name :=
        match flat_map (fun child =>
                 match child with
                 | Ast.Pos f v =>
                     if String.eqb f "value" then [expr_name v] else []
                 | Ast.Bare _ _ _ => []
                 end) children with
        | s :: _ => s
        | [] => "NoneType"
        end in
      if String.eqb cls "Name" then name
      else if String.eqb cls "Attribute" then value_name ++ "." ++ name
      else if String.eqb cls "Subscript" then
        let base := value_name in
        match Ast.bare_in "slice" children with
        | Some (k, sub) =>
            if String.eqb k "Index" then
              match Ast.node_in "value" sub with
              | Some v =>
                  if Ast.isinstance v "Name" then base ++ "[" ++ Ast.name v ++ "]"
                  else base ++ "[...]"
              | None => base ++ "[...]"
              end
            else base ++ "[...]"
        | None => base ++ "[...]"
        end
      else cls
  end.

(** The frames [_get_name_from_expr] needs on [expr]: one for each
    [Attribute] or [Subscript] around the innermost value, and one for
    that. *)
Fixpoint name_height (expr : Ast.node) : nat :=
  match expr with
  | Ast.Node cls _ _ _ children =>
      let value_height :=
        match flat_map (fun child =>
                 match child with
                 | Ast.Pos f v =>
                     if String.eqb f "value" then [name_height v] else []
                 | Ast.Bare _ _ _ => []
                 end) children with
        | h :: _ => h
        | [] => 0%nat
        end in
      if String.eqb cls "Name" then 1%nat
      else if String.eqb cls "Attribute" then S value_height
      else if String.eqb cls "Subscript" then S value_height
      else 1%nat
  end.

(** The entity [_process_function] returns. *)
Definition function_entity_of (self : CodeIndexer) (node : Ast.node)
    (file_path file_content : string) : FunctionEntity :=
  let source_lines := PyStr.splitlines file_content in
  let func_start := Ast.lineno node in
  let func_end := node_end node source_lines in
  let func_code :=
    PyStr.join PyStr.NL (PyStr.slice source_lines (func_start - 1) func_end) in
  let parameters :=
    map (fun arg =>
           let param := PyDict.set "name" (Ast.name arg) PyDict.empty in
           match Ast.node_in "annotation" (Ast.children arg) with
           | Some annotation => PyDict.set "type" (expr_name annotation) param
           | None => param
           end) (function_args node) in
  let return_type :=
    option_map expr_name (Ast.node_in "returns" (Ast.children node)) in
  FunctionEntity_init (Ast.name node) (OsPath.relpath file_path (root_path self))
    func_start func_end (Ast.doc node) (Some func_code) parameters return_type.

Definition optional_name_height (expr : option Ast.node) : nat :=
  match expr with
  | Some e => name_height e
  | None => 0%nat
  end.

(** The frames [_process_function] needs on [node]: its own, and below it
    those of [_find_node_end] on the node and of [_get_name_from_expr] on
    the annotations. *)
Definition function_height (node : Ast.node) : nat :=
  S (Nat.max (node_height node)
       (Nat.max
          (list_max
             (map (fun arg =>
                     optional_name_height (Ast.node_in "annotation" (Ast.children arg)))
                (function_args node)))
          (optional_name_height (Ast.node_in "returns" (Ast.children node))))).

(** The method declarations of a class body, and their qualified names. *)
Definition method_defs (node : Ast.node) : list Ast.node :=
  filter (fun item => Ast.isinstance item "FunctionDef")
    (Ast.nodes_in "body" (Ast.children node)).

Definition qualified (node item : Ast.node) : string :=
  Ast.name node ++ "." ++ Ast.name item.

(** The frames [_process_class] needs before its loop over the body, and
    to run to its end: a method is processed one frame below it. *)
Definition class_head_height (node : Ast.node) : nat :=
  S (Nat.max (node_height node)
       (list_max (map name_height (Ast.nodes_in "bases" (Ast.children node))))).

Definition method_fits (frames : nat) (item : Ast.node) : bool :=
  (S (function_height item) <=? frames)%nat.

Definition class_height (node : Ast.node) : nat :=
  Nat.max (class_head_height node)
    (S (list_max (map function_height (method_defs node)))).

(** Whether the loop of [_index_file] gets past [node] with [frames]
    frames for its calls. *)
Definition node_fits (frames : nat) (node : Ast.node) : bool :=
  if Ast.isinstance node "ClassDef" then (class_height node <=? frames)%nat
  else if Ast.isinstance node "FunctionDef" then (function_height node <=? frames)%nat
  else true.

(** *** The assignments *)

(** The elements before the first one that fails, and the elements a loop
    reaches that this one ends. *)
Fixpoint take_while {A : Type} (ok : A -> bool) (l : list A) : list A :=
  match l with
  | [] => []
  | x :: l' => if ok x then x :: take_while ok l' else []
  end.

Fixpoint visited {A : Type} (ok : A -> bool) (l : list A) : list A :=
  match l with
  | [] => []
  | x :: l' => if ok x then x :: visited ok l' else [x]
  end.

Definition method_entity (self : CodeIndexer) (node : Ast.node)
    (file_path file_content : string) (item : Ast.node) : FunctionEntity :=
  rename_function (qualified node item)
    (function_entity_of self item file_path file_content).

(** The assignments of [_process_class]: none when the stack does not
    reach its loop, else one for each method up to the first that does not
    fit. *)
Definition method_writes (frames : nat) (self : CodeIndexer) (node : Ast.node)
    (file_path file_content : string) : list (string * Entity) :=
  if (class_head_height node <=? frames)%nat then
    map (fun item =>
           (qualified node item,
            EFunction (method_entity self node file_path file_content item)))
      (take_while (method_fits frames) (method_defs node))
  else [].

Definition class_entity_of (self : CodeIndexer) (node : Ast.node)
    (file_path file_content : string) : ClassEntity :=
  let source_lines := PyStr.splitlines file_content in
  let c :=
    ClassEntity_init (Ast.name node) (OsPath.relpath file_path (root_path self))
      (Ast.lineno node) (node_end node source_lines) (Ast.doc node)
      (Some (PyStr.join PyStr.NL
               (PyStr.slice source_lines (Ast.lineno node - 1)
                  (node_end node source_lines))))
      (map expr_name (Ast.nodes_in "bases" (Ast.children node))) in
  mkClassEntity (class_base c)
    (map (method_entity self node file_path file_content) (method_defs node))
    (properties c) (base_classes c).

(** The assignments of one turn of the loop of [_index_file]. *)
Definition node_writes (frames : nat) (self : CodeIndexer)
    (file_path file_content : string) (node : Ast.node) : list (string * Entity) :=
  if Ast.isinstance node "ClassDef" then
    (method_writes frames self node file_path file_content
     ++ (if (class_height node <=? frames)%nat
         then [(Ast.name node,
                EClass (class_entity_of self node file_path file_content))]
         else []))%list
  else if Ast.isinstance node "FunctionDef" then
    if (function_height node <=? frames)%nat
    then [(Ast.name node,
           EFunction (function_entity_of self node file_path file_content))]
    else []
  else [].

Definition module_name_of (file_path : string) : string :=
  fst (OsPath.splitext (OsPath.basename file_path)).

Definition module_entity_of (self : CodeIndexer) (file_path file_content : string)
    (module_ast : Ast.module_ast) : ModuleEntity :=
  mkModuleEntity
    (CodeEntity_init (module_name_of file_path)
       (OsPath.relpath file_path (root_path self)) 1
       (Z.of_nat (List.length (PyStr.splitlines file_content)))
       (Ast.module_doc module_ast) (Some file_content) "module")
    (flat_map (fun node =>
       if Ast.isinstance node "ClassDef" then []
       else if Ast.isinstance node "FunctionDef"
            then [function_entity_of self node file_path file_content]
       else []) (Ast.body module_ast))
    (flat_map (fun node =>
       if Ast.isinstance node "ClassDef"
       then [class_entity_of self node file_path file_content]
       else []) (Ast.body module_ast))
    (_extract_imports module_ast).

(** The content and tree of a file that is read and parsed. *)
Definition parsed (env : Env) (file_path : string) : option (string * Ast.module_ast) :=
  match read_text env file_path with
  | Ok file_content =>
      match ast_parse env file_content with
      | Ok module_ast => Some (file_content, module_ast)
      | Raise _ => None
      end
  | Raise _ => None
  end.

(** The files a pass visits; they depend on the root and the patterns
    only. *)
Definition pass_files (env : Env) (self : CodeIndexer) : list string :=
  match _find_python_files env self with
  | Some files => files
  | None => []
  end.

(** Whether the imports are extracted and every declaration of the file
    fits the stack, so that [_index_file] reaches the assignment of the
    module. *)
Definition file_fits (env : Env) (module_ast : Ast.module_ast) : bool :=
  (1 <=? recursion_limit env)%nat
  && forallb (node_fits (recursion_limit env)) (Ast.body module_ast).

(** The assignments of [_index_file] to the entity index: those of the
    declarations up to the first that does not fit the stack, then the
    module if all of them fit. *)
Definition file_writes (env : Env) (self : CodeIndexer) (file_path : string)
    : list (string * Entity) :=
  match parsed env file_path with
  | Some (file_content, module_ast) =>
      (flat_map (node_writes (recursion_limit env) self file_path file_content)
         (visited (node_fits (recursion_limit env)) (Ast.body module_ast))
       ++ (if file_fits env module_ast
           then [(module_name_of file_path,
                  EModule (module_entity_of self file_path file_content module_ast))]
           else []))%list
  | None => []
  end.

Definition file_module_writes (env : Env) (self : CodeIndexer) (file_path : string)
    : list (string * ModuleEntity) :=
  match parsed env file_path with
  | Some (file_content, module_ast) =>
      if file_fits env module_ast
      then [(module_name_of file_path,
             module_entity_of self file_path file_content module_ast)]
      else []
  | None => []
  end.

(** What a pass can assign to the entity index, entry by entry. *)
Inductive written (env : Env) (self : CodeIndexer) : string -> Entity -> Prop :=
| written_module fp fc m :
    parsed env fp = Some (fc, m) ->
    written env self (module_name_of fp) (EModule (module_entity_of self fp fc m))
| written_class fp fc m node :
    parsed env fp = Some (fc, m) -> In node (Ast.body m) ->
    written env self (Ast.name node) (EClass (class_entity_of self node fp fc))
| written_function fp fc m node :
    parsed env fp = Some (fc, m) -> In node (Ast.body m) ->
    written env self (Ast.name node) (EFunction (function_entity_of self node fp fc))
| written_method fp fc m node item :
    parsed env fp = Some (fc, m) -> In node (Ast.body m) ->
    In item (method_defs node) ->
    written env self (qualified node item)
      (EFunction (method_entity self node fp fc item)).

(* ------------------------------------------------------------------ *)
(** ** Predicates the properties are stated with *)

(** The indexers the program can hold: a new one, and what a pass over any
    environment leaves. *)
Inductive reachable : CodeIndexer -> Prop :=
| reach_init root_path exclude_patterns :
    reachable (CodeIndexer_init root_path exclude_patterns)
| reach_pass env self self' :
    reachable self -> index_codebase env self = Some self' -> reachable self'.

(** The same indexer with nothing indexed yet. *)
Definition emptied (self : CodeIndexer) : CodeIndexer :=
  mkCodeIndexer (root_path self) (exclude_patterns self) PyDict.empty PyDict.empty.

(** The hash that [__post_init__] leaves for a snippet. *)
Definition content_hash (code_snippet : option string) : string :=
  match code_snippet with
  | Some (String c s) => Md5.hexdigest (PyStr.encode (String c s))
  | _ => EmptyString
  end.

(** No child with a line number stands on an earlier line than its
    parent, all the way down. *)
Fixpoint lines_ascend (node : Ast.node) : bool :=
  match node with
  | Ast.Node _ lineno _ _ children =>
      forallb (fun child =>
                 match child with
                 | Ast.Pos _ ch => (lineno <=? Ast.lineno ch) && lines_ascend ch
                 | Ast.Bare _ _ _ => true
                 end) children
  end.

(** The declaration of a parsed file that a class, function or method
    entity was built from. *)
Inductive built_from (env : Env) (self : CodeIndexer) : Ast.node -> Entity -> Prop :=
| built_class fp fc m node :
    parsed env fp = Some (fc, m) -> In node (Ast.body m) ->
    built_from env self node (EClass (class_entity_of self node fp fc))
| built_function fp fc m node :
    parsed env fp = Some (fc, m) -> In node (Ast.body m) ->
    built_from env self node (EFunction (function_entity_of self node fp fc))
| built_method fp fc m node item :
    parsed env fp = Some (fc, m) -> In node (Ast.body m) ->
    In item (method_defs node) ->
    built_from env self item (EFunction (method_entity self node fp fc item)).

(** What holds of the span of a stored entity.  A module is the module of
    a file that was read and parsed: it has the file's text as snippet,
    starts on line 1 and ends on the line count of the text, so that it
    does not end before it starts exactly when the text is not empty.  Any
    other entity was built from a declaration, and for every declaration
    it can have been built from it starts on that declaration's line, and
    does not end before it starts if no child in the declaration's tree
    stands on an earlier line than its parent. *)
Definition span_ok (e : Entity) : Prop :=
  match e with
  | EModule m =>
      exists env fp fc tree,
        parsed env fp = Some (fc, tree)
        /\ code_snippet (module_base m) = Some fc
        /\ line_start (module_base m) = 1
        /\ line_end (module_base m) = Z.of_nat (List.length (PyStr.splitlines fc))
        /\ (line_start (module_base m) <= line_end (module_base m) <-> fc <> "")
  | _ =>
      (exists env self node, built_from env self node e)
      /\ forall env self node,
          built_from env self node e ->
          line_start (base e) = Ast.lineno node
          /\ (lines_ascend node = true -> line_start (base e) <= line_end (base e))
  end.

(** The last declaration named [m] among [items]. *)
Fixpoint last_named (m : string) (items : list Ast.node) : option Ast.node :=
  match items with
  | [] => None
  | item :: rest =>
      match last_named m rest with
      | Some x => Some x
      | None => if String.eqb (Ast.name item) m then Some item else None
      end
  end.

(** The test [search_entities] applies to one entity, for a query that is
    not empty: an empty filter string counts as no filter, and the three
    texts are lowercased before the query is looked for. *)
Definition entity_matches (query : string) (entity_type : option string)
    (entity : Entity) : bool :=
  let query_lower := PyStr.lower query in
  let e := base entity in
  (negb (PyStr.truthy entity_type)
   || String.eqb (kind_of entity) (PyStr.str_or_empty entity_type))
  && (PyStr.contains query_lower (PyStr.lower (name e))
      || match docstring e with
         | Some d => PyStr.contains query_lower (PyStr.lower d)
         | None => false
         end
      || match code_snippet e with
         | Some c => PyStr.contains query_lower (PyStr.lower c)
         | None => false
         end).

Definition begins_with_newline (basename : string) : bool :=
  match basename with
  | String c _ => Ascii.eqb c PyStr.LF
  | EmptyString => false
  end.

(* ------------------------------------------------------------------ *)
(** ** The specification's reading of two operations

    Used only to compare with the definitions above. *)

(** The span rule as the specification words it: descend into the last
    child that carries a line number, until a node has none, and return
    that node's line. *)
Fixpoint spec_find_node_end (node : Ast.node) : Z :=
  match node with
  | Ast.Node _ lineno _ _ children =>
      let ends :=
        flat_map (fun child =>
                    match child with
                    | Ast.Pos _ ch => [spec_find_node_end ch]
                    | Ast.Bare _ _ _ => []
                    end) children in
      last ends lineno
  end.

(** The search rule as the specification words it, for its
    case-insensitive search: the kind equals the filter when one is given,
    and the lowercased query is a substring of the name, the docstring or
    the snippet, letter case apart. *)
Definition spec_matches (query : string) (kind : option string) (entity : Entity) : bool :=
  let q := PyStr.lower query in
  let e := base entity in
  match kind with
  | Some k => String.eqb (kind_of entity) k
  | None => true
  end
  && (PyStr.contains q (PyStr.lower (name e))
      || match docstring e with
         | Some d => PyStr.contains q (PyStr.lower d)
         | None => false
         end
      || match code_snippet e with
         | Some c => PyStr.contains q (PyStr.lower c)
         | None => false
         end).

Definition spec_search (self : CodeIndexer) (query : string) (kind : option string)
    : list Entity :=
  filter (spec_matches query kind) (PyDict.values (all_entities self)).

(* ------------------------------------------------------------------ *)
(** ** Sample trees and sources *)

Module Samples.

Definition load : Ast.child := Ast.Bare "ctx" "Load" [].

Definition arguments (names : list string) (line : Z) : Ast.child :=
  Ast.Bare "args" "arguments"
    (map (fun x => Ast.Pos "args" (Ast.Node "arg" line x None [])) names).

(** [def f(x):] / [    return x[] / [      1]]: the subscript opens on
    line 2 and its index stands on line 3. *)
Definition subscript_source : string :=
  PyStr.join PyStr.NL ["def f(x):"; "    return x["; "      1]"].

Definition subscript_def : Ast.node :=
  Ast.Node "FunctionDef" 1 "f" None
    [ arguments ["x"] 1;
      Ast.Pos "body"
        (Ast.Node "Return" 2 "" None
           [ Ast.Pos "value"
               (Ast.Node "Subscript" 2 "" None
                  [ Ast.Pos "value" (Ast.Node "Name" 2 "x" None [load]);
                    Ast.Pos "slice" (Ast.Node "Constant" 3 "" None []);
                    load ]) ]) ].

Definition no_arguments : Ast.child := Ast.Bare "args" "arguments" [].

Definition pass_stmt (line : Z) : Ast.child :=
  Ast.Pos "body" (Ast.Node "Pass" line "" None []).

Definition text (lines : list string) : string :=
  PyStr.join PyStr.NL lines ++ PyStr.NL.

(** [def <f>():] / [    pass] *)
Definition simple_source (f : string) : string :=
  text ["def " ++ f ++ "():"; "    pass"].

Definition simple_module (f : string) : Ast.module_ast :=
  Ast.Module
    [Ast.Node "FunctionDef" 1 f None [no_arguments; pass_stmt 2]] None.

(** A class that declares [m] twice, as a property and its setter do. *)
Definition twice_source : string :=
  text ["class C:";
        "    def m(self):";
        "        return 1";
        "    def m(self, v):";
        "        return 2"].

Definition return_const (line : Z) : Ast.child :=
  Ast.Pos "body"
    (Ast.Node "Return" line "" None
       [Ast.Pos "value" (Ast.Node "Constant" line "" None [])]).

Definition twice_class : Ast.node :=
  Ast.Node "ClassDef" 1 "C" None
    [ Ast.Pos "body"
        (Ast.Node "FunctionDef" 2 "m" None [arguments ["self"] 2; return_const 3]);
      Ast.Pos "body"
        (Ast.Node "FunctionDef" 4 "m" None [arguments ["self"; "v"] 4; return_const 5]) ].

Definition twice_module : Ast.module_ast := Ast.Module [twice_class] None.

(** The example of the specification: [class Foo(Base)] with a method
    [bar], and a function [baz] that uses both. *)
Definition shapes_source : string :=
  text ["class Foo(Base):"; "    def bar(self):"; "        pass"].

Definition bar_def : Ast.node :=
  Ast.Node "FunctionDef" 2 "bar" None [arguments ["self"] 2; pass_stmt 3].

Definition foo_class : Ast.node :=
  Ast.Node "ClassDef" 1 "Foo" None
    [ Ast.Pos "bases" (Ast.Node "Name" 1 "Base" None [load]);
      Ast.Pos "body" bar_def ].

Definition shapes_module : Ast.module_ast := Ast.Module [foo_class] None.

Definition util_source : string :=
  text ["def baz():"; "    foo = Foo()"; "    foo.bar()"].

Definition util_module : Ast.module_ast :=
  Ast.Module
    [ Ast.Node "FunctionDef" 1 "baz" None
        [ no_arguments;
          Ast.Pos "body"
            (Ast.Node "Assign" 2 "" None
               [ Ast.Pos "targets"
                   (Ast.Node "Name" 2 "foo" None [Ast.Bare "ctx" "Store" []]);
                 Ast.Pos "value"
                   (Ast.Node "Call" 2 "" None
                      [Ast.Pos "func" (Ast.Node "Name" 2 "Foo" None [load])]) ]);
          Ast.Pos "body"
            (Ast.Node "Expr" 3 "" None
               [ Ast.Pos "value"
                   (Ast.Node "Call" 3 "" None
                      [ Ast.Pos "func"
                          (Ast.Node "Attribute" 3 "bar" None
                             [ Ast.Pos "value" (Ast.Node "Name" 3 "foo" None [load]);
                               load ]) ]) ]) ] ]
    None.

(** [@dec] / [def g():] / [    pass]: since Python 3.8 the definition
    carries the line of [def], and its decorator comes last among its
    children. *)
Definition decorated_source : string := text ["@dec"; "def g():"; "    pass"].

Definition decorated_def : Ast.node :=
  Ast.Node "FunctionDef" 2 "g" None
    [ no_arguments; pass_stmt 3;
      Ast.Pos "decorator_list" (Ast.Node "Name" 1 "dec" None [load]) ].

(** [not not ... x] with [depth] operators: a [UnaryOp] has its operator,
    which carries no line number, and then its operand. *)
Definition nested_not (line : Z) (depth : nat) : Ast.node :=
  Nat.iter depth
    (fun operand =>
       Ast.Node "UnaryOp" line "" None
         [Ast.Bare "op" "Not" []; Ast.Pos "operand" operand])
    (Ast.Node "Name" line "x" None [load]).

(** A flat function, then one whose body nests deeper. *)
Definition two_source : string :=
  text ["def old():"; "    pass"; "def deep(x):"; "    return not not not x"].

Definition two_module : Ast.module_ast :=
  Ast.Module
    [ Ast.Node "FunctionDef" 1 "old" None [no_arguments; pass_stmt 2];
      Ast.Node "FunctionDef" 3 "deep" None
        [ arguments ["x"] 3;
          Ast.Pos "body"
            (Ast.Node "Return" 4 "" None [Ast.Pos "value" (nested_not 4 3)]) ] ]
    None.

(** The decorated function followed by a plain one. *)
Definition mixed_source : string :=
  text ["@dec"; "def g():"; "    pass"; "def h():"; "    pass"].

Definition mixed_module : Ast.module_ast :=
  Ast.Module
    [ decorated_def;
      Ast.Node "FunctionDef" 4 "h" None [no_arguments; pass_stmt 5] ]
    None.

(** A file that does not parse. *)
Definition broken_source : string := text ["def broken(:"].

(** The parser on the sample sources; the empty text is the empty
    module. *)
Definition parse_table : PyDict.dict (result Ast.module_ast) :=
  [ (EmptyString, Ok (Ast.Module [] None));
    (simple_source "old", Ok (simple_module "old"));
    (simple_source "new", Ok (simple_module "new"));
    (twice_source, Ok twice_module);
    (shapes_source, Ok shapes_module);
    (util_source, Ok util_module);
    (two_source, Ok two_module);
    (mixed_source, Ok mixed_module);
    (broken_source, Raise SyntaxError) ].

Definition sample_parse (file_content : string) : result Ast.module_ast :=
  match PyDict.get file_content parse_table with
  | Some r => r
  | None => Raise (OtherException "NotImplementedError")
  end.

Definition read_from (contents : PyDict.dict string) (path : string) : result string :=
  match PyDict.get path contents with
  | Some c => Ok c
  | None => Raise (OtherException "FileNotFoundError")
  end.

Definition is_digit (c : ascii) : bool :=
  ((48 <=? N_of_ascii c) && (N_of_ascii c <=? 57))%N.

(** [re] beyond the fragment of [Re], for the one such pattern of the
    examples, [test_[0-9].*]: [test_], then a digit. *)
Definition sample_re (pattern s : string) : option bool :=
  if String.eqb pattern "test_[0-9].*" then
    Some (String.prefix "test_" s
          && match String.get 5 s with
             | Some c => is_digit c
             | None => false
             end)
  else None.

(** The frames left below [_index_file] in the examples. *)
Definition sample_limit : nat := 990.

(** A flat directory [/repo] holding the given files. *)
Definition flat_env (files : list (string * string)) : Env :=
  mkEnv (Dir [] (map fst files))
    (read_from (map (fun f => (OsPath.join "/repo" (fst f), snd f)) files))
    sample_parse sample_re sample_limit.

(** An indexer on [/repo] that excludes the cache directory only. *)
Definition indexer : CodeIndexer := CodeIndexer_init "/repo" (Some ["__pycache__"]).

Definition old_env : Env := flat_env [("old.py", simple_source "old")].
Definition new_env : Env := flat_env [("new.py", simple_source "new")].
Definition empty_env : Env := flat_env [("empty.py", EmptyString)].
Definition example_env : Env :=
  flat_env [("shapes.py", shapes_source); ("broken.py", broken_source);
            ("util.py", util_source)].

(** A second file with the text of [old.py]. *)
Definition copy_env : Env := flat_env [("copy.py", simple_source "old")].

(** The entity stored under [n]. *)
Definition named (self : CodeIndexer) (n : string) : Entity :=
  match get_entity_by_name self n with
  | Some e => e
  | None => EModule (ModuleEntity_init n EmptyString 0 0 None None)
  end.

(** [/repo] with a file and a package directory. *)
Definition nested_env : Env :=
  mkEnv (Dir [("pkg", Dir [] ["inner.py"])] ["top.py"])
    (read_from [("/repo/top.py", simple_source "old");
                ("/repo/pkg/inner.py", simple_source "new")])
    sample_parse sample_re sample_limit.

(** [ghost.py] is listed by the walker but cannot be opened. *)
Definition ghost_env : Env :=
  mkEnv (Dir [] ["ghost.py"; "new.py"])
    (read_from [("/repo/new.py", simple_source "new")])
    sample_parse sample_re sample_limit.

(** [two.py] under an interpreter with five frames left: enough for the
    flat function, not for the nested one. *)
Definition tight_env : Env :=
  mkEnv (Dir [] ["two.py"]) (read_from [("/repo/two.py", two_source)])
    sample_parse sample_re 5.

Definition mixed_env : Env := flat_env [("mixed.py", mixed_source)].

(** [/repo] with a numbered test file beside [new.py]. *)
Definition tests_env : Env :=
  flat_env [("test_1.py", simple_source "old"); ("new.py", simple_source "new")].

(** A file whose basename begins with a line feed. *)
Definition newline_name : string := String PyStr.LF "x.py".
Definition newline_env : Env := flat_env [(newline_name, simple_source "new")].

(** The indexer after one pass, or as it was when the pass has no
    answer. *)
Definition after_pass (env : Env) (self : CodeIndexer) : CodeIndexer :=
  match index_codebase env self with
  | Some self' => self'
  | None => self
  end.

End Samples.

(* ------------------------------------------------------------------ *)
(** ** Induction over syntax trees *)

Section NodeInduction.

Variable P : Ast.node -> Prop.
Hypothesis step :
  forall cls lineno name doc children,
    (forall f ch, In (Ast.Pos f ch) children -> P ch) ->
    P (Ast.Node cls lineno name doc children).

(** Induction over the children that carry a line number. *)
Fixpoint node_induction (n : Ast.node) : P n :=
  match n with
  | Ast.Node cls lineno name doc children =>
      step cls lineno name doc children
        ((fix all (cs : list Ast.child) :
            forall f ch, In (Ast.Pos f ch) cs -> P ch :=
            match cs return forall f ch, In (Ast.Pos f ch) cs -> P ch with
            | [] => fun _ _ H => match H with end
            | c :: cs' =>
                fun f ch H =>
                  match c return (c = Ast.Pos f ch \/ In (Ast.Pos f ch) cs') -> P ch with
                  | Ast.Pos g m =>
                      fun H =>
                        match H with
                        | or_introl E =>
                            match E in (_ = y)
                                  return match y with Ast.Pos _ x => P x | _ => True end
                            with eq_refl => node_induction m end
                        | or_intror H' => all cs' f ch H'
                        end
                  | Ast.Bare g k sub =>
                      fun H =>
                        match H with
                        | or_introl E =>
                            match E in (_ = y)
                                  return match y with Ast.Pos _ x => P x | _ => True end
                            with eq_refl => I end
                        | or_intror H' => all cs' f ch H'
                        end
                  end H
            end) children)
  end.

End NodeInduction.

(* ------------------------------------------------------------------ *)
(** ** Further operations and predicates *)

Section DirInduction.

Variable P : dir_tree -> Prop.
Hypothesis step :
  forall dirs files,
    (forall d sub, In (d, sub) dirs -> P sub) -> P (Dir dirs files).

(** Induction over the sub-directories. *)
Fixpoint dir_tree_induction (t : dir_tree) : P t :=
  match t with
  | Dir dirs files =>
      step dirs files
        ((fix all (ds : list (string * dir_tree)) :
            forall d sub, In (d, sub) ds -> P sub :=
            match ds return forall d sub, In (d, sub) ds -> P sub with
            | [] => fun _ _ H => match H with end
            | (d0, sub0) :: ds' =>
                fun d sub H =>
                  match H with
                  | or_introl E =>
                      match E in (_ = y) return P (snd y) with
                      | eq_refl => dir_tree_induction sub0
                      end
                  | or_intror H' => all ds' d sub H'
                  end
            end) dirs)
  end.

End DirInduction.

(** The files the walker is meant to return from the directory [root]
    with tree [t]: a [.py] file that no pattern matches, in [root] itself
    or below a chain of sub-directories none of which a pattern matches. *)
Inductive discovered (env : Env) (patterns : list string)
    : string -> dir_tree -> string -> Prop :=
| discovered_here root dirs files file :
    In file files ->
    PyStr.endswith file ".py" = true ->
    any_pattern_matches env patterns file = Some false ->
    discovered env patterns root (Dir dirs files) (OsPath.join root file)
| discovered_below root dirs files d sub path :
    In (d, sub) dirs ->
    any_pattern_matches env patterns d = Some false ->
    discovered env patterns (OsPath.join root d) sub path ->
    discovered env patterns root (Dir dirs files) path.

(** The kind string of each subclass of [CodeEntity]. *)
Definition variant_kind (e : Entity) : string :=
  match e with
  | EFunction _ => "function"
  | EClass _ => "class"
  | EModule _ => "module"
  end.

(** Whether [other] is listed in [used_by], and in [uses], for [entity]. *)
Definition is_user (entity : CodeEntity) (other : Entity) : bool :=
  negb (String.eqb (name (base other)) (name entity))
  && mentions (code_snippet (base other)) (simple_name_of (name entity)).

Definition is_used (entity : CodeEntity) (other : Entity) : bool :=
  negb (String.eqb (name (base other)) (name entity))
  && mentions (code_snippet entity) (simple_name_of (name (base other))).

Definition is_pos (c : Ast.child) : bool :=
  match c with
  | Ast.Pos _ _ => true
  | Ast.Bare _ _ _ => false
  end.

(** Throughout the tree, a node that has a child with a line number has
    one at its last index. *)
Fixpoint ends_on_located_child (node : Ast.node) : bool :=
  match node with
  | Ast.Node _ _ _ _ children =>
      (negb (existsb is_pos children)
       || match last (map Some children) None with
          | Some c => is_pos c
          | None => false
          end)
      && forallb (fun child =>
                    match child with
                    | Ast.Pos _ ch => ends_on_located_child ch
                    | Ast.Bare _ _ _ => true
                    end) children
  end.

(** The expression [first.a1.a2...]: [Attribute] nodes around a [Name]. *)
Definition dotted_expr (line : Z) (first : string) (attrs : list string) : Ast.node :=
  fold_left (fun value attr =>
               Ast.Node "Attribute" line attr None
                 [Ast.Pos "value" value; Ast.Bare "ctx" "Load" []])
    attrs (Ast.Node "Name" line first None [Ast.Bare "ctx" "Load" []]).

(** The names under which the declarations of a file are stored: a class
    after its methods, a function, and the module last; nothing else in
    the tree is given an entry. *)
Definition node_names (node : Ast.node) : list string :=
  if Ast.isinstance node "ClassDef" then
    (map (qualified node) (method_defs node) ++ [Ast.name node])%list
  else if Ast.isinstance node "FunctionDef" then [Ast.name node]
  else [].

Definition file_names (file_path : string) (module_ast : Ast.module_ast) : list string :=
  (flat_map node_names (Ast.body module_ast) ++ [module_name_of file_path])%list.

(** The answer of the [/entity/<name>] route. *)
Inductive EntityResponse : Type :=
| EntityNotFound (error : string)                                   (* 404 *)
| EntityFound (entity : Entity) (relationships : Relationships).    (* 200 *)

(** The [get_entity] route. *)
Definition get_entity (self : GitBookMCPServer) (entity_name : string) : EntityResponse :=
  match get_entity_by_name (code_indexer self) entity_name with
  | None => EntityNotFound ("Entity '" ++ entity_name ++ "' not found")
  | Some entity =>
      let relationships := get_entity_relationships (code_indexer self) entity_name in
      EntityFound entity relationships
  end.

(** Two documentation files for the examples. *)
Definition sample_docs : DocParser :=
  mkDocParser "/docs"
    [ ("guide.md",
       mkDocFile "guide.md" "Guide"
         (PyStr.join PyStr.NL ["# Guide"; ""; "Call Foo first."; "Then call baz."; "Done."]));
      ("notes.md", mkDocFile "notes.md" "notes" "nothing here") ].

(* ------------------------------------------------------------------ *)
(** ** The [/sync] route *)

(** One value of [entities_data]. *)
Record SyncEntry : Type := mkSyncEntry {
  sync_name : string;
  sync_type : string;
  sync_filepath : string;
  sync_docstring : string;
  sync_classes : list string;
  sync_functions : list string
}.

(** [getattr(entity, "classes", [])] and [getattr(entity, "functions", [])]:
    only a module entity has these attributes. *)
Definition getattr_classes (entity : Entity) : list ClassEntity :=
  match entity with
  | EModule m => classes m
  | _ => []
  end.

Definition getattr_functions (entity : Entity) : list FunctionEntity :=
  match entity with
  | EModule m => functions m
  | _ => []
  end.

Definition sync_entry (entity : Entity) : SyncEntry :=
  mkSyncEntry (name (base entity)) (kind_of entity) (filepath (base entity))
    (PyStr.str_or_empty (docstring (base entity)))
    (map (fun c => name (class_base c)) (getattr_classes entity))
    (map (fun f => name (function_base f)) (getattr_functions entity)).

(** The loop that prepares the data. *)
Definition entities_data (self : CodeIndexer) : PyDict.dict SyncEntry :=
  fold_left (fun entities_data entity =>
    if String.eqb (kind_of entity) "module"
    then PyDict.set (name (base entity)) (sync_entry entity) entities_data
    else entities_data)
    (PyDict.values (all_entities self)) PyDict.empty.

(** What [requests.post] is called with, and what it answers. *)
Record PostRequest : Type := mkPostRequest {
  post_url : string;
  post_headers : list (string * string);
  post_content : PyDict.dict SyncEntry         (* [json={"content": ...}] *)
}.

Record PostResponse : Type := mkPostResponse {
  status_code : Z;
  response_text : string
}.

(** The answers of the route; [SyncException e] carries [str(e)]. *)
Inductive SyncResponse : Type :=
| SyncNotConfigured (error : string)   (* 400 *)
| SyncSuccess (message : string)       (* 200 *)
| SyncFailed (message : string)        (* 400 *)
| SyncException (e : exn).             (* 500 *)

(** The end of the route, from the outcome of the request. *)
Definition sync_answer (response : result PostResponse) : SyncResponse :=
  match response with
  | Ok response =>
      if status_code response =? 200 then SyncSuccess "Synced to GitBook"
      else SyncFailed ("Failed to sync: "
                       ++ NilZero.string_of_int (Z.to_int (status_code response))
                       ++ " - " ++ response_text response)
  | Raise e => SyncException e
  end.

(** The [sync_to_gitbook] route.  The server's [gitbook_space_id] and
    [gitbook_token] are [None] when the command line gave none; [post]
    stands for [requests.post]. *)
Definition sync_to_gitbook (post : PostRequest -> result PostResponse)
    (self : GitBookMCPServer) (gitbook_space_id gitbook_token : option string)
    : SyncResponse :=
  if negb (PyStr.truthy gitbook_space_id) || negb (PyStr.truthy gitbook_token)
  then SyncNotConfigured "GitBook API credentials not configured"
  else
    let gitbook_url :=
      "https://api.gitbook.com/v1/spaces/" ++ PyStr.str_or_empty gitbook_space_id
      ++ "/content" in
    let headers :=
      [ ("Authorization", "Bearer " ++ PyStr.str_or_empty gitbook_token);
        ("Content-Type", "application/json") ] in
    sync_answer (post (mkPostRequest gitbook_url headers
                         (entities_data (code_indexer self)))).

(** The module entities among [entities], in order. *)
Definition modules_in (entities : list Entity) : list ModuleEntity :=
  flat_map (fun e => match e with EModule m => [m] | _ => [] end) entities.

(** A GitBook that records nothing and answers 200. *)
Definition accepting_post (request : PostRequest) : result PostResponse :=
  Ok (mkPostResponse 200 "ok").

(* ================================================================== *)
(** * Properties *)

Example splitlines_crlf :
  PyStr.splitlines ("a" ++ String PyStr.CR (String PyStr.LF "b") ++ String PyStr.LF "")
  = ["a"; "b"].
Proof. reflexivity. Qed.

Example split_dots : PyStr.split "." "Foo.bar" = ["Foo"; "bar"].
Proof. reflexivity. Qed.

Example slice_py : PyStr.slice [1; 2; 3; 4] 1 3 = [2; 3] /\ PyStr.slice [1; 2; 3; 4] 2 1 = [].
Proof. split; reflexivity. Qed.

Example md5_abc : Md5.hexdigest (PyStr.encode "abc") = "900150983cd24fb0d6963f7d28e17f72".
Proof. vm_compute. reflexivity. Qed.

Example md5_message_digest :
  Md5.hexdigest (PyStr.encode "message digest") = "f96b697d7cb7938d525a2f31aaf161d0".
Proof. vm_compute. reflexivity. Qed.

(** [os.path]: leading dots are no extension; paths below the root. *)
Example splitext_cases :
  OsPath.splitext ".py" = (".py", "")
  /\ OsPath.splitext "a..py" = ("a.", ".py")
  /\ OsPath.splitext "a.b.py" = ("a.b", ".py")
  /\ OsPath.basename "/repo/pkg/mod.py" = "mod.py"
  /\ OsPath.relpath "/repo/pkg/mod.py" "/repo" = "pkg/mod.py"
  /\ OsPath.join "/repo" "mod.py" = "/repo/mod.py".
Proof. repeat split. Qed.

(** [re]: the translated default patterns, and a word between two [\b]. *)
Example re_cases :
  Re.re_match ".*.pyc" "mod.pyc" = Some true
  /\ Re.re_match ".*.pyc" "mod.py" = Some false
  /\ Re.re_match "..*" ".git" = Some true
  /\ Re.re_match "..*" "" = Some false
  /\ Re.re_match "venv" "venv2" = Some true
  /\ Re.re_match "ven[v]" "venv" = None
  /\ Re.search_word "bar" "foo.bar()" = true
  /\ Re.search_word "bar" "foobar()" = false.
Proof. repeat split. Qed.

(** The example of the specification: the index holds [Foo], [Foo.bar] and
    [baz]; [Base] is a base class of [Foo]; [baz] uses [Foo]. *)
Example specification_example :
  PyDict.keys (all_entities (Samples.after_pass Samples.example_env Samples.indexer))
  = ["Foo.bar"; "Foo"; "shapes"; "baz"; "util"]
  /\ match Samples.named (Samples.after_pass Samples.example_env Samples.indexer) "Foo" with
     | EClass c => base_classes c
     | _ => []
     end = ["Base"]
  /\ rel_used_by (get_entity_relationships
                    (Samples.after_pass Samples.example_env Samples.indexer) "Foo")
     = ["shapes"; "baz"; "util"]
  /\ rel_uses (get_entity_relationships
                 (Samples.after_pass Samples.example_env Samples.indexer) "baz")
     = ["Foo.bar"; "Foo"].
Proof. repeat split; vm_compute; reflexivity. Qed.

(** Two blocks, and a code point above U+007F (two bytes in UTF-8). *)
Example md5_two_blocks :
  Md5.hexdigest (PyStr.encode (PyStr.concat (repeat "x" 120) ++ String "233"%char ""))
  = "42cdaeca72e56ecdbb23f96193184400".
Proof. vm_compute. reflexivity. Qed.

(* ------------------------------------------------------------------ *)
(** ** Syntax trees *)

(** The last element of a non-empty list does not depend on the default. *)
Lemma last_cons_default {A : Type} (x : A) (l : list A) (d d' : A) :
  last (x :: l) d = last (x :: l) d'.
Proof.
  revert x. induction l as [|y l IH]; intros x; [reflexivity|].
  change (last (y :: l) d = last (y :: l) d'). apply IH.
Qed.

Lemma last_app_single {A : Type} (l : list A) (x d : A) :
  last (l ++ [x])%list d = x.
Proof.
  induction l as [|y l IH]; [reflexivity|].
  simpl app. destruct (l ++ [x])%list eqn:E.
  - destruct l; discriminate.
  - exact IH.
Qed.

(** What [node_end] computes: the result for the child at the last
    index when that child has a line number, the node's own line in every
    other case. *)
Lemma find_node_end_unfold cls lineno name doc children source_lines :
  node_end (Ast.Node cls lineno name doc children) source_lines =
  match last (map Some children) None with
  | Some (Ast.Pos _ ch) => node_end ch source_lines
  | _ => lineno
  end.
Proof.
  cbn [node_end].
  induction children as [|c cs IH]; [reflexivity|].
  destruct cs as [|c' cs].
  - destruct c; reflexivity.
  - exact IH.
Qed.

Lemma leb_max a b n :
  (Nat.max a b <=? n)%nat = ((a <=? n)%nat && (b <=? n)%nat).
Proof.
  destruct (Nat.leb_spec a n), (Nat.leb_spec b n), (Nat.leb_spec (Nat.max a b) n);
    cbn; try reflexivity; lia.
Qed.

Lemma list_max_cons a l : list_max (a :: l) = Nat.max a (list_max l).
Proof. reflexivity. Qed.

(** [_find_node_end] runs out of stack exactly when it is given fewer
    frames than the height of the node; otherwise it returns
    [node_end]. *)
Lemma find_node_end_run frames :
  forall node source_lines,
    _find_node_end frames node source_lines
    = if (node_height node <=? frames)%nat
      then Ok (node_end node source_lines) else Raise RecursionError.
Proof.
  induction frames as [|frames IH]; intros [cls lineno name doc children] sl;
    [reflexivity|].
  rewrite find_node_end_unfold.
  change (node_height (Ast.Node cls lineno name doc children))
    with (S (list_max
               (map (fun child =>
                       match child with
                       | Ast.Pos _ ch => node_height ch
                       | Ast.Bare _ _ _ => 0%nat
                       end) children))).
  change (S ?a <=? S ?b)%nat with (a <=? b)%nat.
  cbn [_find_node_end Ast.iter_child_nodes Ast.children Ast.lineno].
  induction children as [|c cs IHc]; [reflexivity|].
  rewrite map_cons, list_max_cons, leb_max.
  destruct c as [f ch | f k sub].
  - rewrite IH. destruct (node_height ch <=? frames)%nat; [|reflexivity].
    cbn [andb]. destruct cs as [|c' cs]; [reflexivity|]. exact IHc.
  - cbn [Nat.leb andb]. destruct cs as [|c' cs]; [reflexivity|]. exact IHc.
Qed.

Lemma find_node_end_enough frames node source_lines :
  (node_height node <= frames)%nat ->
  _find_node_end frames node source_lines = Ok (node_end node source_lines).
Proof.
  intros H. rewrite find_node_end_run.
  now destruct (Nat.leb_spec (node_height node) frames); [|lia].
Qed.

(** C4.  The function with the body [return x[ / 1]]: the subscript's last
    child is the context node [Load], which has no line number, so
    [_find_node_end], given the four frames the tree needs or more, stops
    at the subscript's own line 2, where the rule of the specification
    descends into the index on line 3. *)
Theorem find_node_end_stops_at_bare_last_child :
  (forall more,
      _find_node_end (4 + more) Samples.subscript_def
        (PyStr.splitlines Samples.subscript_source) = Ok 2)
  /\ _find_node_end Samples.sample_limit Samples.subscript_def
       (PyStr.splitlines Samples.subscript_source) = Ok 2
  /\ spec_find_node_end Samples.subscript_def = 3.
Proof.
  split; [|split; [vm_compute; reflexivity | reflexivity]].
  intros more. rewrite find_node_end_enough; [reflexivity|].
  change (node_height Samples.subscript_def) with 4%nat. lia.
Qed.
(* ------------------------------------------------------------------ *)
(** ** Dictionaries *)

Section DictFacts.

Context {V : Type}.
Implicit Types (d : PyDict.dict V) (k : string) (v : V) (ws : list (string * V)).

Lemma get_set_same k v d : PyDict.get k (PyDict.set k v d) = Some v.
Proof.
  induction d as [|[k' v'] d IH]; cbn.
  - now rewrite String.eqb_refl.
  - destruct (String.eqb k' k) eqn:E; cbn; rewrite E; [reflexivity | exact IH].
Qed.

Lemma get_set_other k k' v d :
  k <> k' -> PyDict.get k' (PyDict.set k v d) = PyDict.get k' d.
Proof.
  intros Hne. induction d as [|[k0 v0] d IH]; cbn.
  - destruct (String.eqb_spec k k'); [contradiction | reflexivity].
  - destruct (String.eqb_spec k0 k) as [->|Hk0]; cbn.
    + destruct (String.eqb_spec k k'); [contradiction | reflexivity].
    + destruct (String.eqb k0 k'); [reflexivity | exact IH].
Qed.

Lemma in_set k v k' v' d :
  In (k', v') (PyDict.set k v d) -> (k' = k /\ v' = v) \/ In (k', v') d.
Proof.
  induction d as [|[k0 v0] d IH]; cbn.
  - intros [E | []]. injection E as <- <-. now left.
  - destruct (String.eqb_spec k0 k) as [->|Hk0]; cbn.
    + intros [E | H]; [injection E as <- <-; now left | right; now right].
    + intros [E | H]; [right; now left |].
      destruct (IH H) as [? | ?]; [now left | right; now right].
Qed.

Lemma get_some_in k v d : PyDict.get k d = Some v -> In (k, v) d.
Proof.
  induction d as [|[k0 v0] d IH]; cbn; [discriminate|].
  destruct (String.eqb_spec k0 k) as [->|Hk0].
  - intros E. injection E as <-. now left.
  - intros H. right. exact (IH H).
Qed.

Lemma in_keys_get k d : In k (PyDict.keys d) <-> exists v, PyDict.get k d = Some v.
Proof.
  induction d as [|[k0 v0] d IH]; cbn.
  - split; [intros [] | intros [v H]; discriminate].
  - destruct (String.eqb_spec k0 k) as [->|Hk0].
    + split; [intros _; now exists v0 | intros _; now left].
    + rewrite <- IH. split; [intros [E | H]; [contradiction | exact H] | now right].
Qed.

(** Assignments are read back latest first; a key that none of them names
    keeps its value. *)
Lemma get_write_all k ws d :
  PyDict.get k (write_all ws d) =
  match latest k ws with
  | Some v => Some v
  | None => PyDict.get k d
  end.
Proof.
  revert d. induction ws as [|[k' v'] ws IH]; intros d; cbn; [reflexivity|].
  unfold write_all in IH. rewrite IH. cbn.
  destruct (latest k ws); [reflexivity|].
  destruct (String.eqb_spec k' k) as [->|Hne].
  - apply get_set_same.
  - now apply get_set_other.
Qed.

Lemma in_write_all k v ws d :
  In (k, v) (write_all ws d) -> In (k, v) ws \/ In (k, v) d.
Proof.
  revert d. induction ws as [|[k' v'] ws IH]; intros d; cbn; [now right|].
  intros H. destruct (IH _ H) as [H' | H']; [left; now right |].
  destruct (in_set _ _ _ _ _ H') as [[-> ->] | ?]; [left; now left | now right].
Qed.

Lemma write_all_app ws1 ws2 d :
  write_all (ws1 ++ ws2)%list d = write_all ws2 (write_all ws1 d).
Proof. unfold write_all. apply fold_left_app. Qed.

Lemma latest_none_iff k ws : latest k ws = None <-> ~ In k (map fst ws).
Proof.
  induction ws as [|[k' v'] ws IH]; cbn; [tauto|].
  destruct (latest k ws) eqn:E.
  - split; [discriminate|]. intros H. exfalso.
    destruct (in_dec string_dec k (map fst ws)) as [Hin | Hout].
    + apply H. now right.
    + apply IH in Hout. discriminate.
  - destruct (String.eqb_spec k' k) as [->|Hne].
    + split; [discriminate | intros H; exfalso; apply H; now left].
    + split; [intros _ [?|?]; [contradiction | now apply (proj1 IH)] | reflexivity].
Qed.

End DictFacts.

(* ------------------------------------------------------------------ *)
(** ** A pass is the list of its assignments *)

Lemma apply_writes_nil self : apply_writes [] [] self = self.
Proof. now destruct self. Qed.

Lemma apply_writes_app e1 m1 e2 m2 self :
  apply_writes e2 m2 (apply_writes e1 m1 self)
  = apply_writes (e1 ++ e2)%list (m1 ++ m2)%list self.
Proof. unfold apply_writes. cbn. now rewrite !write_all_app. Qed.

Lemma root_path_apply_writes ews mws self :
  root_path (apply_writes ews mws self) = root_path self.
Proof. reflexivity. Qed.

Lemma name_post_init e : name (__post_init__ e) = name e.
Proof. unfold __post_init__. now destruct (code_snippet e) as [[|c s]|]. Qed.

Lemma name_CodeEntity_init n f ls le d c t :
  name (CodeEntity_init n f ls le d c t) = n.
Proof. unfold CodeEntity_init. now rewrite name_post_init. Qed.

Lemma name_process_function self node fp fc :
  name (function_base (function_entity_of self node fp fc)) = Ast.name node.
Proof.
  unfold function_entity_of, FunctionEntity_init. cbn [function_base].
  apply name_CodeEntity_init.
Qed.

Lemma name_class_entity_of self node fp fc :
  name (class_base (class_entity_of self node fp fc)) = Ast.name node.
Proof.
  unfold class_entity_of, ClassEntity_init. cbn [class_base].
  apply name_CodeEntity_init.
Qed.

(** *** The recursive methods and the stack *)

Lemma forallb_list_max {A : Type} (h : A -> nat) (n : nat) (l : list A) :
  (list_max (map h l) <=? n)%nat = forallb (fun x => (h x <=? n)%nat) l.
Proof.
  induction l as [|x l IH]; [reflexivity|].
  rewrite map_cons, list_max_cons, leb_max. cbn [forallb]. now rewrite IH.
Qed.

Lemma value_children {A : Type} (F : Ast.node -> A) (children : list Ast.child) :
  flat_map (fun child =>
              match child with
              | Ast.Pos f v => if String.eqb f "value" then [F v] else []
              | Ast.Bare _ _ _ => []
              end) children
  = map F (Ast.nodes_in "value" children).
Proof.
  induction children as [|[f v | f k sub] children IH]; cbn [flat_map Ast.nodes_in];
    [reflexivity | | exact IH].
  destruct (String.eqb f "value"); cbn [app map]; now rewrite IH.
Qed.

Lemma expr_name_unfold cls lineno name doc children :
  expr_name (Ast.Node cls lineno name doc children) =
  let value_name :=
    match Ast.node_in "value" children with
    | Some value => expr_name value
    | None => "NoneType"
    end in
  if String.eqb cls "Name" then name
  else if String.eqb cls "Attribute" then value_name ++ "." ++ name
  else if String.eqb cls "Subscript" then
    match Ast.bare_in "slice" children with
    | Some (k, sub) =>
        if String.eqb k "Index" then
          match Ast.node_in "value" sub with
          | Some v =>
              if Ast.isinstance v "Name" then value_name ++ "[" ++ Ast.name v ++ "]"
              else value_name ++ "[...]"
          | None => value_name ++ "[...]"
          end
        else value_name ++ "[...]"
    | None => value_name ++ "[...]"
    end
  else cls.
Proof.
  cbn [expr_name]. rewrite (value_children expr_name). unfold Ast.node_in.
  now destruct (Ast.nodes_in "value" children).
Qed.

Lemma name_height_unfold cls lineno name doc children :
  name_height (Ast.Node cls lineno name doc children) =
  let value_height :=
    match Ast.node_in "value" children with
    | Some value => name_height value
    | None => 0%nat
    end in
  if String.eqb cls "Name" then 1%nat
  else if String.eqb cls "Attribute" then S value_height
  else if String.eqb cls "Subscript" then S value_height
  else 1%nat.
Proof.
  cbn [name_height]. rewrite (value_children name_height). unfold Ast.node_in.
  now destruct (Ast.nodes_in "value" children).
Qed.

(** [_get_name_from_expr] runs out of stack exactly when it is given fewer
    frames than [name_height]; otherwise it returns [expr_name]. *)
Lemma get_name_run frames :
  forall expr,
    _get_name_from_expr frames expr
    = if (name_height expr <=? frames)%nat
      then Ok (expr_name expr) else Raise RecursionError.
Proof.
  induction frames as [|frames IH]; intros [cls lineno name doc children];
    rewrite name_height_unfold, expr_name_unfold; cbv zeta.
  - cbn [_get_name_from_expr].
    destruct (String.eqb cls "Name"), (String.eqb cls "Attribute"),
      (String.eqb cls "Subscript"); reflexivity.
  - cbn [_get_name_from_expr]. unfold Ast.isinstance at 1 2 3.
    cbn [Ast.children Ast.cls Ast.name].
    destruct (String.eqb cls "Name"); [reflexivity|].
    destruct (Ast.node_in "value" children) as [value|].
    + rewrite IH.
      destruct (String.eqb cls "Attribute"); cbn [Nat.leb];
        [now destruct (name_height value <=? frames)%nat|].
      destruct (String.eqb cls "Subscript"); cbn [Nat.leb]; [|reflexivity].
      destruct (name_height value <=? frames)%nat; [|reflexivity].
      destruct (Ast.bare_in "slice" children) as [[k sub]|]; [|reflexivity].
      destruct (String.eqb k "Index"); [|reflexivity].
      destruct (Ast.node_in "value" sub) as [v|]; [|reflexivity].
      now destruct (Ast.isinstance v "Name").
    + destruct (String.eqb cls "Attribute"); [reflexivity|].
      destruct (String.eqb cls "Subscript"); [|reflexivity].
      cbn [Nat.leb].
      destruct (Ast.bare_in "slice" children) as [[k sub]|]; [|reflexivity].
      destruct (String.eqb k "Index"); [|reflexivity].
      destruct (Ast.node_in "value" sub) as [v|]; [|reflexivity].
      now destruct (Ast.isinstance v "Name").
Qed.

Lemma map_result_run {A B : Type} (f : A -> result B) (g : A -> B) (h : A -> nat)
    (frames : nat) (e : exn) (l : list A) :
  (forall x, f x = if (h x <=? frames)%nat then Ok (g x) else Raise e) ->
  map_result f l
  = if (list_max (map h l) <=? frames)%nat then Ok (map g l) else Raise e.
Proof.
  intros Hf. induction l as [|x l IH]; [reflexivity|].
  rewrite map_cons, list_max_cons, leb_max. cbn [map_result]. rewrite Hf, IH.
  destruct (h x <=? frames)%nat; [|reflexivity].
  now destruct (list_max (map h l) <=? frames)%nat.
Qed.

(** [_process_function] runs out of stack exactly when it is given fewer
    frames than [function_height]; otherwise it returns
    [function_entity_of]. *)
Lemma process_function_run frames self node fp fc :
  _process_function frames self node fp fc
  = if (function_height node <=? frames)%nat
    then Ok (function_entity_of self node fp fc) else Raise RecursionError.
Proof.
  destruct frames as [|frames]; [reflexivity|].
  unfold _process_function, function_height, function_entity_of.
  change (S ?a <=? S ?b)%nat with (a <=? b)%nat. rewrite !leb_max.
  rewrite find_node_end_run.
  destruct (node_height node <=? frames)%nat; [|reflexivity]. cbn [bind andb].
  rewrite (map_result_run _
             (fun arg =>
                let param := PyDict.set "name" (Ast.name arg) PyDict.empty in
                match Ast.node_in "annotation" (Ast.children arg) with
                | Some annotation => PyDict.set "type" (expr_name annotation) param
                | None => param
                end)
             (fun arg => optional_name_height (Ast.node_in "annotation" (Ast.children arg)))
             frames RecursionError).
  - destruct (list_max _ <=? frames)%nat; [|reflexivity]. cbn [bind andb].
    destruct (Ast.node_in "returns" (Ast.children node)) as [returns|];
      cbn [optional_name_height option_map bind]; [|reflexivity].
    rewrite get_name_run. now destruct (name_height returns <=? frames)%nat.
  - intros arg. cbv zeta.
    destruct (Ast.node_in "annotation" (Ast.children arg)) as [annotation|];
      cbn [optional_name_height]; [|reflexivity].
    rewrite get_name_run. now destruct (name_height annotation <=? frames)%nat.
Qed.

(** *** The entities do not depend on what the index holds *)

(** The entities built from a file depend on the indexer through its root
    only. *)
Lemma process_function_root s1 s2 node fp fc :
  root_path s1 = root_path s2 ->
  function_entity_of s1 node fp fc = function_entity_of s2 node fp fc.
Proof. unfold function_entity_of. now intros ->. Qed.

Lemma method_entity_root s1 s2 node fp fc item :
  root_path s1 = root_path s2 ->
  method_entity s1 node fp fc item = method_entity s2 node fp fc item.
Proof.
  intros H. unfold method_entity. now rewrite (process_function_root s1 s2).
Qed.

Lemma method_writes_root frames s1 s2 node fp fc :
  root_path s1 = root_path s2 ->
  method_writes frames s1 node fp fc = method_writes frames s2 node fp fc.
Proof.
  intros H. unfold method_writes.
  destruct (class_head_height node <=? frames)%nat; [|reflexivity].
  apply map_ext. intros item. now rewrite (method_entity_root s1 s2).
Qed.

Lemma class_entity_of_root s1 s2 node fp fc :
  root_path s1 = root_path s2 ->
  class_entity_of s1 node fp fc = class_entity_of s2 node fp fc.
Proof.
  intros H. unfold class_entity_of. rewrite H. f_equal.
  apply map_ext. intros item. now apply method_entity_root.
Qed.

Lemma node_writes_root frames s1 s2 fp fc node :
  root_path s1 = root_path s2 ->
  node_writes frames s1 fp fc node = node_writes frames s2 fp fc node.
Proof.
  intros H. unfold node_writes.
  now rewrite (method_writes_root frames s1 s2), (class_entity_of_root s1 s2),
    (process_function_root s1 s2).
Qed.

Lemma module_entity_of_root s1 s2 fp fc m :
  root_path s1 = root_path s2 ->
  module_entity_of s1 fp fc m = module_entity_of s2 fp fc m.
Proof.
  intros H. unfold module_entity_of. rewrite H. f_equal.
  - apply flat_map_ext. intros node. now rewrite (process_function_root s1 s2).
  - apply flat_map_ext. intros node. now rewrite (class_entity_of_root s1 s2).
Qed.

Lemma file_writes_root env s1 s2 fp :
  root_path s1 = root_path s2 -> file_writes env s1 fp = file_writes env s2 fp.
Proof.
  intros H. unfold file_writes. destruct (parsed env fp) as [[fc m]|]; [|reflexivity].
  rewrite (module_entity_of_root s1 s2) by exact H. f_equal.
  apply flat_map_ext. intros node. now apply node_writes_root.
Qed.

Lemma file_module_writes_root env s1 s2 fp :
  root_path s1 = root_path s2 ->
  file_module_writes env s1 fp = file_module_writes env s2 fp.
Proof.
  intros H. unfold file_module_writes.
  destruct (parsed env fp) as [[fc m]|]; [|reflexivity].
  now rewrite (module_entity_of_root s1 s2).
Qed.

(** *** The methods that assign *)

Lemma root_path_set_entity k e s : root_path (set_entity k e s) = root_path s.
Proof. reflexivity. Qed.

Lemma set_entity_write k e s : set_entity k e s = apply_writes [(k, e)] [] s.
Proof. reflexivity. Qed.

Lemma process_class_items_spec frames s0 node fp fc items :
  forall ce s,
    root_path s = root_path s0 ->
    process_class_items frames node fp fc items ce s =
    (apply_writes
       (map (fun item =>
               (qualified node item, EFunction (method_entity s0 node fp fc item)))
          (take_while (fun item => (function_height item <=? frames)%nat)
             (filter (fun item => Ast.isinstance item "FunctionDef") items)))
       [] s,
     if forallb (fun item => (function_height item <=? frames)%nat)
          (filter (fun item => Ast.isinstance item "FunctionDef") items)
     then Ok (mkClassEntity (class_base ce)
                (methods ce
                 ++ map (method_entity s0 node fp fc)
                      (filter (fun item => Ast.isinstance item "FunctionDef") items))%list
                (properties ce) (base_classes ce))
     else Raise RecursionError).
Proof.
  induction items as [|item items IH]; intros ce s Hroot.
  - cbn. rewrite app_nil_r, apply_writes_nil. now destruct ce.
  - cbn [process_class_items filter].
    destruct (Ast.isinstance item "FunctionDef"); [|now apply IH].
    rewrite process_function_run. cbn [take_while forallb].
    destruct (function_height item <=? frames)%nat; cbn [andb];
      [|now rewrite apply_writes_nil].
    rewrite IH by (now rewrite root_path_set_entity).
    fold (qualified node item). fold (method_entity s node fp fc item).
    rewrite (method_entity_root s s0) by exact Hroot.
    rewrite set_entity_write, apply_writes_app. cbn [map app].
    cbn [class_base methods properties base_classes append_method].
    rewrite <- app_assoc. reflexivity.
Qed.

(** [_process_class]: the assignments of its methods, and the class
    entity when the stack suffices for all of it. *)
Lemma process_class_spec frames self node fp fc :
  _process_class frames self node fp fc =
  (apply_writes (method_writes frames self node fp fc) [] self,
   if (class_height node <=? frames)%nat
   then Ok (class_entity_of self node fp fc) else Raise RecursionError).
Proof.
  unfold method_writes, class_height, class_head_height.
  rewrite leb_max.
  destruct frames as [|frames]; [now rewrite apply_writes_nil|].
  change (S ?a <=? S ?b)%nat with (a <=? b)%nat. rewrite leb_max.
  unfold _process_class. rewrite find_node_end_run.
  destruct (node_height node <=? frames)%nat; cbn [andb];
    [|now rewrite apply_writes_nil].
  rewrite (map_result_run _ expr_name name_height frames RecursionError)
    by apply get_name_run.
  destruct (list_max _ <=? frames)%nat; cbn [andb];
    [|now rewrite apply_writes_nil].
  rewrite (process_class_items_spec frames self) by reflexivity.
  rewrite forallb_list_max. reflexivity.
Qed.

Lemma index_file_nodes_spec frames s0 fp fc nodes :
  forall m s,
    root_path s = root_path s0 ->
    index_file_nodes frames fp fc nodes m s =
    (apply_writes
       (flat_map (node_writes frames s0 fp fc) (visited (node_fits frames) nodes)) [] s,
     if forallb (node_fits frames) nodes
     then Ok (mkModuleEntity (module_base m)
                (functions m
                 ++ flat_map (fun node =>
                      if Ast.isinstance node "ClassDef" then []
                      else if Ast.isinstance node "FunctionDef"
                           then [function_entity_of s0 node fp fc]
                      else []) nodes)%list
                (classes m
                 ++ flat_map (fun node =>
                      if Ast.isinstance node "ClassDef"
                      then [class_entity_of s0 node fp fc]
                      else []) nodes)%list
                (imports m))
     else Raise RecursionError).
Proof.
  induction nodes as [|node nodes IH]; intros m s Hroot.
  - cbn. rewrite !app_nil_r, apply_writes_nil. now destruct m.
  - cbn [index_file_nodes visited forallb].
    destruct (Ast.isinstance node "ClassDef") eqn:Ec.
    + assert (Hfits : node_fits frames node = (class_height node <=? frames)%nat)
        by (unfold node_fits; now rewrite Ec).
      assert (Hw : node_writes frames s0 fp fc node
                   = (method_writes frames s0 node fp fc
                      ++ (if (class_height node <=? frames)%nat
                          then [(Ast.name node, EClass (class_entity_of s0 node fp fc))]
                          else []))%list)
        by (unfold node_writes; now rewrite Ec).
      rewrite Hfits, process_class_spec.
      rewrite (class_entity_of_root s s0), (method_writes_root frames s s0) by exact Hroot.
      destruct (class_height node <=? frames)%nat; cbn [andb flat_map]; rewrite Hw.
      * rewrite name_class_entity_of. rewrite IH by exact Hroot.
        rewrite set_entity_write, !apply_writes_app. rewrite Ec.
        cbn [module_base functions classes imports append_class app].
        rewrite <- !app_assoc. reflexivity.
      * now rewrite !app_nil_r.
    + destruct (Ast.isinstance node "FunctionDef") eqn:Ef.
      * assert (Hfits : node_fits frames node = (function_height node <=? frames)%nat)
          by (unfold node_fits; now rewrite Ec, Ef).
        assert (Hw : node_writes frames s0 fp fc node
                     = if (function_height node <=? frames)%nat
                       then [(Ast.name node,
                              EFunction (function_entity_of s0 node fp fc))]
                       else [])
          by (unfold node_writes; now rewrite Ec, Ef).
        rewrite Hfits, process_function_run.
        rewrite (process_function_root s s0) by exact Hroot.
        destruct (function_height node <=? frames)%nat; cbn [andb flat_map]; rewrite Hw.
        -- rewrite name_process_function. rewrite IH by exact Hroot.
           rewrite set_entity_write, !apply_writes_app. rewrite Ec, Ef.
           cbn [module_base functions classes imports append_function app].
           rewrite <- !app_assoc. reflexivity.
        -- now rewrite apply_writes_nil.
      * assert (Hfits : node_fits frames node = true)
          by (unfold node_fits; now rewrite Ec, Ef).
        assert (Hw : node_writes frames s0 fp fc node = [])
          by (unfold node_writes; now rewrite Ec, Ef).
        rewrite Hfits. cbn [andb flat_map]. rewrite Hw, Ec, Ef. cbn [app].
        now apply IH.
Qed.

Lemma node_writes_no_frame self fp fc node : node_writes 0 self fp fc node = [].
Proof.
  unfold node_writes, method_writes, class_height, class_head_height, function_height.
  rewrite leb_max. cbn [Nat.leb andb app].
  now destruct (Ast.isinstance node "ClassDef"), (Ast.isinstance node "FunctionDef").
Qed.

Lemma flat_map_nil {A B : Type} (f : A -> list B) (l : list A) :
  (forall a, f a = []) -> flat_map f l = [].
Proof.
  intros H. induction l as [|a l IH]; [reflexivity|]. cbn. now rewrite H, IH.
Qed.

(** [_index_file] on a file that is read and parsed: its assignments,
    and the exception when a declaration does not fit the stack. *)
Lemma index_file_parsed env self fp fc m :
  parsed env fp = Some (fc, m) ->
  _index_file env self fp =
  (apply_writes (file_writes env self fp) (file_module_writes env self fp) self,
   if file_fits env m then Ok tt else Raise RecursionError).
Proof.
  unfold parsed, _index_file, file_writes, file_module_writes, parsed.
  destruct (read_text env fp) as [fc'|e]; [|discriminate].
  destruct (ast_parse env fc') as [m'|e]; [|discriminate].
  intros E. injection E as -> ->. unfold file_fits.
  destruct (recursion_limit env) as [|limit] eqn:El.
  - cbn [Nat.leb andb]. rewrite (flat_map_nil _ _ (node_writes_no_frame self fp fc)).
    now rewrite apply_writes_nil.
  - rewrite (index_file_nodes_spec (S limit) self) by reflexivity.
    cbn [Nat.leb andb].
    destruct (forallb (node_fits (S limit)) (Ast.body m)).
    + unfold module_entity_of, module_name_of, ModuleEntity_init, with_imports.
      cbn [module_base functions classes imports app].
      unfold set_entity, set_module, apply_writes.
      cbn [root_path exclude_patterns modules all_entities].
      rewrite write_all_app. reflexivity.
    + now rewrite app_nil_r.
Qed.

(** A file that cannot be read or parsed leaves the indexer as it was. *)
Lemma index_file_unparsed env self fp :
  parsed env fp = None ->
  fst (_index_file env self fp) = self.
Proof.
  unfold parsed, _index_file.
  destruct (read_text env fp) as [fc|e]; [|reflexivity].
  destruct (ast_parse env fc) as [m|e]; [discriminate|].
  now destruct e.
Qed.

(** One file: its assignments, or none when it cannot be read or parsed. *)
Lemma index_one_spec env self fp :
  index_one env self fp =
  apply_writes (file_writes env self fp) (file_module_writes env self fp) self.
Proof.
  unfold index_one. destruct (parsed env fp) as [[fc m]|] eqn:Hp.
  - now rewrite (index_file_parsed env self fp fc m Hp).
  - rewrite index_file_unparsed by exact Hp.
    unfold file_writes, file_module_writes. rewrite Hp. now rewrite apply_writes_nil.
Qed.

Lemma index_files_spec env s0 files :
  forall s,
    root_path s = root_path s0 ->
    fold_left (index_one env) files s =
    apply_writes (flat_map (file_writes env s0) files)
      (flat_map (file_module_writes env s0) files) s.
Proof.
  induction files as [|fp files IH]; intros s Hroot.
  - cbn. now rewrite apply_writes_nil.
  - cbn [fold_left flat_map]. rewrite index_one_spec.
    rewrite IH by exact Hroot. rewrite apply_writes_app.
    now rewrite (file_writes_root env s s0), (file_module_writes_root env s s0).
Qed.

Lemma index_codebase_spec env self self' :
  index_codebase env self = Some self' ->
  self' =
  apply_writes (flat_map (file_writes env self) (pass_files env self))
    (flat_map (file_module_writes env self) (pass_files env self)) self.
Proof.
  unfold index_codebase, pass_files.
  destruct (_find_python_files env self) as [files|]; [|discriminate].
  intros E. injection E as <-. now apply index_files_spec.
Qed.

Lemma take_while_incl {A : Type} (ok : A -> bool) (l : list A) (x : A) :
  In x (take_while ok l) -> In x l.
Proof.
  induction l as [|y l IH]; cbn; [trivial|].
  destruct (ok y); [|intros []]. intros [E | H]; [now left | right; now apply IH].
Qed.

Lemma visited_incl {A : Type} (ok : A -> bool) (l : list A) (x : A) :
  In x (visited ok l) -> In x l.
Proof.
  induction l as [|y l IH]; cbn; [trivial|].
  destruct (ok y).
  - intros [E | H]; [now left | right; now apply IH].
  - intros [E | []]. now left.
Qed.

(** A loop that nothing ends visits every element and stops none. *)
Lemma visited_all {A : Type} (ok : A -> bool) (l : list A) :
  forallb ok l = true -> visited ok l = l /\ take_while ok l = l.
Proof.
  induction l as [|y l IH]; cbn; [now split|].
  destruct (ok y); [|discriminate]. intros H. destruct (IH H) as [-> ->]. now split.
Qed.

Lemma method_writes_in frames self node fp fc k e :
  In (k, e) (method_writes frames self node fp fc) ->
  exists item,
    In item (method_defs node)
    /\ k = qualified node item
    /\ e = EFunction (method_entity self node fp fc item).
Proof.
  unfold method_writes.
  destruct (class_head_height node <=? frames)%nat; [|intros []].
  intros H. apply in_map_iff in H. destruct H as [item [E Hitem]].
  injection E as <- <-. exists item. split; [|now split].
  now apply (take_while_incl _ _ _ Hitem).
Qed.

Lemma node_writes_written frames env self fp fc m node k e :
  parsed env fp = Some (fc, m) -> In node (Ast.body m) ->
  In (k, e) (node_writes frames self fp fc node) -> written env self k e.
Proof.
  intros Hp Hn. unfold node_writes.
  destruct (Ast.isinstance node "ClassDef").
  - intros H. apply in_app_or in H. destruct H as [H | H].
    + apply method_writes_in in H. destruct H as [item [Hitem [-> ->]]].
      now apply (written_method env self fp fc m).
    + destruct (class_height node <=? frames)%nat; [|destruct H].
      destruct H as [H | []]. injection H as <- <-.
      now apply (written_class env self fp fc m).
  - destruct (Ast.isinstance node "FunctionDef"); [|intros []].
    destruct (function_height node <=? frames)%nat; [|intros []].
    intros [H | []]. injection H as <- <-.
    now apply (written_function env self fp fc m).
Qed.

Lemma file_writes_written env self fp k e :
  In (k, e) (file_writes env self fp) -> written env self k e.
Proof.
  unfold file_writes. destruct (parsed env fp) as [[fc m]|] eqn:Hp; [|intros []].
  intros H. apply in_app_or in H. destruct H as [H | H].
  - apply in_flat_map in H. destruct H as [node [Hn H]].
    apply visited_incl in Hn.
    now apply (node_writes_written (recursion_limit env) env self fp fc m node).
  - destruct (file_fits env m); [|destruct H].
    destruct H as [H | []]. injection H as <- <-. now apply written_module.
Qed.

(** Every entry of the index after a pass was there before or is one the
    pass assigned. *)
Lemma pass_entries env self self' k e :
  index_codebase env self = Some self' ->
  In (k, e) (all_entities self') ->
  written env self k e \/ In (k, e) (all_entities self).
Proof.
  intros Hpass Hin. rewrite (index_codebase_spec _ _ _ Hpass) in Hin.
  cbn [apply_writes all_entities] in Hin.
  apply in_write_all in Hin. destruct Hin as [Hin | Hin]; [left | now right].
  apply in_flat_map in Hin. destruct Hin as [fp [_ Hin]].
  now apply (file_writes_written env self fp).
Qed.

Lemma written_root env s1 s2 k e :
  root_path s1 = root_path s2 -> written env s1 k e -> written env s2 k e.
Proof.
  intros Hroot H. destruct H as [fp fc m Hp | fp fc m node Hp Hn
                                | fp fc m node Hp Hn | fp fc m node item Hp Hn Hi].
  - rewrite (module_entity_of_root s1 s2) by exact Hroot. now apply written_module.
  - rewrite (class_entity_of_root s1 s2) by exact Hroot.
    now apply (written_class env s2 fp fc m).
  - rewrite (process_function_root s1 s2) by exact Hroot.
    now apply (written_function env s2 fp fc m).
  - rewrite (method_entity_root s1 s2) by exact Hroot.
    now apply (written_method env s2 fp fc m).
Qed.

(** A property of every assigned entry holds of every entry of every index
    the program can hold. *)
Lemma reachable_entries (P : string -> Entity -> Prop) :
  (forall env self k e, written env self k e -> P k e) ->
  forall self, reachable self ->
  forall k e, In (k, e) (all_entities self) -> P k e.
Proof.
  intros HP self Hreach. induction Hreach as [root pats | env self self' _ IH Hpass].
  - intros k e [].
  - intros k e Hin. destruct (pass_entries _ _ _ _ _ Hpass Hin) as [Hw | Hold].
    + now apply (HP env self).
    + now apply IH.
Qed.

Lemma in_values_entry {V : Type} (v : V) (d : PyDict.dict V) :
  In v (PyDict.values d) -> exists k, In (k, v) d.
Proof.
  unfold PyDict.values. intros H. apply in_map_iff in H.
  destruct H as [[k v'] [E H]]. cbn in E. subst v'. now exists k.
Qed.

(* ------------------------------------------------------------------ *)
(** ** Entries stand under their own name *)

Lemma name_method_entity self node fp fc item :
  name (function_base (method_entity self node fp fc item)) = qualified node item.
Proof. reflexivity. Qed.

Lemma name_module_entity_of self fp fc m :
  name (module_base (module_entity_of self fp fc m)) = module_name_of fp.
Proof.
  unfold module_entity_of. cbn [module_base]. apply name_CodeEntity_init.
Qed.

Lemma written_name env self k e : written env self k e -> name (base e) = k.
Proof.
  intros [fp fc m Hp | fp fc m node Hp Hn | fp fc m node Hp Hn
         | fp fc m node item Hp Hn Hi]; cbn [base].
  - apply name_module_entity_of.
  - apply name_class_entity_of.
  - apply name_process_function.
  - apply name_method_entity.
Qed.

Lemma reachable_names self k e :
  reachable self -> In (k, e) (all_entities self) -> name (base e) = k.
Proof.
  intros Hr. revert k e.
  exact (reachable_entries (fun k e => name (base e) = k) written_name self Hr).
Qed.

(* ------------------------------------------------------------------ *)
(** ** Relationships *)

Lemma fold_left_invariant {A B : Type} (P : A -> Prop) (f : A -> B -> A)
    (l : list B) (a : A) :
  P a -> (forall a b, P a -> P (f a b)) -> P (fold_left f l a).
Proof.
  intros Ha Hstep. revert a Ha.
  induction l as [|b l IH]; intros a Ha; cbn; [exact Ha|].
  apply IH. now apply Hstep.
Qed.

(** The import scan of a module leaves [uses] and [used_by] alone. *)
Lemma module_relationships_usage self m r :
  rel_uses (module_relationships self m r) = rel_uses r
  /\ rel_used_by (module_relationships self m r) = rel_used_by r.
Proof.
  unfold module_relationships.
  apply (fold_left_invariant
           (fun r' => rel_uses r' = rel_uses r /\ rel_used_by r' = rel_used_by r)).
  - apply (fold_left_invariant
             (fun r' => rel_uses r' = rel_uses r /\ rel_used_by r' = rel_used_by r));
      [now split|].
    intros a other Ha. apply fold_left_invariant; [exact Ha|].
    intros a' stmt Ha'. now destruct (PyStr.contains _ stmt).
  - intros a stmt Ha. apply fold_left_invariant; [exact Ha|].
    intros a' other Ha'. now destruct (PyStr.contains other stmt).
Qed.

Lemma usage_step_skips_own_name entity simple r other n :
  name entity = n ->
  ~ In n (rel_uses r) /\ ~ In n (rel_used_by r) ->
  ~ In n (rel_uses (usage_step entity simple r other))
  /\ ~ In n (rel_used_by (usage_step entity simple r other)).
Proof.
  intros Hn [Hu Hb]. unfold usage_step.
  destruct (String.eqb_spec (name (base other)) (name entity)) as [E | Hne];
    [now split|].
  assert (Hother : name (base other) <> n) by congruence.
  destruct (mentions (code_snippet (base other)) simple);
    destruct (mentions (code_snippet entity) (simple_name_of (name (base other))));
    cbn [rel_uses rel_used_by add_uses add_used_by]; split;
    try assumption; intros H; apply in_app_or in H;
    destruct H as [H | [H | []]]; auto.
Qed.

(** C10.  In every index the program can hold, the [uses] and [used_by]
    lists that [get_entity_relationships] returns for a name never contain
    that name: the usage scan skips every entity whose full name equals it,
    whatever its snippet mentions. *)
Theorem relationships_never_list_the_entity_itself self n :
  reachable self ->
  ~ In n (rel_uses (get_entity_relationships self n))
  /\ ~ In n (rel_used_by (get_entity_relationships self n)).
Proof.
  intros Hreach. unfold get_entity_relationships.
  destruct (PyDict.get n (all_entities self)) as [entity|] eqn:Hget;
    [|split; intros []].
  assert (Hname : name (base entity) = n).
  { apply (reachable_names self); [exact Hreach | now apply get_some_in]. }
  apply (fold_left_invariant
           (fun r => ~ In n (rel_uses r) /\ ~ In n (rel_used_by r))).
  - destruct entity as [f | c | m]; try (split; intros []).
    destruct (module_relationships_usage self m no_relationships) as [-> ->].
    split; intros [].
  - intros r other Hr. now apply usage_step_skips_own_name.
Qed.

(** [Foo] occurs as a word in its own snippet [class Foo(Base): ...] and is
    still not listed for itself. *)
Lemma relationships_never_list_the_entity_itself_witness :
  Re.search_word "Foo" "class Foo(Base):" = true
  /\ ~ In "Foo" (rel_uses (get_entity_relationships
                             (Samples.after_pass Samples.example_env Samples.indexer) "Foo"))
  /\ ~ In "Foo" (rel_used_by (get_entity_relationships
                                (Samples.after_pass Samples.example_env Samples.indexer) "Foo")).
Proof.
  split; [reflexivity|].
  apply (relationships_never_list_the_entity_itself
           (Samples.after_pass Samples.example_env Samples.indexer) "Foo").
  apply (reach_pass Samples.example_env Samples.indexer).
  - apply reach_init.
  - vm_compute. reflexivity.
Defined.

(* ------------------------------------------------------------------ *)
(** ** Files that do not parse *)

Lemma skip_unchanged_files env fp files :
  (forall s, index_one env s fp = s) ->
  forall s,
    fold_left (index_one env) files s =
    fold_left (index_one env)
      (filter (fun p => negb (String.eqb p fp)) files) s.
Proof.
  intros Hskip. induction files as [|p files IH]; intros s; [reflexivity|].
  cbn [fold_left filter].
  destruct (String.eqb_spec p fp) as [-> | Hne]; cbn [negb].
  - rewrite Hskip. apply IH.
  - cbn [fold_left]. apply IH.
Qed.

(** C9.  A file whose content raises a syntax error in [ast.parse] leaves
    [_index_file] normally with the index as it was, so it contributes no
    module and no other entity; and the pass yields exactly what the loop
    over the other files yields, so every other file still contributes. *)
Theorem syntax_error_file_contributes_nothing env self fp fc :
  read_text env fp = Ok fc ->
  ast_parse env fc = Raise SyntaxError ->
  _index_file env self fp = (self, Ok tt)
  /\ index_codebase env self =
     option_map
       (fun python_files =>
          fold_left (index_one env)
            (filter (fun p => negb (String.eqb p fp)) python_files) self)
       (_find_python_files env self).
Proof.
  intros Hread Hparse.
  assert (Hfile : forall s, _index_file env s fp = (s, Ok tt)).
  { intros s. unfold _index_file. now rewrite Hread, Hparse. }
  split; [apply Hfile|].
  unfold index_codebase.
  destruct (_find_python_files env self) as [files|]; [|reflexivity].
  cbn [option_map]. f_equal. apply skip_unchanged_files.
  intros s. unfold index_one. now rewrite Hfile.
Qed.

(** [broken.py] stands between [shapes.py] and [util.py]; the entities of
    both are in the index, and none for [broken]. *)
Lemma syntax_error_file_contributes_nothing_witness :
  PyDict.keys (all_entities (Samples.after_pass Samples.example_env Samples.indexer))
  = ["Foo.bar"; "Foo"; "shapes"; "baz"; "util"]
  /\ _index_file Samples.example_env Samples.indexer "/repo/broken.py"
     = (Samples.indexer, Ok tt)
  /\ index_codebase Samples.example_env Samples.indexer =
     option_map
       (fun python_files =>
          fold_left (index_one Samples.example_env)
            (filter (fun p => negb (String.eqb p "/repo/broken.py")) python_files)
            Samples.indexer)
       (_find_python_files Samples.example_env Samples.indexer).
Proof.
  split; [vm_compute; reflexivity|].
  apply (syntax_error_file_contributes_nothing Samples.example_env Samples.indexer
           "/repo/broken.py" Samples.broken_source); reflexivity.
Defined.

(* ------------------------------------------------------------------ *)
(** ** Construction of entities *)

Lemma post_init_fields e :
  filepath (__post_init__ e) = filepath e
  /\ line_start (__post_init__ e) = line_start e
  /\ line_end (__post_init__ e) = line_end e
  /\ docstring (__post_init__ e) = docstring e
  /\ code_snippet (__post_init__ e) = code_snippet e
  /\ entity_type (__post_init__ e) = entity_type e.
Proof.
  unfold __post_init__.
  destruct (code_snippet e) as [[|c s]|] eqn:E; cbn; rewrite ?E;
    repeat split; reflexivity.
Qed.

Lemma span_CodeEntity_init n f ls le d c t :
  line_start (CodeEntity_init n f ls le d c t) = ls
  /\ line_end (CodeEntity_init n f ls le d c t) = le
  /\ code_snippet (CodeEntity_init n f ls le d c t) = c.
Proof.
  unfold CodeEntity_init.
  destruct (post_init_fields (mkCodeEntity n f ls le d c t ""))
    as (_ & -> & -> & _ & -> & _).
  now repeat split.
Qed.

Lemma hash_CodeEntity_init n f ls le d c t :
  hash (CodeEntity_init n f ls le d c t) = content_hash c.
Proof.
  unfold CodeEntity_init, __post_init__. cbn [code_snippet].
  destruct c as [[|a s]|]; reflexivity.
Qed.

(** The hash of every assigned entity is the hash of its snippet; the
    renaming of a method touches neither. *)
Lemma written_hash env self k e :
  written env self k e -> hash (base e) = content_hash (code_snippet (base e)).
Proof.
  intros [fp fc m Hp | fp fc m node Hp Hn | fp fc m node Hp Hn
         | fp fc m node item Hp Hn Hi]; cbn [base].
  - unfold module_entity_of. cbn [module_base].
    rewrite hash_CodeEntity_init.
    now destruct (span_CodeEntity_init (module_name_of fp)
                    (OsPath.relpath fp (root_path self)) 1
                    (Z.of_nat (List.length (PyStr.splitlines fc)))
                    (Ast.module_doc m) (Some fc) "module") as (_ & _ & ->).
  - unfold class_entity_of, ClassEntity_init. cbn [class_base].
    rewrite hash_CodeEntity_init.
    match goal with
    | |- _ = content_hash (code_snippet (CodeEntity_init ?n ?f ?ls ?le ?d ?c ?t)) =>
        now destruct (span_CodeEntity_init n f ls le d c t) as (_ & _ & ->)
    end.
  - unfold function_entity_of, FunctionEntity_init. cbn [function_base].
    rewrite hash_CodeEntity_init.
    match goal with
    | |- _ = content_hash (code_snippet (CodeEntity_init ?n ?f ?ls ?le ?d ?c ?t)) =>
        now destruct (span_CodeEntity_init n f ls le d c t) as (_ & _ & ->)
    end.
  - unfold method_entity, rename_function, with_name, function_entity_of,
      FunctionEntity_init.
    cbn [function_base hash code_snippet].
    rewrite hash_CodeEntity_init.
    match goal with
    | |- _ = content_hash (code_snippet (CodeEntity_init ?n ?f ?ls ?le ?d ?c ?t)) =>
        now destruct (span_CodeEntity_init n f ls le d c t) as (_ & _ & ->)
    end.
Qed.

Lemma reachable_hash self e :
  reachable self -> In e (PyDict.values (all_entities self)) ->
  hash (base e) = content_hash (code_snippet (base e)).
Proof.
  intros Hr Hin. destruct (in_values_entry _ _ Hin) as [k Hk].
  exact (reachable_entries
           (fun _ e => hash (base e) = content_hash (code_snippet (base e)))
           written_hash self Hr k e Hk).
Qed.

(** C8.  Two entities held by any two indexes the program can reach (the
    same index, one index before and after a rebuild, or unrelated ones)
    have the same hash whenever their snippets are the same text: the hash
    is [content_hash] of the snippet, whatever the file, the kind and the
    name.  An entity constructed without a snippet has the empty hash. *)
Theorem content_hash_is_a_function_of_the_snippet self1 self2 e1 e2 :
  reachable self1 -> reachable self2 ->
  In e1 (PyDict.values (all_entities self1)) ->
  In e2 (PyDict.values (all_entities self2)) ->
  code_snippet (base e1) = code_snippet (base e2) ->
  hash (base e1) = hash (base e2)
  /\ hash (base e1) = content_hash (code_snippet (base e1))
  /\ (forall n f ls le d c t, hash (CodeEntity_init n f ls le d c t) = content_hash c)
  /\ (forall n f ls le d t, hash (CodeEntity_init n f ls le d None t) = "").
Proof.
  intros H1 H2 Hin1 Hin2 Hsnip.
  pose proof (reachable_hash self1 e1 H1 Hin1) as E1.
  pose proof (reachable_hash self2 e2 H2 Hin2) as E2.
  split; [|split; [|split]].
  - now rewrite E1, E2, Hsnip.
  - exact E1.
  - intros. apply hash_CodeEntity_init.
  - intros. apply hash_CodeEntity_init.
Qed.

(** The module of [old.py], and the module of [copy.py] indexed by a later
    pass: two files, two passes, one text, one hash. *)
Lemma content_hash_is_a_function_of_the_snippet_witness :
  filepath (base (Samples.named (Samples.after_pass Samples.old_env Samples.indexer) "old"))
  = "old.py"
  /\ filepath
       (base (Samples.named
                (Samples.after_pass Samples.copy_env
                   (Samples.after_pass Samples.old_env Samples.indexer)) "copy"))
     = "copy.py"
  /\ hash (base (Samples.named (Samples.after_pass Samples.old_env Samples.indexer) "old"))
     = hash
         (base (Samples.named
                  (Samples.after_pass Samples.copy_env
                     (Samples.after_pass Samples.old_env Samples.indexer)) "copy")).
Proof.
  split; [vm_compute; reflexivity|]. split; [vm_compute; reflexivity|].
  assert (H1 : reachable (Samples.after_pass Samples.old_env Samples.indexer)).
  { apply (reach_pass Samples.old_env Samples.indexer);
      [apply reach_init | vm_compute; reflexivity]. }
  assert (H2 : reachable
                 (Samples.after_pass Samples.copy_env
                    (Samples.after_pass Samples.old_env Samples.indexer))).
  { apply (reach_pass Samples.copy_env
             (Samples.after_pass Samples.old_env Samples.indexer));
      [exact H1 | vm_compute; reflexivity]. }
  refine (proj1 (content_hash_is_a_function_of_the_snippet _ _
                   (Samples.named (Samples.after_pass Samples.old_env Samples.indexer) "old")
                   (Samples.named
                      (Samples.after_pass Samples.copy_env
                         (Samples.after_pass Samples.old_env Samples.indexer)) "copy")
                   H1 H2 _ _ _)).
  - vm_compute. left. reflexivity.
  - vm_compute. right. left. reflexivity.
  - vm_compute. reflexivity.
Defined.

(* ------------------------------------------------------------------ *)
(** ** Line spans *)

Lemma last_map_Some_in {A : Type} (l : list A) (x : A) :
  last (map Some l) None = Some x -> In x l.
Proof.
  induction l as [|a l IH]; cbn [map]; [discriminate|].
  destruct l as [|b l].
  - cbn. intros E. injection E as <-. now left.
  - intros H. right. apply IH. exact H.
Qed.

Lemma lines_ascend_child cls lineno name doc children f ch :
  lines_ascend (Ast.Node cls lineno name doc children) = true ->
  In (Ast.Pos f ch) children ->
  lineno <= Ast.lineno ch /\ lines_ascend ch = true.
Proof.
  cbn [lines_ascend]. intros H Hin.
  rewrite forallb_forall in H. specialize (H _ Hin). cbn in H.
  apply andb_prop in H. destruct H as [H1 H2]. split; [lia | exact H2].
Qed.

(** Where line numbers never decrease from a node to its children, the
    computed end is not before the node's own line. *)
Lemma find_node_end_ge node source_lines :
  lines_ascend node = true -> Ast.lineno node <= node_end node source_lines.
Proof.
  induction node as [cls lineno name doc children IH] using node_induction.
  intros Hasc. rewrite find_node_end_unfold. cbn [Ast.lineno].
  destruct (last (map Some children) None) as [[f ch | f k sub]|] eqn:E;
    try lia.
  apply last_map_Some_in in E.
  destruct (lines_ascend_child _ _ _ _ _ _ _ Hasc E) as [Hle Hch].
  specialize (IH f ch E Hch). lia.
Qed.

Lemma nodes_in_pos f cs n : In n (Ast.nodes_in f cs) -> In (Ast.Pos f n) cs.
Proof.
  induction cs as [|[g m | g k sub] cs IH]; cbn; [intros [] | |].
  - destruct (String.eqb_spec g f) as [-> | Hne].
    + intros [-> | H]; [now left | right; now apply IH].
    + intros H. right. now apply IH.
  - intros H. right. now apply IH.
Qed.

Lemma method_defs_pos node item :
  In item (method_defs node) -> In (Ast.Pos "body" item) (Ast.children node).
Proof.
  unfold method_defs. intros H. apply filter_In in H. destruct H as [H _].
  now apply nodes_in_pos.
Qed.

Lemma splitlines_nil s : PyStr.splitlines s = [] <-> s = "".
Proof.
  destruct s as [|c s]; [now split|]. split; [|discriminate].
  cbn [PyStr.splitlines].
  destruct (PyStr.is_linebreak c); [discriminate|].
  destruct (PyStr.splitlines s); discriminate.
Qed.

Lemma span_process_function self node fp fc :
  line_start (function_base (function_entity_of self node fp fc)) = Ast.lineno node
  /\ line_end (function_base (function_entity_of self node fp fc))
     = node_end node (PyStr.splitlines fc).
Proof.
  unfold function_entity_of, FunctionEntity_init. cbn [function_base].
  match goal with
  | |- context [CodeEntity_init ?n ?f ?ls ?le ?d ?c ?t] =>
      destruct (span_CodeEntity_init n f ls le d c t) as (-> & -> & _)
  end.
  now split.
Qed.

(** The span of an entity, from any declaration it is built from. *)
Lemma built_from_span env self node e :
  built_from env self node e ->
  line_start (base e) = Ast.lineno node
  /\ (lines_ascend node = true -> line_start (base e) <= line_end (base e)).
Proof.
  intros [fp fc m n Hp Hn | fp fc m n Hp Hn | fp fc m n item Hp Hn Hi]; cbn [base].
  - unfold class_entity_of, ClassEntity_init. cbn [class_base].
    match goal with
    | |- context [CodeEntity_init ?n ?f ?ls ?le ?d ?c ?t] =>
        destruct (span_CodeEntity_init n f ls le d c t) as (-> & -> & _)
    end.
    split; [reflexivity | apply find_node_end_ge].
  - destruct (span_process_function self n fp fc) as [-> ->].
    split; [reflexivity | apply find_node_end_ge].
  - unfold method_entity, rename_function, with_name.
    cbn [function_base line_start line_end].
    destruct (span_process_function self item fp fc) as [-> ->].
    split; [reflexivity | apply find_node_end_ge].
Qed.

Lemma written_span env self k e : written env self k e -> span_ok e.
Proof.
  intros [fp fc m Hp | fp fc m node Hp Hn | fp fc m node Hp Hn
         | fp fc m node item Hp Hn Hi]; cbn [span_ok].
  - exists env, fp, fc, m. split; [exact Hp|].
    unfold module_entity_of. cbn [module_base].
    match goal with
    | |- context [CodeEntity_init ?n ?f ?ls ?le ?d ?c ?t] =>
        destruct (span_CodeEntity_init n f ls le d c t) as (-> & -> & ->)
    end.
    split; [reflexivity|]. split; [reflexivity|]. split; [reflexivity|].
    rewrite <- splitlines_nil.
    destruct (PyStr.splitlines fc); cbn [List.length]; split; intros H;
      try lia; try congruence.
  - split; [|intros env' self' node'; apply built_from_span].
    exists env, self, node. now apply (built_class env self fp fc m).
  - split; [|intros env' self' node'; apply built_from_span].
    exists env, self, node. now apply (built_function env self fp fc m).
  - split; [|intros env' self' node'; apply built_from_span].
    exists env, self, item. now apply (built_method env self fp fc m node).
Qed.

(** C5, as amended.  In every index the program can hold, each module
    entity is the module of a file that was read and parsed: it runs from
    line 1 to the line count of the file's text (which is 0 for an empty
    file, so that it ends before it starts exactly then); each class,
    function or method entity was built from a declaration of a parsed
    file, and whatever declaration it was built from, it starts on the
    declaration's line and does not end before it starts provided no
    child in that declaration's tree stands on an earlier line than its
    parent. *)
Theorem spans_after_pass self k e :
  reachable self ->
  In (k, e) (all_entities self) ->
  span_ok e.
Proof.
  intros Hr. revert k e.
  apply (reachable_entries (fun _ e => span_ok e)); [|exact Hr].
  apply written_span.
Qed.

(** [mixed.py] holds a decorated function [g], whose tree places the
    decorator before the definition, and a plain function [h]: the module
    and [h] are as stated, whatever [g] is. *)
Lemma spans_after_pass_witness :
  lines_ascend Samples.decorated_def = false
  /\ PyDict.keys (all_entities (Samples.after_pass Samples.mixed_env Samples.indexer))
     = ["g"; "h"; "mixed"]
  /\ span_ok (Samples.named (Samples.after_pass Samples.mixed_env Samples.indexer) "h")
  /\ span_ok (Samples.named (Samples.after_pass Samples.mixed_env Samples.indexer) "mixed")
  /\ line_start
       (base (Samples.named (Samples.after_pass Samples.mixed_env Samples.indexer) "h"))
     = 4
  /\ line_end
       (base (Samples.named (Samples.after_pass Samples.mixed_env Samples.indexer) "h"))
     = 5.
Proof.
  assert (Hr : reachable (Samples.after_pass Samples.mixed_env Samples.indexer)).
  { apply (reach_pass Samples.mixed_env Samples.indexer);
      [apply reach_init | vm_compute; reflexivity]. }
  split; [reflexivity|]. split; [vm_compute; reflexivity|]. split; [|split; [|split]].
  - apply (spans_after_pass (Samples.after_pass Samples.mixed_env Samples.indexer) "h");
      [exact Hr|]. vm_compute. right. left. reflexivity.
  - apply (spans_after_pass (Samples.after_pass Samples.mixed_env Samples.indexer) "mixed");
      [exact Hr|]. vm_compute. right. right. left. reflexivity.
  - vm_compute. reflexivity.
  - vm_compute. reflexivity.
Defined.

(** C5, as stated, fails on an empty file: its module entity starts on
    line 1 and ends on line 0. *)
Lemma empty_module_ends_before_it_starts :
  exists self' m,
    index_codebase Samples.empty_env Samples.indexer = Some self'
    /\ get_entity_by_name self' "empty" = Some (EModule m)
    /\ line_start (module_base m) = 1
    /\ line_end (module_base m) = 0
    /\ (line_start (module_base m) <=? line_end (module_base m)) = false.
Proof.
  eexists. eexists. split; [vm_compute; reflexivity|].
  split; [vm_compute; reflexivity|]. repeat split.
Qed.

(** A decorated function: the decorator on line 1 is the last child of the
    definition on line 2, so the computed end is line 1 and the snippet is
    empty. *)
Example decorated_function_ends_before_it_starts :
  lines_ascend Samples.decorated_def = false
  /\ exists f,
      _process_function Samples.sample_limit Samples.indexer Samples.decorated_def
        "/repo/deco.py" Samples.decorated_source = Ok f
      /\ line_start (function_base f) = 2
      /\ line_end (function_base f) = 1
      /\ code_snippet (function_base f) = Some "".
Proof.
  split; [reflexivity|]. eexists. split; [vm_compute; reflexivity|].
  repeat split.
Qed.

(* ------------------------------------------------------------------ *)
(** ** What a pass does to the entries that were there *)

Lemma pass_files_emptied env self : pass_files env (emptied self) = pass_files env self.
Proof. reflexivity. Qed.

Lemma index_codebase_emptied env self self' :
  index_codebase env self = Some self' ->
  index_codebase env (emptied self)
  = Some (apply_writes (flat_map (file_writes env self) (pass_files env self))
            (flat_map (file_module_writes env self) (pass_files env self))
            (emptied self)).
Proof.
  intros Hpass.
  assert (Hsome : exists fresh, index_codebase env (emptied self) = Some fresh).
  { unfold index_codebase in *. unfold _find_python_files in *.
    cbn [emptied root_path exclude_patterns].
    destruct (walk env (exclude_patterns self) (root_path self) (tree env));
      [eauto | discriminate]. }
  destruct Hsome as [fresh Hfresh]. rewrite Hfresh. f_equal.
  rewrite (index_codebase_spec _ _ _ Hfresh), pass_files_emptied.
  rewrite (flat_map_ext _ _ (fun fp => file_writes_root env (emptied self) self fp eq_refl)).
  now rewrite (flat_map_ext _ _
                 (fun fp => file_module_writes_root env (emptied self) self fp eq_refl)).
Qed.

Lemma write_all_keeps_keys {V : Type} (ws : list (string * V)) (d : PyDict.dict V) k :
  In k (PyDict.keys d) -> In k (PyDict.keys (write_all ws d)).
Proof.
  rewrite !in_keys_get. intros [v Hv]. rewrite get_write_all.
  destruct (latest k ws) as [v'|]; eauto.
Qed.

Lemma write_all_untouched {V : Type} (ws : list (string * V)) (d : PyDict.dict V) k :
  ~ In k (PyDict.keys (write_all ws PyDict.empty)) ->
  PyDict.get k (write_all ws d) = PyDict.get k d.
Proof.
  rewrite in_keys_get, !get_write_all. intros H.
  destruct (latest k ws) as [v|]; [|reflexivity].
  exfalso. apply H. now exists v.
Qed.

Lemma write_all_rewritten {V : Type} (ws : list (string * V)) (d : PyDict.dict V) k :
  In k (PyDict.keys (write_all ws PyDict.empty)) ->
  PyDict.get k (write_all ws d) = PyDict.get k (write_all ws PyDict.empty).
Proof.
  rewrite in_keys_get, !get_write_all. intros [v H].
  destruct (latest k ws) as [v'|]; [reflexivity | discriminate].
Qed.

(** C2, as amended.  A pass assigns into the two dictionaries it already
    holds and removes nothing.  Compared with the pass over the same tree
    from an empty index ([fresh]): every name present before the pass is
    present after it; a name the tree does not produce again keeps the
    entity it had; a name the tree produces holds the new entity, in the
    entity index and in the module index alike. *)
Theorem pass_keeps_stale_entries env self self' :
  index_codebase env self = Some self' ->
  exists fresh,
    index_codebase env (emptied self) = Some fresh
    /\ forall k,
        (In k (PyDict.keys (all_entities self)) -> In k (PyDict.keys (all_entities self')))
        /\ (In k (PyDict.keys (modules self)) -> In k (PyDict.keys (modules self')))
        /\ (~ In k (PyDict.keys (all_entities fresh)) ->
            get_entity_by_name self' k = get_entity_by_name self k)
        /\ (~ In k (PyDict.keys (modules fresh)) ->
            PyDict.get k (modules self') = PyDict.get k (modules self))
        /\ (In k (PyDict.keys (all_entities fresh)) ->
            get_entity_by_name self' k = get_entity_by_name fresh k)
        /\ (In k (PyDict.keys (modules fresh)) ->
            PyDict.get k (modules self') = PyDict.get k (modules fresh)).
Proof.
  intros Hpass. eexists. split; [exact (index_codebase_emptied _ _ _ Hpass)|].
  rewrite (index_codebase_spec _ _ _ Hpass). unfold get_entity_by_name.
  cbn [apply_writes all_entities modules emptied].
  intros k. split; [apply write_all_keeps_keys|].
  split; [apply write_all_keeps_keys|].
  split; [apply write_all_untouched|].
  split; [apply write_all_untouched|].
  split; apply write_all_rewritten.
Qed.

(** After [old.py] was indexed and then replaced by [new.py], the rebuild
    keeps [old] beside [new]. *)
Lemma pass_keeps_stale_entries_witness :
  PyDict.keys (all_entities (Samples.after_pass Samples.old_env Samples.indexer)) = ["old"]
  /\ exists fresh,
      index_codebase Samples.new_env
        (emptied (Samples.after_pass Samples.old_env Samples.indexer)) = Some fresh
      /\ forall k,
          (In k (PyDict.keys (all_entities (Samples.after_pass Samples.old_env Samples.indexer))) ->
           In k (PyDict.keys
                   (all_entities
                      (Samples.after_pass Samples.new_env
                         (Samples.after_pass Samples.old_env Samples.indexer)))))
          /\ (In k (PyDict.keys (modules (Samples.after_pass Samples.old_env Samples.indexer))) ->
              In k (PyDict.keys
                      (modules
                         (Samples.after_pass Samples.new_env
                            (Samples.after_pass Samples.old_env Samples.indexer)))))
          /\ (~ In k (PyDict.keys (all_entities fresh)) ->
              get_entity_by_name
                (Samples.after_pass Samples.new_env
                   (Samples.after_pass Samples.old_env Samples.indexer)) k
              = get_entity_by_name (Samples.after_pass Samples.old_env Samples.indexer) k)
          /\ (~ In k (PyDict.keys (modules fresh)) ->
              PyDict.get k
                (modules
                   (Samples.after_pass Samples.new_env
                      (Samples.after_pass Samples.old_env Samples.indexer)))
              = PyDict.get k (modules (Samples.after_pass Samples.old_env Samples.indexer)))
          /\ (In k (PyDict.keys (all_entities fresh)) ->
              get_entity_by_name
                (Samples.after_pass Samples.new_env
                   (Samples.after_pass Samples.old_env Samples.indexer)) k
              = get_entity_by_name fresh k)
          /\ (In k (PyDict.keys (modules fresh)) ->
              PyDict.get k
                (modules
                   (Samples.after_pass Samples.new_env
                      (Samples.after_pass Samples.old_env Samples.indexer)))
              = PyDict.get k (modules fresh)).
Proof.
  split; [vm_compute; reflexivity|].
  apply (pass_keeps_stale_entries Samples.new_env
           (Samples.after_pass Samples.old_env Samples.indexer)).
  vm_compute. reflexivity.
Defined.

(** C2, as stated, fails: [old] is in both dictionaries before the rebuild,
    the tree (now [new.py] alone) does not produce it, and it is still in
    both after the rebuild. *)
Lemma stale_entry_survives_rebuild :
  exists before after fresh,
    index_codebase Samples.old_env Samples.indexer = Some before
    /\ index_codebase Samples.new_env before = Some after
    /\ index_codebase Samples.new_env (emptied before) = Some fresh
    /\ PyDict.keys (all_entities before) = ["old"]
    /\ PyDict.keys (modules before) = ["old"]
    /\ PyDict.keys (all_entities fresh) = ["new"]
    /\ PyDict.keys (modules fresh) = ["new"]
    /\ PyDict.keys (all_entities after) = ["old"; "new"]
    /\ PyDict.keys (modules after) = ["old"; "new"].
Proof.
  do 3 eexists.
  split; [vm_compute; reflexivity|].
  split; [vm_compute; reflexivity|].
  split; [vm_compute; reflexivity|].
  repeat split.
Qed.

(* ------------------------------------------------------------------ *)
(** ** Methods and their qualified names *)





Lemma last_named_spec m items decl :
  last_named m items = Some decl -> In decl items /\ Ast.name decl = m.
Proof.
  induction items as [|item items IH]; cbn; [discriminate|].
  destruct (last_named m items) as [x|].
  - intros E. injection E as ->. destruct (IH eq_refl) as [Hin Hn].
    split; [now right | exact Hn].
  - destruct (String.eqb_spec (Ast.name item) m) as [Hn|]; [|discriminate].
    intros E. injection E as <-. split; [now left | exact Hn].
Qed.

Lemma last_named_some item items :
  In item items -> exists decl, last_named (Ast.name item) items = Some decl.
Proof.
  induction items as [|x items IH]; [intros []|].
  intros Hin. cbn.
  destruct (last_named (Ast.name item) items) as [y|] eqn:E; [now exists y|].
  destruct Hin as [-> | Hin].
  - rewrite String.eqb_refl. now exists item.
  - destruct (IH Hin) as [decl Hd]. discriminate.
Qed.

Lemma last_named_unique item items :
  NoDup (map Ast.name items) -> In item items ->
  last_named (Ast.name item) items = Some item.
Proof.
  induction items as [|x items IH]; [intros _ []|].
  cbn [map]. intros Hnd Hin. inversion Hnd as [|? ? Hx Hrest]; subst.
  cbn [last_named]. destruct Hin as [-> | Hin].
  - destruct (last_named (Ast.name item) items) as [y|] eqn:E.
    + exfalso. apply Hx. destruct (last_named_spec _ _ _ E) as [Hy <-].
      now apply in_map.
    + now rewrite String.eqb_refl.
  - now rewrite (IH Hrest Hin).
Qed.



Lemma latest_app {V : Type} (k : string) (a b : list (string * V)) :
  latest k (a ++ b)%list =
  match latest k b with
  | Some x => Some x
  | None => latest k a
  end.
Proof.
  induction a as [|[k' v] a IH]; cbn.
  - now destruct (latest k b).
  - rewrite IH. now destruct (latest k b).
Qed.

Lemma latest_in {V : Type} (k : string) (ws : list (string * V)) (v : V) :
  latest k ws = Some v -> In (k, v) ws.
Proof.
  induction ws as [|[k' v'] ws IH]; cbn; [discriminate|].
  destruct (latest k ws) as [x|].
  - intros E. injection E as ->. right. now apply IH.
  - destruct (String.eqb_spec k' k) as [-> |]; [|discriminate].
    intros E. injection E as ->. now left.
Qed.


Lemma visited_app {A : Type} (ok : A -> bool) (pre l : list A) :
  forallb ok pre = true -> visited ok (pre ++ l)%list = (pre ++ visited ok l)%list.
Proof.
  induction pre as [|x pre IH]; cbn; [reflexivity|].
  destruct (ok x); [|discriminate]. intros H. now rewrite IH.
Qed.

(** A class that fits the stack: the stack reaches its loop, and every
    method fits. *)
Lemma class_fits_parts frames node :
  (class_height node <=? frames)%nat = true ->
  (class_head_height node <=? frames)%nat = true
  /\ take_while (method_fits frames) (method_defs node) = method_defs node.
Proof.
  unfold class_height. rewrite leb_max. intros H. apply andb_prop in H.
  destruct H as [Hhead Hm]. split; [exact Hhead|].
  apply visited_all. destruct frames as [|frames]; [discriminate|].
  change (S ?a <=? S ?b)%nat with (a <=? b)%nat in Hm.
  rewrite forallb_list_max in Hm. exact Hm.
Qed.

(** The keys a declaration and a file can be stored under. *)
Lemma node_writes_keys frames self fp fc node k :
  In k (map fst (node_writes frames self fp fc node)) -> In k (node_names node).
Proof.
  unfold node_writes, node_names. destruct (Ast.isinstance node "ClassDef").
  - rewrite map_app. intros H. apply in_app_or in H. apply in_or_app.
    destruct H as [H | H].
    + left. apply in_map_iff in H. destruct H as [[k' e] [E H]]. cbn in E. subst k'.
      apply method_writes_in in H. destruct H as [item [Hitem [-> _]]].
      now apply in_map.
    + right. destruct (class_height node <=? frames)%nat; [exact H | destruct H].
  - destruct (Ast.isinstance node "FunctionDef"); [|intros []].
    destruct (function_height node <=? frames)%nat; [trivial | intros []].
Qed.

Lemma nodes_writes_keys frames self fp fc nodes k :
  In k (map fst (flat_map (node_writes frames self fp fc) nodes)) ->
  In k (flat_map node_names nodes).
Proof.
  intros H. apply in_map_iff in H. destruct H as [[k' e] [E H]]. cbn in E. subst k'.
  apply in_flat_map in H. destruct H as [node [Hn H]].
  apply in_flat_map. exists node. split; [exact Hn|].
  apply (node_writes_keys frames self fp fc). apply in_map_iff. now exists (k, e).
Qed.

Lemma file_writes_keys env self fp fc m k :
  parsed env fp = Some (fc, m) ->
  In k (map fst (file_writes env self fp)) -> In k (file_names fp m).
Proof.
  intros Hp. unfold file_writes, file_names. rewrite Hp, map_app.
  intros H. apply in_app_or in H. apply in_or_app. destruct H as [H | H].
  - left. apply nodes_writes_keys in H. apply in_flat_map in H.
    destruct H as [node [Hn H]]. apply visited_incl in Hn.
    apply in_flat_map. now exists node.
  - right. now destruct (file_fits env m).
Qed.




(* ------------------------------------------------------------------ *)
(** ** Search *)

Lemma lower_empty q : PyStr.lower q = "" <-> q = "".
Proof. destruct q; cbn; split; congruence. Qed.

Lemma contains_in_empty sub : sub <> "" -> PyStr.contains sub "" = false.
Proof. intros H. cbn. now destruct (String.eqb_spec sub ""). Qed.

(** For a query that is not empty, one turn of the loop appends the entity
    exactly when [entity_matches] holds. *)
Lemma search_step_matches query entity_type results entity :
  query <> "" ->
  search_step (PyStr.lower query) entity_type results entity
  = if entity_matches query entity_type entity
    then (results ++ [entity])%list else results.
Proof.
  intros Hq.
  assert (Hl : PyStr.lower query <> "") by (now rewrite lower_empty).
  unfold search_step, entity_matches.
  destruct (PyStr.truthy entity_type);
    destruct (String.eqb (kind_of entity) (PyStr.str_or_empty entity_type));
    cbn [negb andb orb]; try reflexivity;
    destruct (PyStr.contains (PyStr.lower query) (PyStr.lower (name (base entity))));
    cbn [orb]; try reflexivity;
    destruct (docstring (base entity)) as [[|c d]|];
    cbn [PyStr.truthy PyStr.str_or_empty andb orb PyStr.lower];
    rewrite ?(contains_in_empty _ Hl); cbn [orb];
    try (destruct (PyStr.contains (PyStr.lower query) (String (PyStr.lower_char c) (PyStr.lower d)));
         cbn [orb]; try reflexivity);
    destruct (code_snippet (base entity)) as [[|c' s]|];
    cbn [PyStr.truthy PyStr.str_or_empty andb orb PyStr.lower];
    rewrite ?(contains_in_empty _ Hl); try reflexivity;
    now destruct (PyStr.contains (PyStr.lower query)
                    (String (PyStr.lower_char c') (PyStr.lower s))).
Qed.

Lemma search_fold query entity_type entities :
  query <> "" ->
  forall results,
    fold_left (search_step (PyStr.lower query) entity_type) entities results
    = (results ++ filter (entity_matches query entity_type) entities)%list.
Proof.
  intros Hq. induction entities as [|e entities IH]; intros results; cbn.
  - now rewrite app_nil_r.
  - rewrite search_step_matches by exact Hq. rewrite IH.
    destruct (entity_matches query entity_type e); [|reflexivity].
    now rewrite <- app_assoc.
Qed.

(** For a filter that is absent or a non-empty string, the test of the
    code is the rule of the specification. *)
Lemma entity_matches_spec query entity_type entity :
  entity_type <> Some "" ->
  entity_matches query entity_type entity = spec_matches query entity_type entity.
Proof.
  destruct entity_type as [[|c k]|]; [contradiction | reflexivity | reflexivity].
Qed.

(** C7.  For a query that is not empty and a kind filter that is absent or
    names a kind, [search_entities] returns the values of the index, in the
    index's order and each at most once, filtered by the rule of the
    specification: the kind equals the filter when one is given, and the
    lowercased query is a substring of the name, of the docstring or of
    the snippet, letter case apart. *)
Theorem search_entities_is_a_filter self query entity_type :
  query <> "" ->
  entity_type <> Some "" ->
  search_entities self query entity_type
  = filter (spec_matches query entity_type) (PyDict.values (all_entities self)).
Proof.
  intros Hq Ht. unfold search_entities. rewrite search_fold by exact Hq. cbn [app].
  apply filter_ext. intros e. now apply entity_matches_spec.
Qed.

Lemma search_entities_is_a_filter_witness :
  map (fun e => name (base e))
    (search_entities (Samples.after_pass Samples.example_env Samples.indexer)
       "FOO" (Some "class"))
  = ["Foo"]
  /\ search_entities (Samples.after_pass Samples.example_env Samples.indexer)
       "FOO" (Some "class")
     = filter (spec_matches "FOO" (Some "class"))
         (PyDict.values
            (all_entities (Samples.after_pass Samples.example_env Samples.indexer))).
Proof.
  split; [vm_compute; reflexivity|].
  apply (search_entities_is_a_filter
           (Samples.after_pass Samples.example_env Samples.indexer) "FOO" (Some "class"));
    discriminate.
Defined.

(** The empty string as kind filter, which names no kind, filters
    nothing. *)
Remark empty_kind_filter_is_no_filter self query :
  query <> "" ->
  search_entities self query (Some "") = search_entities self query None.
Proof.
  intros Hq. unfold search_entities. now rewrite !search_fold by exact Hq.
Qed.

(** C6.  The [/search] route rejects an empty or missing [q] with the
    error body and status 400 before it searches.  For a query that is not
    empty and that no entity of the index matches, [search_entities]
    returns the empty list and the route answers with status 200 and empty
    code results. *)
Theorem empty_query_is_rejected_and_a_miss_is_empty self query type_ :
  search self (Some "") type_ = BadRequest "Query parameter 'q' is required"
  /\ search self None type_ = BadRequest "Query parameter 'q' is required"
  /\ (query <> "" ->
      (forall e,
          In e (PyDict.values (all_entities (code_indexer self))) ->
          entity_matches query type_ e = false) ->
      search_entities (code_indexer self) query type_ = []
      /\ search self (Some query) type_
         = SearchResults []
             match doc_parser self with
             | Some dp => search_docs dp query
             | None => []
             end).
Proof.
  split; [reflexivity|]. split; [reflexivity|].
  intros Hq Hmiss.
  assert (Hnone : search_entities (code_indexer self) query type_ = []).
  { unfold search_entities. rewrite search_fold by exact Hq. cbn [app].
    induction (PyDict.values (all_entities (code_indexer self))) as [|e l IH];
      [reflexivity|].
    cbn [filter]. rewrite (Hmiss e) by now left.
    apply IH. intros e' He'. apply Hmiss. now right. }
  split; [exact Hnone|].
  unfold search. destruct query as [|c q]; [contradiction|].
  now rewrite Hnone.
Qed.

Lemma empty_query_is_rejected_and_a_miss_is_empty_witness :
  search (mkServer (Samples.after_pass Samples.example_env Samples.indexer) None)
    (Some "") (Some "class")
  = BadRequest "Query parameter 'q' is required"
  /\ search (mkServer (Samples.after_pass Samples.example_env Samples.indexer) None)
       (Some "zebra") (Some "class")
     = SearchResults [] [].
Proof.
  split; [reflexivity|].
  refine (proj2 (proj2 (proj2 (empty_query_is_rejected_and_a_miss_is_empty
                          (mkServer (Samples.after_pass Samples.example_env Samples.indexer) None)
                          "zebra" (Some "class"))) _ _)).
  - discriminate.
  - intros e H.
    assert (F : forallb (fun e => negb (entity_matches "zebra" (Some "class") e))
                  (PyDict.values
                     (all_entities
                        (code_indexer
                           (mkServer
                              (Samples.after_pass Samples.example_env Samples.indexer)
                              None))))
                = true) by (vm_compute; reflexivity).
    rewrite forallb_forall in F. specialize (F e H).
    now destruct (entity_matches "zebra" (Some "class") e).
Defined.


(* ------------------------------------------------------------------ *)
(** ** The default exclude patterns *)

Lemma dot_star_regex : PyStr.replace "*" ".*" ".*" = "..*".
Proof. reflexivity. Qed.

(** The regex [..*] matches at the head of every string whose first
    character is not a line feed. *)
Lemma dot_star_matches c s :
  Ascii.eqb c PyStr.LF = false -> Re.re_match "..*" (String c s) = Some true.
Proof.
  intros Hc. unfold Re.re_match.
  change (Re.compile "..*") with (Some [(Re.AnyChar, false); (Re.AnyChar, true)]).
  cbn [option_map Re.match_here Re.atom_matches]. rewrite Hc. cbn [negb andb].
  now destruct s.
Qed.

Lemma default_patterns_match env c s :
  Ascii.eqb c PyStr.LF = false ->
  any_pattern_matches env default_exclude_patterns (String c s) = Some true.
Proof.
  intros Hc. unfold default_exclude_patterns. cbn [any_pattern_matches].
  change (PyStr.replace "*" ".*" "__pycache__") with "__pycache__".
  change (PyStr.replace "*" ".*" "*.pyc") with ".*.pyc".
  unfold re_match. rewrite dot_star_regex, (dot_star_matches c s Hc).
  unfold Re.re_match.
  change (Re.compile "__pycache__")
    with (Some (map (fun c => (Re.Lit c, false))
                  (list_ascii_of_string "__pycache__"))).
  change (Re.compile ".*.pyc")
    with (Some [(Re.AnyChar, true); (Re.AnyChar, false);
                (Re.Lit "p", false); (Re.Lit "y", false); (Re.Lit "c", false)]).
  cbn [option_map].
  destruct (Re.match_here _ (String c s)); [reflexivity|].
  now destruct (Re.match_here _ (String c s)).
Qed.

Lemma default_patterns_match_name env basename :
  basename <> "" -> begins_with_newline basename = false ->
  any_pattern_matches env default_exclude_patterns basename = Some true.
Proof.
  destruct basename as [|c s]; [contradiction|]. intros _ H.
  now apply default_patterns_match.
Qed.

Lemma default_patterns_collect_nothing env root files :
  (forall f, In f files -> begins_with_newline f = false) ->
  collect_files env default_exclude_patterns root files = Some [].
Proof.
  induction files as [|f files IH]; intros H; [reflexivity|].
  cbn [collect_files]. rewrite IH by (intros g Hg; apply H; now right).
  destruct (PyStr.endswith f ".py") eqn:E; [|reflexivity].
  rewrite default_patterns_match_name; [reflexivity | | apply H; now left].
  intros ->. discriminate.
Qed.

Lemma default_patterns_walk_nothing env root dirs files :
  (forall d sub, In (d, sub) dirs -> d <> "" /\ begins_with_newline d = false) ->
  (forall f, In f files -> begins_with_newline f = false) ->
  walk env default_exclude_patterns root (Dir dirs files) = Some [].
Proof.
  intros Hd Hf. cbn [walk]. rewrite default_patterns_collect_nothing by exact Hf.
  induction dirs as [|[d sub] dirs IH]; [reflexivity|].
  destruct (Hd d sub (or_introl eq_refl)) as [Hne Hnl].
  rewrite (default_patterns_match_name env d Hne Hnl).
  apply IH. intros d' sub' H. apply (Hd d' sub'). now right.
Qed.

(** C1, as amended.  Under a root none of whose immediate entries has a
    basename that begins with a line feed, an indexer constructed without
    exclude patterns finds no file, because the default pattern [.*] is
    matched as the regex [..*], which matches every basename that begins
    with any other character: every sub-directory is pruned, every [.py]
    file is excluded, and a pass leaves both indexes empty. *)
Theorem default_patterns_exclude_every_file env root dirs files :
  tree env = Dir dirs files ->
  (forall d sub, In (d, sub) dirs -> d <> "" /\ begins_with_newline d = false) ->
  (forall f, In f files -> begins_with_newline f = false) ->
  _find_python_files env (CodeIndexer_init root None) = Some []
  /\ index_codebase env (CodeIndexer_init root None) = Some (CodeIndexer_init root None)
  /\ all_entities (CodeIndexer_init root None) = PyDict.empty
  /\ modules (CodeIndexer_init root None) = PyDict.empty.
Proof.
  intros Htree Hd Hf.
  assert (Hfiles : _find_python_files env (CodeIndexer_init root None) = Some []).
  { unfold _find_python_files. rewrite Htree.
    now apply default_patterns_walk_nothing. }
  split; [exact Hfiles|]. split; [|split; reflexivity].
  unfold index_codebase. now rewrite Hfiles.
Qed.

(** [/repo] holds [top.py] and the package [pkg] with [inner.py]; with the
    default patterns neither file is found. *)
Lemma default_patterns_exclude_every_file_witness :
  _find_python_files Samples.nested_env Samples.indexer
  = Some ["/repo/top.py"; "/repo/pkg/inner.py"]
  /\ _find_python_files Samples.nested_env (CodeIndexer_init "/repo" None) = Some []
  /\ index_codebase Samples.nested_env (CodeIndexer_init "/repo" None)
     = Some (CodeIndexer_init "/repo" None)
  /\ all_entities (CodeIndexer_init "/repo" None) = PyDict.empty
  /\ modules (CodeIndexer_init "/repo" None) = PyDict.empty.
Proof.
  split; [reflexivity|].
  apply (default_patterns_exclude_every_file Samples.nested_env "/repo"
           [("pkg", Dir [] ["inner.py"])] ["top.py"]).
  - reflexivity.
  - intros d sub [E | []]. injection E as <- <-. split; [discriminate | reflexivity].
  - intros f [<- | []]. reflexivity.
Defined.

(** C1, as stated, fails for a basename that begins with a line feed: [.]
    does not match a line feed, so no default pattern matches the file, the
    walker returns it and the pass indexes it. *)
Lemma newline_basename_is_indexed :
  Re.re_match (PyStr.replace "*" ".*" ".*") Samples.newline_name = Some false
  /\ any_pattern_matches Samples.newline_env default_exclude_patterns Samples.newline_name
     = Some false
  /\ _find_python_files Samples.newline_env (CodeIndexer_init "/repo" None)
     = Some [OsPath.join "/repo" Samples.newline_name]
  /\ exists self',
      index_codebase Samples.newline_env (CodeIndexer_init "/repo" None) = Some self'
      /\ PyDict.keys (all_entities self') = ["new"; String PyStr.LF "x"].
Proof.
  split; [reflexivity|]. split; [reflexivity|]. split; [reflexivity|].
  eexists. split; vm_compute; reflexivity.
Qed.

(* ================================================================== *)
(** * Further properties of the code *)

(* ------------------------------------------------------------------ *)
(** ** The source walker *)

Lemma collect_files_spec env patterns root files :
  forall here,
    collect_files env patterns root files = Some here ->
    forall path,
      In path here <->
      exists file,
        In file files /\ PyStr.endswith file ".py" = true
        /\ any_pattern_matches env patterns file = Some false
        /\ path = OsPath.join root file.
Proof.
  induction files as [|f files IH]; intros here H path.
  - injection H as <-. split; [intros [] | intros [file [[] _]]].
  - cbn [collect_files] in H. destruct (PyStr.endswith f ".py") eqn:Epy.
    + destruct (any_pattern_matches env patterns f) as [skip|] eqn:Eany; [|discriminate].
      destruct (collect_files env patterns root files) as [found|]; [|discriminate].
      injection H as <-. specialize (IH found eq_refl path).
      destruct skip.
      * rewrite IH. split.
        -- intros [file [Hin Hrest]]. exists file. split; [now right | exact Hrest].
        -- intros [file [[<- | Hin] [Hpy [Hm Hp]]]]; [congruence|].
           exists file. repeat split; (assumption || reflexivity).
      * split.
        -- intros [<- | Hin].
           ++ exists f. split; [now left | split; [assumption | split; [assumption | reflexivity]]].
           ++ apply IH in Hin. destruct Hin as [file [Hin Hrest]].
              exists file. split; [now right | exact Hrest].
        -- intros [file [[<- | Hin] [Hpy [Hm Hp]]]]; [left; now symmetry|].
           right. apply IH. exists file. repeat split; (assumption || reflexivity).
    + specialize (IH here H path). rewrite IH. split.
      * intros [file [Hin Hrest]]. exists file. split; [now right | exact Hrest].
      * intros [file [[<- | Hin] [Hpy [Hm Hp]]]]; [congruence|].
        exists file. repeat split; (assumption || reflexivity).
Qed.

Lemma walk_spec env patterns t :
  forall root found,
    walk env patterns root t = Some found ->
    forall path, In path found <-> discovered env patterns root t path.
Proof.
  induction t as [dirs files IH] using dir_tree_induction.
  intros root found H path. cbn [walk] in H.
  destruct (collect_files env patterns root files) as [here|] eqn:Ehere; [|discriminate].
  pose proof (collect_files_spec env patterns root files here Ehere path) as Hhere.
  match type of H with
  | match ?below with _ => _ end = _ =>
      assert (Hbelow :
                forall deeper,
                  below = Some deeper ->
                  (In path deeper <->
                   exists d sub,
                     In (d, sub) dirs
                     /\ any_pattern_matches env patterns d = Some false
                     /\ discovered env patterns (OsPath.join root d) sub path));
        [|destruct below as [deeper|]; [|discriminate]]
  end.
  { clear H Hhere Ehere. induction dirs as [|[d sub] dirs IHd]; intros deeper H.
    - injection H as <-. split; [intros [] | intros [d [sub [[] _]]]].
    - destruct (any_pattern_matches env patterns d) as [[|]|] eqn:Eany; [| |discriminate].
      + rewrite (IHd (fun d' sub' Hin => IH d' sub' (or_intror Hin)) deeper H).
        split.
        * intros [d' [sub' [Hin Hrest]]]. exists d', sub'. split; [now right | exact Hrest].
        * intros [d' [sub' [[E | Hin] [Hm Hd]]]]; [injection E as <- <-; congruence|].
          exists d', sub'. repeat split; (assumption || reflexivity).
      + destruct (walk env patterns (OsPath.join root d) sub) as [a|] eqn:Ea; [|discriminate].
        match type of H with
        | match ?rest with _ => _ end = _ =>
            destruct rest as [b|] eqn:Eb; [|discriminate]
        end.
        injection H as <-. rewrite in_app_iff.
        rewrite (IH d sub (or_introl eq_refl) _ a Ea path).
        rewrite (IHd (fun d' sub' Hin => IH d' sub' (or_intror Hin)) b eq_refl).
        split.
        * intros [Hd | [d' [sub' [Hin Hrest]]]].
          -- exists d, sub. split; [now left | split; assumption].
          -- exists d', sub'. split; [now right | exact Hrest].
        * intros [d' [sub' [[E | Hin] [Hm Hd]]]].
          -- injection E as <- <-. now left.
          -- right. exists d', sub'. repeat split; (assumption || reflexivity). }
  injection H as <-. rewrite in_app_iff, Hhere, (Hbelow deeper eq_refl). split.
  - intros [[file [Hin [Hpy [Hm ->]]]] | [d [sub [Hin [Hm Hd]]]]].
    + now apply discovered_here.
    + now apply (discovered_below env patterns root dirs files d sub).
  - intros Hd. inversion Hd as [r ds fs file Hin Hpy Hm | r ds fs d sub p Hin Hm Hsub]; subst.
    + left. exists file. repeat split; (assumption || reflexivity).
    + right. exists d, sub. repeat split; (assumption || reflexivity).
Qed.

(** X1.  Whenever [_find_python_files] returns (it does unless [re]
    rejects an exclude pattern it comes to use), a path is in its result
    exactly when it is a [.py] file that no exclude pattern matches and
    that lies in the root or below sub-directories none of which an
    exclude pattern matches: an excluded directory hides everything under
    it, whatever the files there are called.  The patterns are any that
    [re] accepts, within the fragment of [Re] or beyond it. *)
Theorem find_python_files_returns_the_discovered_files env self python_files :
  _find_python_files env self = Some python_files ->
  forall path,
    In path python_files <->
    discovered env (exclude_patterns self) (root_path self) (tree env) path.
Proof. unfold _find_python_files. apply walk_spec. Qed.

Lemma find_python_files_returns_the_discovered_files_witness :
  (In "/repo/pkg/inner.py" ["/repo/top.py"; "/repo/pkg/inner.py"] <->
   discovered Samples.nested_env (exclude_patterns Samples.indexer) (root_path Samples.indexer)
     (tree Samples.nested_env) "/repo/pkg/inner.py")
  /\ (In "/repo/pkg/inner.py" ["/repo/top.py"] <->
      discovered Samples.nested_env ["pkg"] "/repo" (tree Samples.nested_env) "/repo/pkg/inner.py")
  /\ Re.re_match "test_[0-9].*" "test_1.py" = None
  /\ _find_python_files Samples.tests_env (CodeIndexer_init "/repo" (Some ["test_[0-9]*"]))
     = Some ["/repo/new.py"]
  /\ (In "/repo/test_1.py" ["/repo/new.py"] <->
      discovered Samples.tests_env ["test_[0-9]*"] "/repo" (tree Samples.tests_env)
        "/repo/test_1.py").
Proof.
  split; [|split; [|split; [|split]]].
  - apply (find_python_files_returns_the_discovered_files Samples.nested_env
             Samples.indexer ["/repo/top.py"; "/repo/pkg/inner.py"]).
    reflexivity.
  - apply (find_python_files_returns_the_discovered_files Samples.nested_env
             (CodeIndexer_init "/repo" (Some ["pkg"])) ["/repo/top.py"]).
    reflexivity.
  - reflexivity.
  - reflexivity.
  - apply (find_python_files_returns_the_discovered_files Samples.tests_env
             (CodeIndexer_init "/repo" (Some ["test_[0-9]*"])) ["/repo/new.py"]).
    reflexivity.
Defined.

(* ------------------------------------------------------------------ *)
(** ** Files that cannot be read or parsed *)

(** X2.  A file whose reading raises, or whose parsing raises anything at
    all, leaves [_index_file] with the indexer as it was (the exception of
    a read error or of a non-syntax parse error travels to the loop of
    [index_codebase], which logs it), and the pass yields what the loop
    over the other files yields. *)
Theorem failing_file_is_skipped env self fp e :
  read_text env fp = Raise e
  \/ (exists fc, read_text env fp = Ok fc /\ ast_parse env fc = Raise e) ->
  (_index_file env self fp = (self, Raise e) \/ _index_file env self fp = (self, Ok tt))
  /\ index_one env self fp = self
  /\ index_codebase env self =
     option_map
       (fun python_files =>
          fold_left (index_one env)
            (filter (fun p => negb (String.eqb p fp)) python_files) self)
       (_find_python_files env self).
Proof.
  intros Hfail.
  assert (Hfile : forall s,
             _index_file env s fp = (s, Raise e) \/ _index_file env s fp = (s, Ok tt)).
  { intros s. unfold _index_file. destruct Hfail as [-> | [fc [-> ->]]]; [now left|].
    destruct e; [now right | now left]. }
  assert (Hone : forall s, index_one env s fp = s).
  { intros s. unfold index_one. now destruct (Hfile s) as [-> | ->]. }
  split; [apply Hfile|]. split; [apply Hone|].
  unfold index_codebase.
  destruct (_find_python_files env self) as [files|]; [|reflexivity].
  cbn [option_map]. f_equal. now apply skip_unchanged_files.
Qed.

(** [ghost.py] is listed but cannot be opened; [new.py] is still indexed. *)
Lemma failing_file_is_skipped_witness :
  PyDict.keys (all_entities (Samples.after_pass Samples.ghost_env Samples.indexer))
  = ["new"]
  /\ (_index_file Samples.ghost_env Samples.indexer "/repo/ghost.py"
      = (Samples.indexer, Raise (OtherException "FileNotFoundError"))
      \/ _index_file Samples.ghost_env Samples.indexer "/repo/ghost.py"
         = (Samples.indexer, Ok tt))
  /\ index_one Samples.ghost_env Samples.indexer "/repo/ghost.py" = Samples.indexer
  /\ index_codebase Samples.ghost_env Samples.indexer =
     option_map
       (fun python_files =>
          fold_left (index_one Samples.ghost_env)
            (filter (fun p => negb (String.eqb p "/repo/ghost.py")) python_files)
            Samples.indexer)
       (_find_python_files Samples.ghost_env Samples.indexer).
Proof.
  split; [vm_compute; reflexivity|].
  apply (failing_file_is_skipped Samples.ghost_env Samples.indexer "/repo/ghost.py"
           (OtherException "FileNotFoundError")).
  left. reflexivity.
Defined.

(* ------------------------------------------------------------------ *)
(** ** Dictionaries that are built by assignment *)

Section DictOrder.

Context {V : Type}.
Implicit Types (d : PyDict.dict V) (k : string) (v : V) (ws : list (string * V)).

Lemma keys_set_present k v d :
  In k (PyDict.keys d) -> PyDict.keys (PyDict.set k v d) = PyDict.keys d.
Proof.
  induction d as [|[k0 v0] d IH]; cbn; [intros []|].
  destruct (String.eqb_spec k0 k) as [-> | Hne]; [reflexivity|].
  intros [E | H]; [contradiction|]. cbn. f_equal. now apply IH.
Qed.

Lemma keys_set_absent k v d :
  ~ In k (PyDict.keys d) -> PyDict.keys (PyDict.set k v d) = (PyDict.keys d ++ [k])%list.
Proof.
  induction d as [|[k0 v0] d IH]; cbn; [reflexivity|].
  intros H. destruct (String.eqb_spec k0 k) as [-> | Hne]; [exfalso; apply H; now left|].
  cbn. f_equal. apply IH. intros Hin. apply H. now right.
Qed.

Lemma nodup_keys_set k v d :
  NoDup (PyDict.keys d) -> NoDup (PyDict.keys (PyDict.set k v d)).
Proof.
  intros Hnd. destruct (in_dec string_dec k (PyDict.keys d)) as [Hin | Hout].
  - now rewrite keys_set_present.
  - rewrite keys_set_absent by exact Hout.
    apply NoDup_rev in Hnd. rewrite <- (rev_involutive (PyDict.keys d ++ [k])%list).
    apply NoDup_rev. rewrite rev_app_distr. cbn. constructor; [|exact Hnd].
    now rewrite <- in_rev.
Qed.

Lemma nodup_keys_write_all ws d :
  NoDup (PyDict.keys d) -> NoDup (PyDict.keys (write_all ws d)).
Proof.
  revert d. induction ws as [|[k v] ws IH]; intros d H; [exact H|].
  change (write_all ((k, v) :: ws) d) with (write_all ws (PyDict.set k v d)).
  apply IH. now apply nodup_keys_set.
Qed.


Lemma written_keys_present ws d k :
  In k (map fst ws) -> In k (PyDict.keys (write_all ws d)).
Proof.
  intros Hin. rewrite in_keys_get, get_write_all.
  destruct (latest k ws) as [v|] eqn:E; [now exists v|].
  apply latest_none_iff in E. contradiction.
Qed.



End DictOrder.

Lemma reachable_nodup self :
  reachable self ->
  NoDup (PyDict.keys (all_entities self)) /\ NoDup (PyDict.keys (modules self)).
Proof.
  intros Hr. induction Hr as [root pats | env self self' _ [IH1 IH2] Hpass].
  - split; constructor.
  - rewrite (index_codebase_spec _ _ _ Hpass). cbn [apply_writes all_entities modules].
    split; now apply nodup_keys_write_all.
Qed.



(* ------------------------------------------------------------------ *)
(** ** The two indexes agree on modules *)

Lemma node_writes_no_module frames self fp fc node k m :
  ~ In (k, EModule m) (node_writes frames self fp fc node).
Proof.
  unfold node_writes. destruct (Ast.isinstance node "ClassDef").
  - intros H. apply in_app_or in H. destruct H as [H | H].
    + apply method_writes_in in H. destruct H as [item [_ [_ E]]]. discriminate.
    + destruct (class_height node <=? frames)%nat; [|destruct H].
      destruct H as [H | []]. discriminate.
  - destruct (Ast.isinstance node "FunctionDef"); [|intros []].
    destruct (function_height node <=? frames)%nat; [|intros []].
    intros [H | []]. discriminate.
Qed.

(** Per file: the entity index receives a module under [k] exactly when
    the module index receives the same module under [k]. *)
Lemma file_writes_agree env self fp k :
  match latest k (file_writes env self fp) with
  | Some (EModule m) => latest k (file_module_writes env self fp) = Some m
  | Some _ => True
  | None => latest k (file_module_writes env self fp) = None
  end.
Proof.
  unfold file_writes, file_module_writes.
  destruct (parsed env fp) as [[fc m]|]; [|reflexivity].
  rewrite latest_app.
  assert (Hnodes : match latest k
                           (flat_map (node_writes (recursion_limit env) self fp fc)
                              (visited (node_fits (recursion_limit env)) (Ast.body m))) with
                   | Some (EModule _) => False
                   | _ => True
                   end).
  { destruct (latest k _) as [[f | c | m']|] eqn:E; try exact I.
    apply latest_in in E. apply in_flat_map in E. destruct E as [node [_ E]].
    now apply node_writes_no_module in E. }
  destruct (file_fits env m); cbn [latest].
  - destruct (String.eqb_spec (module_name_of fp) k) as [<- | Hne]; [reflexivity|].
    destruct (latest k _) as [[f | c | m']|]; try exact I; [destruct Hnodes | reflexivity].
  - destruct (latest k _) as [[f | c | m']|]; try exact I; [destruct Hnodes | reflexivity].
Qed.

Lemma pass_writes_agree env self files k :
  match latest k (flat_map (file_writes env self) files) with
  | Some (EModule m) => latest k (flat_map (file_module_writes env self) files) = Some m
  | Some _ => True
  | None => latest k (flat_map (file_module_writes env self) files) = None
  end.
Proof.
  induction files as [|fp files IH]; [reflexivity|].
  cbn [flat_map]. rewrite !latest_app.
  destruct (latest k (flat_map (file_writes env self) files)) as [[f | c | m]|].
  - exact I.
  - exact I.
  - now rewrite IH.
  - rewrite IH. apply file_writes_agree.
Qed.

Lemma module_writes_named env self files k m :
  In (k, m) (flat_map (file_module_writes env self) files) ->
  name (module_base m) = k
  /\ In k (map fst (flat_map (file_writes env self) files)).
Proof.
  intros H. apply in_flat_map in H. destruct H as [fp [Hfp H]].
  unfold file_module_writes in H.
  destruct (parsed env fp) as [[fc ma]|] eqn:Hp; [|destruct H].
  destruct (file_fits env ma) eqn:Hfit; [|destruct H].
  destruct H as [H | []]. injection H as <- <-. split.
  - apply name_module_entity_of.
  - apply in_map_iff. exists (module_name_of fp, EModule (module_entity_of self fp fc ma)).
    split; [reflexivity|]. apply in_flat_map. exists fp. split; [exact Hfp|].
    unfold file_writes. rewrite Hp, Hfit. apply in_or_app. right. now left.
Qed.

(** X4.  In every index the program can hold, a name under which the
    entity index holds a module holds the very same module in the module
    index; and every module of the module index stands under its own name,
    which is also a key of the entity index (where a class or function of
    the same name may have taken its place). *)
Theorem module_index_agrees_with_entity_index self :
  reachable self ->
  (forall k m,
      get_entity_by_name self k = Some (EModule m) ->
      PyDict.get k (modules self) = Some m)
  /\ (forall k m,
         PyDict.get k (modules self) = Some m ->
         name (module_base m) = k /\ In k (PyDict.keys (all_entities self))).
Proof.
  intros Hr. unfold get_entity_by_name.
  induction Hr as [root pats | env self self' _ [IH1 IH2] Hpass].
  - split; intros k m H; discriminate.
  - rewrite (index_codebase_spec _ _ _ Hpass). cbn [apply_writes all_entities modules].
    pose proof (pass_writes_agree env self (pass_files env self)) as Hagree.
    split; intros k m; rewrite !get_write_all; specialize (Hagree k).
    + destruct (latest k (flat_map (file_writes env self) (pass_files env self)))
        as [e|].
      * intros E. injection E as ->. now rewrite Hagree.
      * rewrite Hagree. apply IH1.
    + destruct (latest k (flat_map (file_module_writes env self) (pass_files env self)))
        as [m'|] eqn:E.
      * intros E'. injection E' as ->. apply latest_in in E.
        destruct (module_writes_named _ _ _ _ _ E) as [Hname Hkey].
        split; [exact Hname | now apply written_keys_present].
      * intros H. destruct (IH2 k m H) as [Hname Hkey].
        split; [exact Hname | now apply write_all_keeps_keys].
Qed.

(** After [old.py] (which defines [old]) and then [copy.py] (which defines
    [old] too): the module [old] is in the module index, the entity index
    holds the function of [copy.py] under [old], and both indexes hold the
    same module [copy]. *)
Lemma module_index_agrees_with_entity_index_witness :
  PyDict.keys
    (modules (Samples.after_pass Samples.copy_env
                (Samples.after_pass Samples.old_env Samples.indexer)))
  = ["old"; "copy"]
  /\ variant_kind
       (Samples.named
          (Samples.after_pass Samples.copy_env
             (Samples.after_pass Samples.old_env Samples.indexer)) "old")
     = "function"
  /\ (forall k m,
         get_entity_by_name
           (Samples.after_pass Samples.copy_env
              (Samples.after_pass Samples.old_env Samples.indexer)) k
         = Some (EModule m) ->
         PyDict.get k
           (modules (Samples.after_pass Samples.copy_env
                       (Samples.after_pass Samples.old_env Samples.indexer)))
         = Some m).
Proof.
  split; [vm_compute; reflexivity|]. split; [vm_compute; reflexivity|].
  refine (proj1 (module_index_agrees_with_entity_index
                   (Samples.after_pass Samples.copy_env
                      (Samples.after_pass Samples.old_env Samples.indexer)) _)).
  apply (reach_pass Samples.copy_env (Samples.after_pass Samples.old_env Samples.indexer));
    [|vm_compute; reflexivity].
  apply (reach_pass Samples.old_env Samples.indexer);
    [apply reach_init | vm_compute; reflexivity].
Defined.

(* ------------------------------------------------------------------ *)
(** ** Kinds and hashes of stored entities *)

Lemma entity_type_CodeEntity_init n f ls le d c t :
  entity_type (CodeEntity_init n f ls le d c t) = t.
Proof.
  unfold CodeEntity_init.
  now destruct (post_init_fields (mkCodeEntity n f ls le d c t ""))
    as (_ & _ & _ & _ & _ & ->).
Qed.

Lemma written_kind env self k e : written env self k e -> kind_of e = variant_kind e.
Proof.
  intros [fp fc m Hp | fp fc m node Hp Hn | fp fc m node Hp Hn
         | fp fc m node item Hp Hn Hi]; unfold kind_of; cbn [base variant_kind].
  - unfold module_entity_of. cbn [module_base]. apply entity_type_CodeEntity_init.
  - unfold class_entity_of, ClassEntity_init. cbn [class_base].
    apply entity_type_CodeEntity_init.
  - unfold function_entity_of, FunctionEntity_init. cbn [function_base].
    apply entity_type_CodeEntity_init.
  - unfold method_entity, rename_function, with_name, function_entity_of,
      FunctionEntity_init.
    cbn [function_base entity_type]. apply entity_type_CodeEntity_init.
Qed.

(** X5.  In every index the program can hold, the [entity_type] string of
    an entity names its class ([function] for a [FunctionEntity], methods
    included, [class] for a [ClassEntity], [module] for a [ModuleEntity]);
    hence a search with a non-empty kind filter returns instances of that
    class only. *)
Theorem kind_filter_selects_the_entity_class self :
  reachable self ->
  (forall e, In e (PyDict.values (all_entities self)) -> kind_of e = variant_kind e)
  /\ (forall query kind e,
         query <> "" -> kind <> "" ->
         In e (search_entities self query (Some kind)) ->
         variant_kind e = kind).
Proof.
  intros Hr.
  assert (Hkind : forall e, In e (PyDict.values (all_entities self)) ->
                            kind_of e = variant_kind e).
  { intros e Hin. destruct (in_values_entry _ _ Hin) as [k Hk].
    exact (reachable_entries (fun _ e => kind_of e = variant_kind e)
             written_kind self Hr k e Hk). }
  split; [exact Hkind|].
  intros query kind e Hq Hk Hin. unfold search_entities in Hin.
  rewrite search_fold in Hin by exact Hq. cbn [app] in Hin.
  apply filter_In in Hin. destruct Hin as [Hin Hm].
  rewrite <- (Hkind e Hin). unfold entity_matches in Hm.
  apply andb_prop in Hm. destruct Hm as [Hm _].
  destruct kind as [|c kind]; [contradiction|].
  cbn [PyStr.truthy negb orb PyStr.str_or_empty] in Hm.
  now apply String.eqb_eq.
Qed.

Lemma kind_filter_selects_the_entity_class_witness :
  map (fun e => (name (base e), variant_kind e))
    (search_entities (Samples.after_pass Samples.example_env Samples.indexer)
       "bar" (Some "function"))
  = [("Foo.bar", "function"); ("baz", "function")]
  /\ Forall (fun e => variant_kind e = "function")
       (search_entities (Samples.after_pass Samples.example_env Samples.indexer)
          "bar" (Some "function")).
Proof.
  split; [vm_compute; reflexivity|].
  apply Forall_forall. intros e.
  refine (proj2 (kind_filter_selects_the_entity_class
                   (Samples.after_pass Samples.example_env Samples.indexer) _)
            "bar" "function" e _ _); try discriminate.
  apply (reach_pass Samples.example_env Samples.indexer);
    [apply reach_init | vm_compute; reflexivity].
Defined.

Lemma le_bytes_length n x : List.length (Md5.le_bytes n x) = n.
Proof. revert x. induction n as [|n IH]; intros x; cbn; [reflexivity | now rewrite IH]. Qed.

Lemma hex_length bs : String.length (Md5.hex bs) = (2 * List.length bs)%nat.
Proof. induction bs as [|b bs IH]; cbn [Md5.hex String.length List.length]; lia. Qed.

Lemma hexdigest_length data : String.length (Md5.hexdigest data) = 32%nat.
Proof.
  unfold Md5.hexdigest, Md5.digest. rewrite hex_length.
  rewrite !length_app, !le_bytes_length. reflexivity.
Qed.

(** X6.  In every index the program can hold, the hash of an entity is
    empty when its snippet is absent or the empty text (a declaration whose
    computed span is empty) and is 32 characters long in every other
    case. *)
Theorem hash_is_empty_or_thirty_two_characters self e :
  reachable self ->
  In e (PyDict.values (all_entities self)) ->
  String.length (hash (base e))
  = if PyStr.truthy (code_snippet (base e)) then 32%nat else 0%nat.
Proof.
  intros Hr Hin. rewrite (reachable_hash self e Hr Hin).
  destruct (code_snippet (base e)) as [[|c s]|]; cbn [content_hash PyStr.truthy];
    [reflexivity | apply hexdigest_length | reflexivity].
Qed.

Lemma hash_is_empty_or_thirty_two_characters_witness :
  hash (base (Samples.named (Samples.after_pass Samples.example_env Samples.indexer) "Foo"))
  = "9fad8e838cba86f8a2a1d1893cd5e1af"
  /\ String.length
       (hash (base (Samples.named
                      (Samples.after_pass Samples.example_env Samples.indexer) "Foo")))
     = if PyStr.truthy
            (code_snippet
               (base (Samples.named
                        (Samples.after_pass Samples.example_env Samples.indexer) "Foo")))
       then 32%nat else 0%nat.
Proof.
  split; [vm_compute; reflexivity|].
  apply (hash_is_empty_or_thirty_two_characters
           (Samples.after_pass Samples.example_env Samples.indexer)).
  - apply (reach_pass Samples.example_env Samples.indexer);
      [apply reach_init | vm_compute; reflexivity].
  - vm_compute. right. left. reflexivity.
Defined.

(* ------------------------------------------------------------------ *)
(** ** The usage lists, in closed form *)

Lemma usage_fold entity others :
  forall r,
    fold_left (usage_step entity (simple_name_of (name entity))) others r
    = mkRelationships (rel_imports r) (rel_imported_by r)
        (rel_uses r
         ++ map (fun o => name (base o)) (filter (is_used entity) others))%list
        (rel_used_by r
         ++ map (fun o => name (base o)) (filter (is_user entity) others))%list.
Proof.
  induction others as [|other others IH]; intros r.
  - cbn. rewrite !app_nil_r. now destruct r.
  - cbn [fold_left filter]. rewrite IH. unfold usage_step, is_used, is_user.
    destruct (String.eqb (name (base other)) (name entity)); cbn [negb andb];
      [reflexivity|].
    destruct (mentions (code_snippet (base other)) (simple_name_of (name entity)));
      destruct (mentions (code_snippet entity) (simple_name_of (name (base other))));
      cbn [rel_imports rel_imported_by rel_uses rel_used_by add_uses add_used_by map];
      rewrite <- ?app_assoc; reflexivity.
Qed.

(** X7.  For a name the index does not hold, all four relationship lists
    are empty.  For a name it holds, [used_by] lists, in index order, the
    names of the entities with another name whose snippet mentions the
    entity's simple name as a whole word, and [uses] lists the names of the
    entities with another name whose simple name the entity's own snippet
    mentions as a whole word. *)
Theorem usage_lists_in_closed_form self n :
  match get_entity_by_name self n with
  | None => get_entity_relationships self n = no_relationships
  | Some entity =>
      rel_used_by (get_entity_relationships self n)
      = map (fun o => name (base o))
          (filter (is_user (base entity)) (PyDict.values (all_entities self)))
      /\ rel_uses (get_entity_relationships self n)
         = map (fun o => name (base o))
             (filter (is_used (base entity)) (PyDict.values (all_entities self)))
  end.
Proof.
  unfold get_entity_by_name, get_entity_relationships.
  destruct (PyDict.get n (all_entities self)) as [entity|]; [|reflexivity].
  rewrite usage_fold. cbn [rel_uses rel_used_by].
  assert (H : rel_uses (match entity with
                        | EModule m => module_relationships self m no_relationships
                        | _ => no_relationships
                        end) = []
              /\ rel_used_by (match entity with
                              | EModule m => module_relationships self m no_relationships
                              | _ => no_relationships
                              end) = []).
  { destruct entity as [f | c | m]; try (split; reflexivity).
    apply module_relationships_usage. }
  destruct H as [-> ->]. split; reflexivity.
Qed.

(* ------------------------------------------------------------------ *)
(** ** An empty query *)

Lemma contains_empty s : PyStr.contains "" s = true.
Proof. destruct s; reflexivity. Qed.

(** X8.  [search_entities] itself does not reject the empty query: it
    answers with every entity of the index, or, given a non-empty kind
    filter, with every entity of that kind. *)
Theorem empty_query_matches_every_entity self entity_type :
  search_entities self "" entity_type
  = filter (fun e =>
              negb (PyStr.truthy entity_type)
              || String.eqb (kind_of e) (PyStr.str_or_empty entity_type))
      (PyDict.values (all_entities self)).
Proof.
  unfold search_entities. cbn [PyStr.lower].
  assert (H : forall entities results,
             fold_left (search_step "" entity_type) entities results
             = (results
                ++ filter (fun e =>
                             negb (PyStr.truthy entity_type)
                             || String.eqb (kind_of e) (PyStr.str_or_empty entity_type))
                     entities)%list).
  { induction entities as [|e entities IH]; intros results; cbn [fold_left filter].
    - now rewrite app_nil_r.
    - rewrite IH. unfold search_step at 1. rewrite contains_empty.
      destruct (PyStr.truthy entity_type);
        destruct (String.eqb (kind_of e) (PyStr.str_or_empty entity_type));
        cbn [negb andb orb]; rewrite <- ?app_assoc; reflexivity. }
  now rewrite H.
Qed.

(* ------------------------------------------------------------------ *)
(** ** When the computed end follows the documented rule *)

Lemma last_map_Some_snoc {A : Type} (l : list A) (x : A) :
  last (map Some (l ++ [x])%list) None = Some x.
Proof. rewrite map_app. apply last_app_single. Qed.

Lemma last_flat_map_none (cs : list Ast.child) (F : Ast.node -> Z) (d : Z) :
  existsb is_pos cs = false ->
  flat_map (fun child =>
              match child with
              | Ast.Pos _ ch => [F ch]
              | Ast.Bare _ _ _ => []
              end) cs = [].
Proof.
  induction cs as [|[f ch | f k sub] cs IH]; cbn; [reflexivity | discriminate | exact IH].
Qed.

Lemma node_end_on_located_ends node source_lines :
  ends_on_located_child node = true ->
  node_end node source_lines = spec_find_node_end node.
Proof.
  induction node as [cls lineno name doc children IH] using node_induction.
  intros H. cbn [ends_on_located_child] in H. apply andb_prop in H.
  destruct H as [Hlast Hall]. rewrite find_node_end_unfold.
  cbn [spec_find_node_end].
  destruct children as [|c0 cs0]; [reflexivity|].
  destruct (@exists_last _ (c0 :: cs0)) as [cs [c E]]; [discriminate|].
  rewrite E in *. clear E c0 cs0.
  rewrite last_map_Some_snoc in *. rewrite flat_map_app. cbn [flat_map].
  destruct c as [f ch | f k sub].
  - rewrite app_nil_r, last_app_single. apply (IH f ch).
    + apply in_or_app. right. now left.
    + rewrite forallb_app in Hall. apply andb_prop in Hall.
      destruct Hall as [_ Hall]. cbn in Hall. now rewrite andb_true_r in Hall.
  - cbn [is_pos] in Hlast. rewrite orb_false_r in Hlast.
    rewrite existsb_app in Hlast. cbn in Hlast. rewrite orb_false_r in Hlast.
    apply negb_true_iff in Hlast.
    rewrite (last_flat_map_none cs spec_find_node_end lineno Hlast). reflexivity.
Qed.

(** X9.  On a tree in which every node that has a child with a line number
    has one at its last index, [_find_node_end] follows the documented
    rule whenever the stack has a frame for every level of the tree:
    it descends into the last child that carries a line number until there
    is none, and returns that node's line.  With fewer frames it raises
    [RecursionError]. *)
Theorem find_node_end_follows_the_rule_on_located_ends frames node source_lines :
  ends_on_located_child node = true ->
  _find_node_end frames node source_lines
  = if (node_height node <=? frames)%nat
    then Ok (spec_find_node_end node) else Raise RecursionError.
Proof.
  intros H. rewrite find_node_end_run.
  now rewrite (node_end_on_located_ends node source_lines H).
Qed.

(** The class with two methods ends on its last statement, on line 5; an
    expression of 1200 nested operators is beyond the stack of the
    examples; the function with the subscript over two lines is outside
    the hypothesis. *)
Lemma find_node_end_follows_the_rule_on_located_ends_witness :
  ends_on_located_child Samples.subscript_def = false
  /\ ends_on_located_child Samples.twice_class = true
  /\ _find_node_end Samples.sample_limit Samples.twice_class [] = Ok 5
  /\ ends_on_located_child (Samples.nested_not 1 1200) = true
  /\ _find_node_end Samples.sample_limit (Samples.nested_not 1 1200) []
     = Raise RecursionError.
Proof.
  split; [reflexivity|]. split; [reflexivity|]. split; [|split].
  - rewrite (find_node_end_follows_the_rule_on_located_ends Samples.sample_limit
               Samples.twice_class []); [vm_compute|]; reflexivity.
  - vm_compute. reflexivity.
  - rewrite (find_node_end_follows_the_rule_on_located_ends Samples.sample_limit
               (Samples.nested_not 1 1200) []); vm_compute; reflexivity.
Defined.

(* ------------------------------------------------------------------ *)
(** ** Names of expressions *)

Lemma get_name_attribute line attr value rest :
  expr_name
    (Ast.Node "Attribute" line attr None (Ast.Pos "value" value :: rest))
  = expr_name value ++ "." ++ attr.
Proof. reflexivity. Qed.

Lemma string_app_assoc (a b c : string) : (a ++ b) ++ c = a ++ b ++ c.
Proof. induction a as [|x a IH]; cbn; [reflexivity | now rewrite IH]. Qed.

Lemma get_name_dotted line attrs :
  forall value,
    expr_name
      (fold_left (fun value attr =>
                    Ast.Node "Attribute" line attr None
                      [Ast.Pos "value" value; Ast.Bare "ctx" "Load" []])
         attrs value)
    = PyStr.join "." (expr_name value :: attrs).
Proof.
  induction attrs as [|a attrs IH]; intros value; [reflexivity|].
  cbn [fold_left]. rewrite IH, get_name_attribute.
  unfold PyStr.join. cbn [String.concat].
  destruct attrs as [|b attrs]; [reflexivity|].
  now rewrite !string_app_assoc.
Qed.

Lemma name_height_dotted line attrs :
  forall value,
    name_height
      (fold_left (fun value attr =>
                    Ast.Node "Attribute" line attr None
                      [Ast.Pos "value" value; Ast.Bare "ctx" "Load" []])
         attrs value)
    = (List.length attrs + name_height value)%nat.
Proof.
  induction attrs as [|a attrs IH]; intros value; [reflexivity|].
  cbn [fold_left List.length]. rewrite IH.
  change (name_height (Ast.Node "Attribute" line a None
                         [Ast.Pos "value" value; Ast.Bare "ctx" "Load" []]))
    with (S (name_height value)).
  lia.
Qed.

(** X10.  Given a frame for each part of the name and two more,
    [_get_name_from_expr] renders a dotted name [first.a1.a2...], as the
    parser builds it from [Attribute] nodes around a [Name], as that
    dotted name; a subscript of it as the dotted name followed by [[...]]
    when the index is an expression of its own (Python 3.9 and later); in
    the tree of Python 3.8, where the index is wrapped in an [Index], as
    the dotted name followed by the index in brackets when the index is a
    plain name, and by [[...]] when it is anything else; and a call, like
    any other expression, as the name of its node class. *)
Theorem dotted_names_are_rendered_as_written frames line first attrs index :
  (List.length attrs + 2 <= frames)%nat ->
  _get_name_from_expr frames (dotted_expr line first attrs)
  = Ok (PyStr.join "." (first :: attrs))
  /\ _get_name_from_expr frames
       (Ast.Node "Subscript" line "" None
          [Ast.Pos "value" (dotted_expr line first attrs);
           Ast.Pos "slice" index; Ast.Bare "ctx" "Load" []])
     = Ok (PyStr.join "." (first :: attrs) ++ "[...]")
  /\ _get_name_from_expr frames
       (Ast.Node "Subscript" line "" None
          [Ast.Pos "value" (dotted_expr line first attrs);
           Ast.Bare "slice" "Index" [Ast.Pos "value" index]; Ast.Bare "ctx" "Load" []])
     = Ok (PyStr.join "." (first :: attrs)
           ++ (if Ast.isinstance index "Name"
               then "[" ++ Ast.name index ++ "]" else "[...]"))
  /\ _get_name_from_expr frames
       (Ast.Node "Call" line "" None [Ast.Pos "func" (dotted_expr line first attrs)])
     = Ok "Call".
Proof.
  intros Hframes.
  assert (H : expr_name (dotted_expr line first attrs)
              = PyStr.join "." (first :: attrs)).
  { unfold dotted_expr. now rewrite get_name_dotted. }
  assert (Hh : name_height (dotted_expr line first attrs) = S (List.length attrs)).
  { unfold dotted_expr. rewrite name_height_dotted.
    change (name_height (Ast.Node "Name" line first None [Ast.Bare "ctx" "Load" []]))
      with 1%nat. lia. }
  rewrite !get_name_run, !name_height_unfold, !expr_name_unfold.
  cbn [Ast.node_in Ast.nodes_in hd_error Ast.bare_in String.eqb Ascii.eqb Bool.eqb].
  cbv zeta. rewrite Hh, H.
  assert (L1 : (S (List.length attrs) <=? frames)%nat = true) by (apply Nat.leb_le; lia).
  assert (L2 : (S (S (List.length attrs)) <=? frames)%nat = true) by (apply Nat.leb_le; lia).
  assert (L3 : (1 <=? frames)%nat = true) by (apply Nat.leb_le; lia).
  rewrite L1, L2, L3.
  split; [reflexivity|]. split; [reflexivity|]. split; [|reflexivity].
  now destruct (Ast.isinstance index "Name").
Qed.

(** [typing.List] subscripted with [int]: [typing.List[...]] in the tree
    of Python 3.9, [typing.List[int]] in that of Python 3.8. *)
Lemma dotted_names_are_rendered_as_written_witness :
  _get_name_from_expr Samples.sample_limit
    (Ast.Node "Subscript" 1 "" None
       [Ast.Pos "value" (dotted_expr 1 "typing" ["List"]);
        Ast.Pos "slice" (Ast.Node "Name" 1 "int" None [Ast.Bare "ctx" "Load" []]);
        Ast.Bare "ctx" "Load" []])
  = Ok "typing.List[...]"
  /\ _get_name_from_expr Samples.sample_limit
       (Ast.Node "Subscript" 1 "" None
          [Ast.Pos "value" (dotted_expr 1 "typing" ["List"]);
           Ast.Bare "slice" "Index"
             [Ast.Pos "value" (Ast.Node "Name" 1 "int" None [Ast.Bare "ctx" "Load" []])];
           Ast.Bare "ctx" "Load" []])
     = Ok "typing.List[int]".
Proof.
  destruct (dotted_names_are_rendered_as_written Samples.sample_limit 1 "typing" ["List"]
              (Ast.Node "Name" 1 "int" None [Ast.Bare "ctx" "Load" []]))
    as (_ & H39 & H38 & _).
  - unfold Samples.sample_limit. cbn [List.length]. lia.
  - split; [exact H39 | exact H38].
Defined.

(* ------------------------------------------------------------------ *)
(** ** What one file contributes *)

Lemma keys_write_all {V : Type} (ws : list (string * V)) (d : PyDict.dict V) k :
  In k (PyDict.keys (write_all ws d)) <-> In k (PyDict.keys d) \/ In k (map fst ws).
Proof.
  rewrite !in_keys_get. rewrite get_write_all.
  destruct (latest k ws) as [v|] eqn:E.
  - split; [|intros _; now exists v]. intros _. right.
    apply latest_in in E. now apply (in_map fst _ (k, v)).
  - apply latest_none_iff in E. split; [now left | intros [H | H]; [exact H | contradiction]].
Qed.

(** A declaration that fits the stack is stored under all of its names. *)
Lemma node_writes_names frames self fp fc node :
  node_fits frames node = true ->
  map fst (node_writes frames self fp fc node) = node_names node.
Proof.
  unfold node_fits, node_writes, node_names.
  destruct (Ast.isinstance node "ClassDef").
  - intros H. destruct (class_fits_parts _ _ H) as [Hhead Hall].
    unfold method_writes. rewrite H, Hhead, Hall, map_app, map_map. reflexivity.
  - destruct (Ast.isinstance node "FunctionDef"); [|reflexivity].
    now intros ->.
Qed.

Lemma map_fst_flat_map {A V : Type} (f : A -> list (string * V)) (g : A -> list string)
    (l : list A) :
  (forall a, In a l -> map fst (f a) = g a) -> map fst (flat_map f l) = flat_map g l.
Proof.
  intros H. induction l as [|a l IH]; [reflexivity|].
  cbn. rewrite map_app, (H a) by now left. rewrite IH; [reflexivity|].
  intros b Hb. apply H. now right.
Qed.

(** X11.  A file that is read and parsed.  [_index_file] returns when
    every declaration of the file fits the stack, and is left by
    [RecursionError] otherwise; either way the loop of [index_codebase]
    goes on with the indexer as the file left it, which loses no key and
    gains none but names of the file: its module name, the names of the
    classes and functions at the top of the module, and the qualified names
    of the methods declared directly in those classes (nothing nested
    deeper, no [async def]).  When every declaration fits, all of these
    are added; the module is assigned last, to both indexes, so that under
    the module name both hold the module, even when the file declares a
    class or function of that name.  When one does not fit, the file is
    left half indexed: the module index is as it was, and the declarations
    before the first that does not fit are stored. *)
Theorem what_a_file_contributes env self fp fc m :
  read_text env fp = Ok fc ->
  ast_parse env fc = Ok m ->
  _index_file env self fp
  = (index_one env self fp, if file_fits env m then Ok tt else Raise RecursionError)
  /\ (forall k,
         In k (PyDict.keys (all_entities (index_one env self fp))) ->
         In k (PyDict.keys (all_entities self)) \/ In k (file_names fp m))
  /\ (forall k,
         In k (PyDict.keys (all_entities self)) ->
         In k (PyDict.keys (all_entities (index_one env self fp))))
  /\ (file_fits env m = true ->
      (forall k,
          In k (PyDict.keys (all_entities (index_one env self fp))) <->
          In k (PyDict.keys (all_entities self)) \/ In k (file_names fp m))
      /\ (forall k,
             In k (PyDict.keys (modules (index_one env self fp))) <->
             In k (PyDict.keys (modules self)) \/ k = module_name_of fp)
      /\ exists module,
          get_entity_by_name (index_one env self fp) (module_name_of fp)
          = Some (EModule module)
          /\ PyDict.get (module_name_of fp) (modules (index_one env self fp)) = Some module
          /\ name (module_base module) = module_name_of fp
          /\ code_snippet (module_base module) = Some fc
          /\ imports module = _extract_imports m)
  /\ (file_fits env m = false ->
      modules (index_one env self fp) = modules self
      /\ forall pre node post,
          Ast.body m = (pre ++ node :: post)%list ->
          forallb (node_fits (recursion_limit env)) pre = true ->
          forall k,
            In k (flat_map node_names pre) ->
            In k (PyDict.keys (all_entities (index_one env self fp)))).
Proof.
  intros Hread Hparse.
  assert (Hp : parsed env fp = Some (fc, m)).
  { unfold parsed. now rewrite Hread, Hparse. }
  pose proof (index_file_parsed env self fp fc m Hp) as Hfile.
  rewrite index_one_spec.
  split; [exact Hfile|]. cbn [apply_writes all_entities modules].
  split; [|split; [|split]].
  - intros k Hk. apply keys_write_all in Hk. destruct Hk as [Hk | Hk]; [now left|].
    right. now apply (file_writes_keys env self fp fc m).
  - intros k Hk. apply keys_write_all. now left.
  - intros Hfit. unfold file_writes, file_module_writes. rewrite Hp, Hfit.
    unfold file_fits in Hfit. apply andb_prop in Hfit. destruct Hfit as [_ Hfit].
    destruct (visited_all _ _ Hfit) as [-> _].
    unfold get_entity_by_name. cbn [apply_writes all_entities modules].
    split; [|split].
    + intros k. rewrite keys_write_all, map_app.
      rewrite (map_fst_flat_map _ node_names).
      * reflexivity.
      * intros node Hn. apply node_writes_names.
        rewrite forallb_forall in Hfit. now apply Hfit.
    + intros k. rewrite keys_write_all. cbn [map fst].
      split; (intros [H | H]; [now left | right]).
      * destruct H as [<- | []]. reflexivity.
      * now left.
    + exists (module_entity_of self fp fc m).
      split; [|split; [|split; [|split]]].
      * rewrite get_write_all, latest_app. cbn [latest fst snd].
        now rewrite String.eqb_refl.
      * rewrite get_write_all. cbn [latest]. now rewrite String.eqb_refl.
      * apply name_module_entity_of.
      * unfold module_entity_of. cbn [module_base].
        match goal with
        | |- context [CodeEntity_init ?n ?f ?ls ?le ?d ?c ?t] =>
            now destruct (span_CodeEntity_init n f ls le d c t) as (_ & _ & ->)
        end.
      * reflexivity.
  - intros Hfit. unfold file_writes, file_module_writes. rewrite Hp, Hfit.
    split; [reflexivity|].
    intros pre node post Hbody Hpre k Hk. rewrite Hbody.
    rewrite (visited_app _ pre) by exact Hpre.
    apply keys_write_all. right. rewrite app_nil_r, flat_map_app, map_app.
    apply in_or_app. left.
    rewrite (map_fst_flat_map _ node_names); [exact Hk|].
    intros n Hn. apply node_writes_names. rewrite forallb_forall in Hpre. now apply Hpre.
Qed.

(** [two.py] with five frames left: the flat function [old] is stored, the
    nested function [deep] ends the file, and no module [two] is
    stored. *)
Lemma what_a_file_contributes_witness :
  file_fits Samples.tight_env Samples.two_module = false
  /\ _index_file Samples.tight_env Samples.indexer "/repo/two.py"
     = (index_one Samples.tight_env Samples.indexer "/repo/two.py",
        Raise RecursionError)
  /\ PyDict.keys
       (all_entities (index_one Samples.tight_env Samples.indexer "/repo/two.py"))
     = ["old"]
  /\ modules (index_one Samples.tight_env Samples.indexer "/repo/two.py")
     = modules Samples.indexer.
Proof.
  destruct (what_a_file_contributes Samples.tight_env Samples.indexer "/repo/two.py"
              Samples.two_source Samples.two_module)
    as (Hfile & _ & _ & _ & Hhalf); [reflexivity | reflexivity |].
  split; [vm_compute; reflexivity|]. split; [exact Hfile|].
  split; [vm_compute; reflexivity|].
  apply Hhalf. vm_compute. reflexivity.
Defined.

(* ------------------------------------------------------------------ *)
(** ** The entity route *)

(** X12.  On an index the program can hold, the [/entity/<name>] route
    answers 404 exactly for the names that are no key of the entity index,
    and otherwise returns the stored entity, which carries the requested
    name, with the relationships computed for that name. *)
Theorem entity_route_returns_the_named_entity self n :
  reachable (code_indexer self) ->
  match get_entity self n with
  | EntityNotFound error =>
      ~ In n (PyDict.keys (all_entities (code_indexer self)))
      /\ error = "Entity '" ++ n ++ "' not found"
  | EntityFound entity relationships =>
      In (n, entity) (all_entities (code_indexer self))
      /\ name (base entity) = n
      /\ relationships = get_entity_relationships (code_indexer self) n
  end.
Proof.
  intros Hr. unfold get_entity, get_entity_by_name.
  destruct (PyDict.get n (all_entities (code_indexer self))) as [entity|] eqn:E.
  - pose proof (get_some_in _ _ _ E) as Hin. split; [exact Hin|].
    split; [now apply (reachable_names (code_indexer self)) | reflexivity].
  - split; [|reflexivity]. rewrite in_keys_get. intros [v Hv]. congruence.
Qed.

Lemma entity_route_returns_the_named_entity_witness :
  get_entity (mkServer (Samples.after_pass Samples.example_env Samples.indexer) None)
    "Bar"
  = EntityNotFound "Entity 'Bar' not found"
  /\ match get_entity
             (mkServer (Samples.after_pass Samples.example_env Samples.indexer) None)
             "Foo.bar" with
     | EntityNotFound error =>
         ~ In "Foo.bar"
             (PyDict.keys
                (all_entities
                   (code_indexer
                      (mkServer (Samples.after_pass Samples.example_env Samples.indexer)
                         None))))
         /\ error = "Entity '" ++ "Foo.bar" ++ "' not found"
     | EntityFound entity relationships =>
         In ("Foo.bar", entity)
           (all_entities
              (code_indexer
                 (mkServer (Samples.after_pass Samples.example_env Samples.indexer)
                    None)))
         /\ name (base entity) = "Foo.bar"
         /\ relationships
            = get_entity_relationships
                (code_indexer
                   (mkServer (Samples.after_pass Samples.example_env Samples.indexer)
                      None)) "Foo.bar"
     end.
Proof.
  split; [vm_compute; reflexivity|].
  apply (entity_route_returns_the_named_entity
           (mkServer (Samples.after_pass Samples.example_env Samples.indexer) None)
           "Foo.bar").
  apply (reach_pass Samples.example_env Samples.indexer);
    [apply reach_init | vm_compute; reflexivity].
Defined.

(* ------------------------------------------------------------------ *)
(** ** Searching the documentation *)

Lemma doc_matches_spec query_lower lines rest :
  forall pre mt,
    lines = (pre ++ rest)%list ->
    In mt (doc_matches query_lower lines rest (Z.of_nat (List.length pre))) ->
    exists line,
      nth_error lines (Z.to_nat (match_line mt - 1)) = Some line
      /\ PyStr.contains query_lower (PyStr.lower line) = true
      /\ 1 <= match_line mt <= Z.of_nat (List.length lines)
      /\ match_context mt
         = PyStr.join PyStr.NL
             (PyStr.slice lines (Z.max 0 (match_line mt - 3))
                (Z.min (Z.of_nat (List.length lines)) (match_line mt + 2))).
Proof.
  induction rest as [|line rest IH]; intros pre mt Hlines Hin; [destruct Hin|].
  cbn [doc_matches] in Hin.
  assert (Hnext : In mt (doc_matches query_lower lines rest
                           (Z.of_nat (List.length (pre ++ [line])%list))) ->
                  exists line0,
                    nth_error lines (Z.to_nat (match_line mt - 1)) = Some line0
                    /\ PyStr.contains query_lower (PyStr.lower line0) = true
                    /\ 1 <= match_line mt <= Z.of_nat (List.length lines)
                    /\ match_context mt
                       = PyStr.join PyStr.NL
                           (PyStr.slice lines (Z.max 0 (match_line mt - 3))
                              (Z.min (Z.of_nat (List.length lines)) (match_line mt + 2)))).
  { apply IH. now rewrite <- app_assoc. }
  replace (Z.of_nat (List.length (pre ++ [line])%list))
    with (Z.of_nat (List.length pre) + 1) in Hnext
    by (rewrite length_app; cbn [List.length]; lia).
  destruct (PyStr.contains query_lower (PyStr.lower line)) eqn:Ec; [|now apply Hnext].
  destruct Hin as [<- | Hin]; [|now apply Hnext].
  cbn [match_line match_context]. exists line.
  replace (Z.to_nat (Z.of_nat (List.length pre) + 1 - 1)) with (List.length pre) by lia.
  split; [subst lines; rewrite nth_error_app2 by lia; now rewrite Nat.sub_diag|].
  split; [exact Ec|]. split.
  - subst lines. rewrite length_app. cbn [List.length]. lia.
  - do 2 f_equal; lia.
Qed.

(** X13.  Every result of [search_docs] stands for a document of the
    parser whose text contains the query without regard to case, with that
    document's path and title; and every match of it names a line of that
    text, counted from 1, which contains the query without regard to case,
    with the (at most five) lines from two before to two after as
    context. *)
Theorem search_docs_matches_name_matching_lines self query r :
  In r (search_docs self query) ->
  exists d,
    In d (PyDict.values (doc_files self))
    /\ result_path r = doc_path d
    /\ result_title r = doc_title d
    /\ PyStr.contains (PyStr.lower query) (PyStr.lower (doc_content d)) = true
    /\ forall mt,
        In mt (result_matches r) ->
        exists line,
          nth_error (PyStr.split PyStr.LF (doc_content d)) (Z.to_nat (match_line mt - 1))
          = Some line
          /\ PyStr.contains (PyStr.lower query) (PyStr.lower line) = true
          /\ 1 <= match_line mt
             <= Z.of_nat (List.length (PyStr.split PyStr.LF (doc_content d)))
          /\ match_context mt
             = PyStr.join PyStr.NL
                 (PyStr.slice (PyStr.split PyStr.LF (doc_content d))
                    (Z.max 0 (match_line mt - 3))
                    (Z.min (Z.of_nat (List.length (PyStr.split PyStr.LF (doc_content d))))
                       (match_line mt + 2))).
Proof.
  unfold search_docs. intros Hin. apply in_flat_map in Hin.
  destruct Hin as [d [Hd Hin]]. exists d. split; [exact Hd|].
  destruct (PyStr.contains (PyStr.lower query) (PyStr.lower (doc_content d))) eqn:Ec;
    [|destruct Hin].
  destruct Hin as [<- | []]. cbn [result_path result_title result_matches].
  split; [reflexivity|]. split; [reflexivity|]. split; [reflexivity|].
  intros mt Hmt.
  now apply (doc_matches_spec (PyStr.lower query)
               (PyStr.split PyStr.LF (doc_content d))
               (PyStr.split PyStr.LF (doc_content d)) [] mt).
Qed.

Lemma search_docs_matches_name_matching_lines_witness :
  search_docs sample_docs "CALL"
  = [ mkDocResult "guide.md" "Guide"
        [ mkDocMatch 3 (PyStr.join PyStr.NL
                          ["# Guide"; ""; "Call Foo first."; "Then call baz."; "Done."]);
          mkDocMatch 4 (PyStr.join PyStr.NL
                          [""; "Call Foo first."; "Then call baz."; "Done."]) ] ]
  /\ exists d,
      In d (PyDict.values (doc_files sample_docs))
      /\ doc_path d = "guide.md".
Proof.
  split; [vm_compute; reflexivity|].
  destruct (search_docs_matches_name_matching_lines sample_docs "CALL"
              (mkDocResult "guide.md" "Guide"
                 [ mkDocMatch 3 (PyStr.join PyStr.NL
                                   ["# Guide"; ""; "Call Foo first."; "Then call baz."; "Done."]);
                   mkDocMatch 4 (PyStr.join PyStr.NL
                                   [""; "Call Foo first."; "Then call baz."; "Done."]) ]))
    as [d [Hd [Hpath _]]].
  - vm_compute. left. reflexivity.
  - exists d. split; [exact Hd | now rewrite <- Hpath].
Defined.

(* ------------------------------------------------------------------ *)
(** ** The import lists, in closed form *)

Lemma fold_left_flat_map {A B : Type} (f : A -> list B) (l : list A) :
  forall acc, fold_left (fun acc a => (acc ++ f a)%list) l acc = (acc ++ flat_map f l)%list.
Proof.
  induction l as [|a l IH]; intros acc; cbn; [now rewrite app_nil_r|].
  now rewrite IH, app_assoc.
Qed.

Lemma imported_by_fold (own_name : string) (others : list ModuleEntity) :
  forall r,
    fold_left (fun r other_module =>
      fold_left (fun r import_stmt =>
        if PyStr.contains own_name import_stmt
        then add_imported_by (name (module_base other_module)) r else r)
        (imports other_module) r) others r
    = mkRelationships (rel_imports r)
        (rel_imported_by r
         ++ flat_map (fun o =>
              flat_map (fun stmt =>
                if PyStr.contains own_name stmt then [name (module_base o)] else [])
                (imports o)) others)%list
        (rel_uses r) (rel_used_by r).
Proof.
  induction others as [|o others IH]; intros r.
  - cbn. rewrite app_nil_r. now destruct r.
  - cbn [fold_left flat_map]. rewrite IH. clear IH.
    assert (H : forall stmts r0,
               fold_left (fun r import_stmt =>
                 if PyStr.contains own_name import_stmt
                 then add_imported_by (name (module_base o)) r else r) stmts r0
               = mkRelationships (rel_imports r0)
                   (rel_imported_by r0
                    ++ flat_map (fun stmt =>
                         if PyStr.contains own_name stmt
                         then [name (module_base o)] else []) stmts)%list
                   (rel_uses r0) (rel_used_by r0)).
    { induction stmts as [|stmt stmts IHs]; intros r0.
      - cbn. rewrite app_nil_r. now destruct r0.
      - cbn [fold_left flat_map]. rewrite IHs.
        destruct (PyStr.contains own_name stmt);
          cbn [rel_imports rel_imported_by rel_uses rel_used_by add_imported_by app];
          rewrite <- ?app_assoc; reflexivity. }
    rewrite H. cbn [rel_imports rel_imported_by rel_uses rel_used_by].
    now rewrite <- app_assoc.
Qed.

Lemma imports_fold (known : list string) (stmts : list string) :
  forall r,
    fold_left (fun r import_stmt =>
      fold_left (fun r other_module_name =>
        if PyStr.contains other_module_name import_stmt
        then add_imports other_module_name r else r) known r) stmts r
    = mkRelationships
        (rel_imports r
         ++ flat_map (fun stmt => filter (fun k => PyStr.contains k stmt) known) stmts)%list
        (rel_imported_by r) (rel_uses r) (rel_used_by r).
Proof.
  induction stmts as [|stmt stmts IH]; intros r.
  - cbn. rewrite app_nil_r. now destruct r.
  - cbn [fold_left flat_map]. rewrite IH. clear IH.
    assert (H : forall ks r0,
               fold_left (fun r other_module_name =>
                 if PyStr.contains other_module_name stmt
                 then add_imports other_module_name r else r) ks r0
               = mkRelationships
                   (rel_imports r0 ++ filter (fun k => PyStr.contains k stmt) ks)%list
                   (rel_imported_by r0) (rel_uses r0) (rel_used_by r0)).
    { induction ks as [|k ks IHk]; intros r0.
      - cbn. rewrite app_nil_r. now destruct r0.
      - cbn [fold_left filter]. rewrite IHk.
        destruct (PyStr.contains k stmt);
          cbn [rel_imports rel_imported_by rel_uses rel_used_by add_imports app];
          rewrite <- ?app_assoc; reflexivity. }
    rewrite H. cbn [rel_imports rel_imported_by rel_uses rel_used_by].
    now rewrite <- app_assoc.
Qed.

(** X14.  For a module, [imported_by] lists the name of each module of the
    module index once for every one of its import strings that contains
    this module's name as a substring (the module itself is not left out),
    and [imports] lists, for each import string of this module in turn,
    every key of the module index that is a substring of it.  For a class
    or a function both lists are empty. *)
Theorem import_lists_in_closed_form self n :
  match get_entity_by_name self n with
  | Some (EModule m) =>
      rel_imported_by (get_entity_relationships self n)
      = flat_map (fun o =>
          flat_map (fun stmt =>
            if PyStr.contains (name (module_base m)) stmt
            then [name (module_base o)] else []) (imports o))
          (PyDict.values (modules self))
      /\ rel_imports (get_entity_relationships self n)
         = flat_map (fun stmt =>
             filter (fun k => PyStr.contains k stmt) (PyDict.keys (modules self)))
             (imports m)
  | _ =>
      rel_imported_by (get_entity_relationships self n) = []
      /\ rel_imports (get_entity_relationships self n) = []
  end.
Proof.
  unfold get_entity_by_name, get_entity_relationships.
  destruct (PyDict.get n (all_entities self)) as [[f | c | m]|];
    try (rewrite ?usage_fold; split; reflexivity).
  rewrite usage_fold. cbn [rel_imports rel_imported_by base].
  unfold module_relationships. rewrite imported_by_fold, imports_fold.
  cbn [rel_imports rel_imported_by no_relationships app]. split; reflexivity.
Qed.

(* ------------------------------------------------------------------ *)
(** ** What [/sync] sends *)

Lemma set_absent {V : Type} (k : string) (v : V) (d : PyDict.dict V) :
  ~ In k (PyDict.keys d) -> PyDict.set k v d = (d ++ [(k, v)])%list.
Proof.
  induction d as [|[k0 v0] d IH]; cbn; [reflexivity|].
  intros H. destruct (String.eqb_spec k0 k) as [-> | Hne]; [exfalso; apply H; now left|].
  f_equal. apply IH. intros Hin. apply H. now right.
Qed.

Lemma entities_data_fold (entities : list Entity) :
  forall d : PyDict.dict SyncEntry,
    NoDup (map (fun e => name (base e)) entities) ->
    (forall e, In e entities -> kind_of e = variant_kind e) ->
    (forall e, In e entities -> ~ In (name (base e)) (PyDict.keys d)) ->
    fold_left (fun entities_data entity =>
      if String.eqb (kind_of entity) "module"
      then PyDict.set (name (base entity)) (sync_entry entity) entities_data
      else entities_data) entities d
    = (d ++ map (fun m => (name (module_base m), sync_entry (EModule m)))
              (modules_in entities))%list.
Proof.
  induction entities as [|e entities IH]; intros d Hnd Hkind Hfresh.
  - cbn. now rewrite app_nil_r.
  - cbn [fold_left]. cbn [map] in Hnd. inversion Hnd as [|? ? Hout Hnd']; subst.
    rewrite (Hkind e) by now left.
    assert (Hkind' : forall e', In e' entities -> kind_of e' = variant_kind e')
      by (intros e' H; apply Hkind; now right).
    destruct e as [f | c | m]; cbn [variant_kind String.eqb Ascii.eqb Bool.eqb].
    + apply IH; [exact Hnd' | exact Hkind' | intros e' H; apply Hfresh; now right].
    + apply IH; [exact Hnd' | exact Hkind' | intros e' H; apply Hfresh; now right].
    + rewrite set_absent by (apply (Hfresh (EModule m)); now left).
      rewrite IH; [| exact Hnd' | exact Hkind' |].
      * unfold modules_in. cbn [flat_map app map base]. now rewrite <- app_assoc.
      * intros e' H Hin. unfold PyDict.keys in Hin. rewrite map_app in Hin.
        apply in_app_or in Hin. destruct Hin as [Hin | [E | []]].
        -- apply (Hfresh e'); [now right | exact Hin].
        -- apply Hout. cbn [fst] in E. rewrite E. apply in_map_iff.
           now exists e'.
Qed.

Lemma reachable_value_names self :
  reachable self ->
  map (fun e => name (base e)) (PyDict.values (all_entities self))
  = PyDict.keys (all_entities self).
Proof.
  intros Hr. unfold PyDict.values, PyDict.keys. rewrite map_map.
  apply map_ext_in. intros [k e] Hin. cbn [fst snd].
  now apply (reachable_names self k e).
Qed.

Lemma reachable_kind self e :
  reachable self -> In e (PyDict.values (all_entities self)) ->
  kind_of e = variant_kind e.
Proof.
  intros Hr Hin. apply in_values_entry in Hin. destruct Hin as [k Hin].
  exact (reachable_entries (fun _ e => kind_of e = variant_kind e)
           written_kind self Hr k e Hin).
Qed.

(** X15.  With both credentials set, and on every index the program can
    hold, [/sync] posts one entry for each module entity held in the entity
    index, in the order of that index and keyed by the module's name, with
    the names of the module's classes and functions, and answers from the
    outcome of that one request; classes and functions are not sent, and
    neither is a module whose place in the entity index a later class or
    function of the same name has taken. *)
Theorem sync_posts_the_modules_of_the_entity_index post self gitbook_space_id gitbook_token :
  reachable (code_indexer self) ->
  PyStr.truthy gitbook_space_id = true ->
  PyStr.truthy gitbook_token = true ->
  sync_to_gitbook post self gitbook_space_id gitbook_token
  = sync_answer
      (post (mkPostRequest
               ("https://api.gitbook.com/v1/spaces/"
                ++ PyStr.str_or_empty gitbook_space_id ++ "/content")
               [ ("Authorization", "Bearer " ++ PyStr.str_or_empty gitbook_token);
                 ("Content-Type", "application/json") ]
               (map (fun m =>
                       (name (module_base m),
                        mkSyncEntry (name (module_base m)) "module"
                          (filepath (module_base m))
                          (PyStr.str_or_empty (docstring (module_base m)))
                          (map (fun c => name (class_base c)) (classes m))
                          (map (fun f => name (function_base f)) (functions m))))
                    (modules_in (PyDict.values (all_entities (code_indexer self))))))).
Proof.
  intros Hr Hs Ht. unfold sync_to_gitbook. rewrite Hs, Ht. cbn [negb orb].
  do 3 f_equal. unfold entities_data.
  rewrite entities_data_fold.
  - cbn [app PyDict.empty]. apply map_ext_in. intros m Hm. f_equal.
    unfold sync_entry. cbn [base getattr_classes getattr_functions]. f_equal.
    assert (Hin : In (EModule m) (PyDict.values (all_entities (code_indexer self)))).
    { unfold modules_in in Hm. apply in_flat_map in Hm. destruct Hm as [e [He Hm]].
      destruct e as [f | c | m']; [destruct Hm | destruct Hm |].
      destruct Hm as [<- | []]. exact He. }
    exact (reachable_kind _ _ Hr Hin).
  - rewrite reachable_value_names by exact Hr. now apply reachable_nodup.
  - intros e He. exact (reachable_kind _ e Hr He).
  - intros e _ [].
Qed.

(** After [old.py] and then [copy.py], which defines [old] too: the
    module index holds [old] and [copy], the request holds [copy] only. *)
Lemma sync_posts_the_modules_of_the_entity_index_witness :
  PyDict.keys
    (modules (Samples.after_pass Samples.copy_env
                (Samples.after_pass Samples.old_env Samples.indexer)))
  = ["old"; "copy"]
  /\ PyDict.keys
       (entities_data (Samples.after_pass Samples.copy_env
                         (Samples.after_pass Samples.old_env Samples.indexer)))
     = ["copy"]
  /\ sync_to_gitbook accepting_post
       (mkServer (Samples.after_pass Samples.copy_env
                    (Samples.after_pass Samples.old_env Samples.indexer)) None)
       (Some "space") (Some "token")
     = SyncSuccess "Synced to GitBook".
Proof.
  split; [vm_compute; reflexivity|]. split; [vm_compute; reflexivity|].
  rewrite (sync_posts_the_modules_of_the_entity_index accepting_post
             (mkServer (Samples.after_pass Samples.copy_env
                          (Samples.after_pass Samples.old_env Samples.indexer)) None)
             (Some "space") (Some "token")).
  - reflexivity.
  - cbn [code_indexer].
    apply (reach_pass Samples.copy_env
             (Samples.after_pass Samples.old_env Samples.indexer)).
    + apply (reach_pass Samples.old_env Samples.indexer).
      * apply reach_init.
      * vm_compute. reflexivity.
    + vm_compute. reflexivity.
  - reflexivity.
  - reflexivity.
Defined.

(* ------------------------------------------------------------------ *)
(** ** Indexing, then searching *)

Lemma prefix_refl s : String.prefix s s = true.
Proof.
  induction s as [|c s IH]; [reflexivity|].
  cbn. destruct (ascii_dec c c) as [_ | Hne]; [exact IH | contradiction].
Qed.

Lemma contains_refl s : PyStr.contains s s = true.
Proof.
  destruct s as [|c s]; [reflexivity|].
  cbn [PyStr.contains]. now rewrite prefix_refl.
Qed.

(** X16.  Whatever the program has indexed can be found again: in every
    index the program can hold, the entity stored under a name is among
    the results of [search_entities] for that name written in any letter
    case, without a kind filter and with the entity's own kind as filter,
    and [get_entity_by_name] returns it for the name as stored. *)
Theorem indexed_entity_is_found_by_its_name self n entity query :
  reachable self ->
  In (n, entity) (all_entities self) ->
  query <> "" ->
  PyStr.lower query = PyStr.lower n ->
  In entity (search_entities self query None)
  /\ In entity (search_entities self query (Some (variant_kind entity)))
  /\ get_entity_by_name self n = Some entity.
Proof.
  intros Hr Hin Hq Hlow.
  assert (Hname : name (base entity) = n) by now apply (reachable_names self).
  assert (Hval : In entity (PyDict.values (all_entities self))).
  { unfold PyDict.values. apply in_map_iff. now exists (n, entity). }
  assert (Hkind : kind_of entity = variant_kind entity) by now apply (reachable_kind self).
  assert (Hm : forall entity_type,
             negb (PyStr.truthy entity_type)
             || String.eqb (kind_of entity) (PyStr.str_or_empty entity_type) = true ->
             In entity (search_entities self query entity_type)).
  { intros entity_type Ht. unfold search_entities.
    rewrite search_fold by exact Hq. cbn [app]. apply filter_In. split; [exact Hval|].
    unfold entity_matches. rewrite Ht, Hname, Hlow, contains_refl. reflexivity. }
  split; [apply Hm; reflexivity|]. split.
  - apply Hm. cbn [PyStr.str_or_empty]. rewrite Hkind, String.eqb_refl. apply orb_true_r.
  - unfold get_entity_by_name.
    destruct (reachable_nodup self Hr) as [Hnd _]. clear - Hin Hnd.
    induction (all_entities self) as [|[k v] d IH]; [destruct Hin|].
    cbn [PyDict.get]. cbn [PyDict.keys map fst] in Hnd.
    inversion Hnd as [|? ? Hout Hnd']; subst.
    destruct Hin as [E | Hin].
    + injection E as -> ->. now rewrite String.eqb_refl.
    + destruct (String.eqb_spec k n) as [-> | Hne]; [|now apply IH].
      exfalso. apply Hout. apply in_map_iff. now exists (n, entity).
Qed.

(** The method [Foo.bar] of the example is found by [foo.BAR], before
    the function [baz] whose text calls it. *)
Lemma indexed_entity_is_found_by_its_name_witness :
  map (fun e => name (base e))
    (search_entities (Samples.after_pass Samples.example_env Samples.indexer)
       "foo.BAR" (Some "function"))
  = ["Foo.bar"; "baz"]
  /\ In (Samples.named (Samples.after_pass Samples.example_env Samples.indexer) "Foo.bar")
       (search_entities (Samples.after_pass Samples.example_env Samples.indexer)
          "foo.BAR" None).
Proof.
  split; [vm_compute; reflexivity|].
  refine (proj1 (indexed_entity_is_found_by_its_name
                   (Samples.after_pass Samples.example_env Samples.indexer)
                   "Foo.bar"
                   (Samples.named
                      (Samples.after_pass Samples.example_env Samples.indexer) "Foo.bar")
                   "foo.BAR" _ _ _ _)).
  - apply (reach_pass Samples.example_env Samples.indexer).
    + apply reach_init.
    + vm_compute. reflexivity.
  - vm_compute. left. reflexivity.
  - discriminate.
  - vm_compute. reflexivity.
Defined.
